(** * in-toto-golang: metadata model, canonical encoder, keys and signatures

    A shallow embedding of the Go sources under [src/in_toto]:

    - the prototype of package [main]: [Metablock] with [Load],
      [GetSignableRepresentation] and [VerifySignature], the canonical
      encoder [_encode_canonical], and the first [VerifySignature] of
      [keylib.go], which panics on failure;
    - the key library of package [in_toto]: [GenerateKeyId],
      [SetKeyComponents], [ParseKey], [LoadKey], [GenerateSignature] and
      [VerifySignature], which return Go errors.

    A Go [string] and a Go [[]byte] are both sequences of bytes; both are
    modelled by [string] (a list of 8-bit characters), so the conversions
    [string(b)] and [[]byte(s)] are the identity.  Functions of Go's standard
    library and of third-party packages are fields of the class [GoLib],
    except [encoding/hex], [strings.TrimSpace] on ASCII text and the
    integer-to-string conversion, which are written out. *)

From Stdlib Require Import ZArith NArith List String Ascii Bool Lia.
From Stdlib Require Import Permutation Sorted.
Import ListNotations.

Open Scope list_scope.
Open Scope string_scope.

(** ** Go basics *)

(** A call either returns or panics. *)
Inductive outcome (A : Type) : Type :=
| Ret (a : A)
| Panic (msg : string).

Arguments Ret {A} a.
Arguments Panic {A} msg.

Definition bind_outcome {A B} (o : outcome A) (k : A -> outcome B) : outcome B :=
  match o with
  | Ret a => k a
  | Panic msg => Panic msg
  end.

(** The one-character string. *)
Definition str (c : ascii) : string := String c EmptyString.

(** The double quote, byte 34. *)
Definition dquote : ascii := ascii_of_nat 34.

(** The backslash, byte 92. *)
Definition backslash : ascii := ascii_of_nat 92.

(** Go's [strings.asciiSpace]: tab, line feed, vertical tab, form feed,
    carriage return and space. *)
Definition asciiSpace (c : ascii) : bool :=
  let n := N_of_ascii c in
  ((9 <=? n) && (n <=? 13) || (n =? 32))%N.

(** [c >= utf8.RuneSelf]: the byte starts or continues a multi-byte rune. *)
Definition nonASCII (c : ascii) : bool := (128 <=? N_of_ascii c)%N.

(** An ASCII byte that is no white space. *)
Definition plain (c : ascii) : bool := negb (nonASCII c) && negb (asciiSpace c).

(** How many bytes of [s] are ASCII white space. *)
Fixpoint count_space (s : string) : nat :=
  match s with
  | EmptyString => 0
  | String c r => (if asciiSpace c then 1 else 0) + count_space r
  end.

(** ** Errors *)

(** The error values of the sources: the five sentinels of package [in_toto],
    the two errors of [encoding/hex], errors of other libraries (kept by
    their message), and [fmt.Errorf] with the verb [%w], which wraps an
    error and appends text. *)
Inductive error : Type :=
| ErrFailedPEMParsing
| ErrNoPEMBlock
| ErrUnsupportedKeyType
| ErrInvalidSignature
| ErrInvalidKeyType
| hex_InvalidByteError (c : ascii)
| hex_ErrLength
| LibError (msg : string)
| Wrap (e : error) (suffix : string).

Definition error_eqb_head (a b : error) : bool :=
  match a, b with
  | ErrFailedPEMParsing, ErrFailedPEMParsing => true
  | ErrNoPEMBlock, ErrNoPEMBlock => true
  | ErrUnsupportedKeyType, ErrUnsupportedKeyType => true
  | ErrInvalidSignature, ErrInvalidSignature => true
  | ErrInvalidKeyType, ErrInvalidKeyType => true
  | hex_InvalidByteError c, hex_InvalidByteError d => Ascii.eqb c d
  | hex_ErrLength, hex_ErrLength => true
  | LibError m, LibError n => String.eqb m n
  | _, _ => false
  end.

(** [errors.Is err target] for a sentinel [target]: [err] is [target], or
    wraps an error that is. *)
Fixpoint errors_Is (err target : error) : bool :=
  error_eqb_head err target ||
  match err with
  | Wrap e _ => errors_Is e target
  | _ => false
  end.

(** [err.Error()]. *)
Fixpoint Error (e : error) : string :=
  match e with
  | ErrFailedPEMParsing => "failed parsing the PEM block: unsupported PEM type"
  | ErrNoPEMBlock =>
      "failed to decode the data as PEM block (are you sure this is a pem file?)"
  | ErrUnsupportedKeyType => "unsupported key type"
  | ErrInvalidSignature => "invalid signature"
  | ErrInvalidKeyType => "invalid key type for this key"
  | hex_InvalidByteError c => "encoding/hex: invalid byte: " ++ str c
  | hex_ErrLength => "encoding/hex: odd length hex string"
  | LibError msg => msg
  | Wrap e suffix => Error e ++ ": " ++ suffix
  end.

(** A Go result pair [(value, error)] in which the value is only read when
    the error is nil. *)
Definition result (A : Type) : Type := (A + error)%type.

(** ** encoding/hex *)

(** [hextable]: the lower-case digit of a nibble. *)
Definition hextable (n : N) : ascii :=
  if (n <? 10)%N then ascii_of_N (48 + n) else ascii_of_N (87 + n).

Fixpoint hex_EncodeToString (src : string) : string :=
  match src with
  | EmptyString => EmptyString
  | String c r =>
      String (hextable (N_of_ascii c / 16))
        (String (hextable (N_of_ascii c mod 16)) (hex_EncodeToString r))
  end.

(** [reverseHexTable]: digits of either case; [None] stands for the table's
    0xff. *)
Definition fromHexChar (c : ascii) : option N :=
  let n := N_of_ascii c in
  if ((48 <=? n) && (n <=? 57))%N then Some (n - 48)%N
  else if ((97 <=? n) && (n <=? 102))%N then Some (n - 87)%N
  else if ((65 <=? n) && (n <=? 70))%N then Some (n - 55)%N
  else None.

(** [hex.DecodeString]: the bytes decoded before the first error, and the
    error.  An invalid byte is reported before an odd length. *)
Fixpoint hex_DecodeString (s : string) : string * option error :=
  match s with
  | EmptyString => (EmptyString, None)
  | String p EmptyString =>
      match fromHexChar p with
      | None => (EmptyString, Some (hex_InvalidByteError p))
      | Some _ => (EmptyString, Some hex_ErrLength)
      end
  | String p (String q rest) =>
      match fromHexChar p with
      | None => (EmptyString, Some (hex_InvalidByteError p))
      | Some a =>
          match fromHexChar q with
          | None => (EmptyString, Some (hex_InvalidByteError q))
          | Some b =>
              let (out, err) := hex_DecodeString rest in
              (String (ascii_of_N (a * 16 + b)) out, err)
          end
      end
  end.

(** A lower-case hexadecimal digit. *)
Definition is_lower_hex (c : ascii) : bool :=
  let n := N_of_ascii c in
  ((48 <=? n) && (n <=? 57) || (97 <=? n) && (n <=? 102))%N.

Fixpoint all_chars (p : ascii -> bool) (s : string) : bool :=
  match s with
  | EmptyString => true
  | String c r => p c && all_chars p r
  end.

(** One bit of one byte of a string flipped: bit [bit] of the byte at
    index [pos]. *)
Definition flip_bit (bit : N) (c : ascii) : ascii :=
  ascii_of_N (N.lxor (N_of_ascii c) (2 ^ bit)).

Fixpoint flip_bit_at (pos : nat) (bit : N) (s : string) : string :=
  match s, pos with
  | EmptyString, _ => EmptyString
  | String c r, O => String (flip_bit bit c) r
  | String c r, S pos' => String c (flip_bit_at pos' bit r)
  end.

(** A letter among the hexadecimal digits, of either case. *)
Definition is_hex_letter (c : ascii) : bool :=
  let n := N_of_ascii c in
  ((97 <=? n) && (n <=? 102) || (65 <=? n) && (n <=? 70))%N.

(** ** Conversion of an integer to a string

    Go's conversion [string(i)] of an integer yields the UTF-8 encoding of
    the code point [i], and the encoding of U+FFFD when [i] is no valid code
    point. *)

Definition byte_of_Z (z : Z) : ascii := ascii_of_N (Z.to_N z).

Definition utf8_RuneError : string :=
  String (byte_of_Z 239) (String (byte_of_Z 191) (str (byte_of_Z 189))).

Definition string_of_int (i : Z) : string :=
  if ((i <? 0) || (1114111 <? i) || ((55296 <=? i) && (i <=? 57343)))%Z
  then utf8_RuneError
  else if (i <=? 127)%Z then str (byte_of_Z i)
  else if (i <=? 2047)%Z then
    String (byte_of_Z (Z.lor 192 (Z.shiftr i 6)))
      (str (byte_of_Z (Z.lor 128 (Z.land i 63))))
  else if (i <=? 65535)%Z then
    String (byte_of_Z (Z.lor 224 (Z.shiftr i 12)))
      (String (byte_of_Z (Z.lor 128 (Z.land (Z.shiftr i 6) 63)))
         (str (byte_of_Z (Z.lor 128 (Z.land i 63)))))
  else
    String (byte_of_Z (Z.lor 240 (Z.shiftr i 18)))
      (String (byte_of_Z (Z.lor 128 (Z.land (Z.shiftr i 12) 63)))
         (String (byte_of_Z (Z.lor 128 (Z.land (Z.shiftr i 6) 63)))
            (str (byte_of_Z (Z.lor 128 (Z.land i 63)))))).

(** The decimal digits of an integer, as the specification words the
    integer case of the encoder.  It is not taken from the source; it is
    here to be compared with [string_of_int]. *)
Fixpoint decimal_digits (fuel : nat) (n : N) (acc : string) : string :=
  match fuel with
  | O => acc
  | S fuel' =>
      let acc' := String (ascii_of_N (48 + n mod 10)) acc in
      if (n / 10 =? 0)%N then acc' else decimal_digits fuel' (n / 10) acc'
  end.

Definition decimal_of_int (i : Z) : string :=
  let digits := decimal_digits (S (N.to_nat (N.log2 (Z.abs_N i)))) (Z.abs_N i) EmptyString in
  if (i <? 0)%Z then String "-"%char digits else digits.

(** The first byte of a string is above 127. *)
Definition starts_nonASCII (s : string) : bool :=
  match s with
  | EmptyString => false
  | String c _ => nonASCII c
  end.

(** The first byte of a string is an ASCII byte. *)
Definition starts_ASCII (s : string) : bool :=
  match s with
  | EmptyString => false
  | String c _ => negb (nonASCII c)
  end.

(** ** The canonical encoder of the prototype *)

Module CanonicalJSON.

#[warnings="-register-all"]
(** The dynamic types the type switch of [_encode_canonical] tells apart.
    A Go map has one entry per key and no order; it is given as the list of
    its entries in the order one [range] over it happens to yield them.
    [VSlice] is a value of type [[]interface{}] and [VMap] one of type
    [map[string]interface{}], the two the type switch names.  [VOther] is a
    value of any other dynamic type, such as the [float64] that
    [json.Unmarshal] produces for a number, a [[]string] or a
    [map[string]string]. *)
Inductive value : Type :=
| VString (s : string)
| VBool (b : bool)
| VInt (i : Z)
| VNil
| VSlice (l : list value)
| VMap (m : list (string * value))
| VOther.

(** [ReplaceAllString] with the pattern that matches one double quote and
    the replacement backslash-dollar-one: every double quote gets a
    backslash before it, every other byte is copied. *)
Fixpoint escape_quotes (s : string) : string :=
  match s with
  | EmptyString => EmptyString
  | String c r =>
      if Ascii.eqb c dquote
      then String backslash (String dquote (escape_quotes r))
      else String c (escape_quotes r)
  end.

Definition _encode_canonical_string (s : string) : string :=
  str dquote ++ escape_quotes s ++ str dquote.

(** [sort.Strings]: increasing byte-wise order. *)
Fixpoint insert_sorted (k : string) (l : list string) : list string :=
  match l with
  | [] => [k]
  | x :: r => if String.leb k x then k :: l else x :: insert_sorted k r
  end.

Fixpoint sort_Strings (l : list string) : list string :=
  match l with
  | [] => []
  | k :: r => insert_sorted k (sort_Strings r)
  end.

(** What both loops do after an element: [if i < len - 1] write a comma. *)
Definition comma_unless_last {A : Type} (rest : list A) (result : string) : string :=
  match rest with
  | [] => result
  | _ :: _ => result ++ ","
  end.

(** The loop over the elements of a slice: a comma after every element
    but the last. *)
Definition encode_elems (enc : value -> string -> string)
    : list value -> string -> string :=
  fix elems (l : list value) (result : string) {struct l} : string :=
    match l with
    | [] => result
    | val :: rest =>
        let result := enc val result in
        let result := comma_unless_last rest result in
        elems rest result
    end.

(** The index expression [objAsserted[key]], encoded: the value of the
    entry that has the key; when there is none the value is nil, which the
    nil case encodes. *)
Definition encode_index (enc : value -> string -> string)
    : list (string * value) -> string -> string -> string :=
  fix index (m : list (string * value)) (key : string) (result : string)
      {struct m} : string :=
    match m with
    | [] => result ++ "null"
    | (k, v) :: m' =>
        if String.eqb k key then enc v result else index m' key result
    end.

(** The loop over the sorted keys of a map.  The call on the key, a
    string, is the string case. *)
Definition encode_entries (enc : value -> string -> string) (m : list (string * value))
    : list string -> string -> string :=
  fix entries (mapKeys : list string) (result : string) {struct mapKeys} : string :=
    match mapKeys with
    | [] => result
    | key :: rest =>
        let result := result ++ _encode_canonical_string key in
        let result := result ++ ":" in
        let result := encode_index enc m key result in
        let result := comma_unless_last rest result in
        entries rest result
    end.

(** [_encode_canonical obj result] is the content of the buffer [result]
    after the call.  The default case writes nothing to the buffer (it
    prints a line on standard output). *)
Fixpoint _encode_canonical (obj : value) (result : string) {struct obj} : string :=
  match obj with
  | VString s => result ++ _encode_canonical_string s
  | VBool b => if b then result ++ "true" else result ++ "false"
  | VInt i => result ++ string_of_int i
  | VNil => result ++ "null"
  | VSlice l => encode_elems _encode_canonical l (result ++ "[") ++ "]"
  | VMap m =>
      let mapKeys := sort_Strings (map fst m) in
      encode_entries _encode_canonical m mapKeys (result ++ "{") ++ "}"
  | VOther => result
  end.

(** [encode_canonical] writes the buffer to standard output; its value here
    is the content of the buffer it writes out.  The lines that the default
    case printed before are counted by [diagnostics]. *)
Definition encode_canonical (obj : value) : string :=
  _encode_canonical obj EmptyString.

(** The loops of [_encode_canonical] again, for what the calls print: the
    lines of the elements of a slice, of the value [objAsserted[key]], and
    of the entries of a map under its sorted keys (the call on the key is
    the string case and prints nothing, as does the nil case of a missing
    key). *)
Definition count_elems (cnt : value -> nat) : list value -> nat :=
  fix elems (l : list value) {struct l} : nat :=
    match l with
    | [] => 0%nat
    | val :: rest => (cnt val + elems rest)%nat
    end.

Definition count_index (cnt : value -> nat) : list (string * value) -> string -> nat :=
  fix index (m : list (string * value)) (key : string) {struct m} : nat :=
    match m with
    | [] => 0%nat
    | (k, v) :: m' => if String.eqb k key then cnt v else index m' key
    end.

Definition count_entries (cnt : value -> nat) (m : list (string * value))
    : list string -> nat :=
  fix entries (mapKeys : list string) {struct mapKeys} : nat :=
    match mapKeys with
    | [] => 0%nat
    | key :: rest => (count_index cnt m key + entries rest)%nat
    end.

(** [diagnostics obj] is the number of lines a call of [_encode_canonical]
    on [obj] prints on standard output: the default case prints one line
    (the value, followed by the words: is of a type I don't know how to
    handle), no other case prints. *)
Fixpoint diagnostics (obj : value) {struct obj} : nat :=
  match obj with
  | VSlice l => count_elems diagnostics l
  | VMap m => count_entries diagnostics m (sort_Strings (map fst m))
  | VOther => 1%nat
  | _ => 0%nat
  end.

(** [objAsserted[key]]: the value of the entry that has the key, nil when
    there is none. *)
Fixpoint map_index (m : list (string * value)) (key : string) : value :=
  match m with
  | [] => VNil
  | (k, v) :: m' => if String.eqb k key then v else map_index m' key
  end.

(** A Go map holds one entry per key. *)
Definition is_map (m : list (string * value)) : Prop := NoDup (map fst m).

(** The byte-wise orders on strings, as propositions. *)
Definition string_le (a b : string) : Prop := String.leb a b = true.
Definition string_lt (a b : string) : Prop := String.ltb a b = true.

(** No string, no key and no text written for an integer in the value
    holds a byte of white space. *)
Fixpoint space_free (v : value) : bool :=
  match v with
  | VString s => (count_space s =? 0)%nat
  | VInt i => (count_space (string_of_int i) =? 0)%nat
  | VSlice l => forallb space_free l
  | VMap m => forallb (fun kv => (count_space (fst kv) =? 0)%nat && space_free (snd kv)) m
  | _ => true
  end.

(** An encoder step that appends to the buffer what it writes on an
    empty one. *)
Definition appends (f : string -> string) : Prop :=
  forall result, f result = result ++ f EmptyString.

End CanonicalJSON.

Import CanonicalJSON.

(** ** Keys and signatures

    [keylib.go] declares these structs; both packages use them.  A slice
    is the list of its elements: a nil slice and an empty one are both
    the empty list. *)

Record KeyVal : Type := mkKeyVal {
  Private : string;
  Public : string
}.

Record Key : Type := mkKey {
  KeyId : string;
  KeyIdHashAlgorithms : list string;
  KeyType : string;
  Key_KeyVal : KeyVal;
  Scheme : string
}.

Record Signature : Type := mkSignature {
  Signature_KeyId : string;
  Sig : string
}.

(** [Signature{}]. *)
Definition Signature_zero : Signature := mkSignature EmptyString EmptyString.

(** [==] on the struct. *)
Definition Signature_eqb (a b : Signature) : bool :=
  String.eqb (Signature_KeyId a) (Signature_KeyId b) && String.eqb (Sig a) (Sig b).

Definition rsaKeyType : string := "rsa".
Definition ecdsaKeyType : string := "ecdsa".
Definition ed25519KeyType : string := "ed25519".

(** ** Values of Go's libraries *)

(** [pem.Block]. *)
Record pem_Block : Type := mkBlock {
  Block_Type : string;
  Block_Headers : list (string * string);
  Block_Bytes : string
}.

(** [rsa.PublicKey] and [rsa.PrivateKey]. *)
Record rsa_PublicKey : Type := mkRsaPublic {
  rsa_N : Z;
  rsa_E : Z
}.

Record rsa_PrivateKey : Type := mkRsaPrivate {
  rsa_PublicKey_of : rsa_PublicKey;
  rsa_D : Z;
  rsa_Primes : list Z
}.

(** [ecdsa.PublicKey] and [ecdsa.PrivateKey]; the curve by its name. *)
Record ecdsa_PublicKey : Type := mkEcdsaPublic {
  ecdsa_Curve : string;
  ecdsa_X : Z;
  ecdsa_Y : Z
}.

Record ecdsa_PrivateKey : Type := mkEcdsaPrivate {
  ecdsa_PublicKey_of : ecdsa_PublicKey;
  ecdsa_D : Z
}.

(** What the parsers of [crypto/x509] return behind [interface{}]: the
    type switches of the sources tell these dynamic types apart.
    [OtherKey] is a key of any other type (a DSA public key, say), with the
    name [%T] prints for it. *)
Inductive crypto_key : Type :=
| RsaPrivateKey (k : rsa_PrivateKey)
| RsaPublicKey (k : rsa_PublicKey)
| EcdsaPrivateKey (k : ecdsa_PrivateKey)
| EcdsaPublicKey (k : ecdsa_PublicKey)
| Ed25519PrivateKey (k : string)
| Ed25519PublicKey (k : string)
| OtherKey (go_type : string).

(** The verb [%T]. *)
Definition type_name (key : crypto_key) : string :=
  match key with
  | RsaPrivateKey _ => "*rsa.PrivateKey"
  | RsaPublicKey _ => "*rsa.PublicKey"
  | EcdsaPrivateKey _ => "*ecdsa.PrivateKey"
  | EcdsaPublicKey _ => "*ecdsa.PublicKey"
  | Ed25519PrivateKey _ => "ed25519.PrivateKey"
  | Ed25519PublicKey _ => "ed25519.PublicKey"
  | OtherKey go_type => go_type
  end.

(** [ed25519.PrivateKey.Public]: the last 32 of the key's 64 bytes. *)
Definition ed25519_Public (priv : string) : string := substring 32 32 priv.

Inductive crypto_Hash : Type := crypto_SHA256 | crypto_SHA384 | crypto_SHA512.

(** [rsa.PSSOptions]. *)
Record rsa_PSSOptions : Type := mkPSSOptions {
  SaltLength : Z;
  Hash : crypto_Hash
}.

(** [sha256.Size]. *)
Definition sha256_Size : Z := 32.

(** Modelled from the spec: the struct [EcdsaSignature], which the sources
    use and do not declare; the two scalar components (r, s) that are
    encoded as a DER sequence of two integers. *)
Record EcdsaSignature : Type := mkEcdsaSignature {
  sig_R : Z;
  sig_S : Z
}.

(** The bytes [crypto/rand.Reader] delivers during one call. *)
Definition Rand : Type := string.

(** An open file. *)
Definition os_File : Type := string.

(** A parsed JSON text.  A string holds its decoded content, a number its
    literal. *)
#[warnings="-register-all"]
Inductive json : Type :=
| JNull
| JBool (b : bool)
| JNumber (literal : string)
| JString (s : string)
| JArray (l : list json)
| JObject (members : list (string * json)).

(** ** The metadata model of the prototype *)

Record Link : Type := mkLink {
  Link_Type : string;
  Link_Name : string;
  Link_Materials : list (string * json);
  Link_Products : list (string * json);
  Link_ByProducts : list (string * json);
  Link_Command : list string;
  Link_Environment : list (string * list json)
}.

Record Inspection : Type := mkInspection {
  Inspection_Type : string;
  Inspection_Run : list string;
  Inspection_Name : string;
  Inspection_ExpectedMaterials : list (list string);
  Inspection_ExpectedProducts : list (list string)
}.

Record Step : Type := mkStep {
  Step_Type : string;
  Step_PubKeys : list string;
  Step_ExpectedCommand : list string;
  Step_Threshold : Z;
  Step_Name : string;
  Step_ExpectedMaterials : list (list string);
  Step_ExpectedProducts : list (list string)
}.

Record Layout : Type := mkLayout {
  Layout_Type : string;
  Layout_Steps : list Step;
  Layout_Inspect : list Inspection;
  Layout_Keys : list (string * Key);
  Layout_expires : string;
  Layout_readme : string
}.

(** The field [Signed interface{}] of a [Metablock]: nil, a [Link] or a
    [Layout]. *)
Inductive Signed : Type :=
| SignedNil
| SignedLink (link : Link)
| SignedLayout (layout : Layout).

Record Metablock : Type := mkMetablock {
  Metablock_Signed : Signed;
  Signatures : list Signature
}.

(** ** The libraries the sources call

    One field per function of Go's standard library or of a third-party
    package, named [package_Function].  [EncodeCanonical] and [validateKey]
    belong to package [in_toto] and are not among the sources. *)
Class GoLib : Type := {
  (* os and io/ioutil *)
  os_Open : string -> result os_File;
  ioutil_ReadAll : os_File -> string * option error;
  (* strings: what TrimSpace does once it meets a byte above 127 *)
  strings_TrimFunc_IsSpace : string -> string;
  (* encoding/pem; Decode's second result, the rest, is dropped by every caller *)
  pem_Decode : string -> option pem_Block;
  pem_EncodeToMemory : pem_Block -> string;
  (* crypto/x509 *)
  x509_ParsePKCS8PrivateKey : string -> result crypto_key;
  x509_ParsePKCS1PrivateKey : string -> result rsa_PrivateKey;
  x509_ParsePKIXPublicKey : string -> result crypto_key;
  x509_MarshalPKIXPublicKey : crypto_key -> result string;
  (* crypto/sha256, crypto/rsa, crypto/ecdsa, encoding/asn1, ed25519 *)
  sha256_Sum256 : string -> string;
  rsa_SignPSS : Rand -> rsa_PrivateKey -> crypto_Hash -> string -> rsa_PSSOptions -> result string;
  rsa_VerifyPSS : rsa_PublicKey -> crypto_Hash -> string -> string -> rsa_PSSOptions -> option error;
  ecdsa_Sign : Rand -> ecdsa_PrivateKey -> string -> result (Z * Z);
  ecdsa_Verify : ecdsa_PublicKey -> string -> Z -> Z -> bool;
  asn1_Marshal : EcdsaSignature -> result string;
  asn1_Unmarshal : string -> result (EcdsaSignature * string);
  ed25519_Sign : string -> string -> outcome string;
  ed25519_Verify : string -> string -> string -> outcome bool;
  (* encoding/json and canonicaljson-go *)
  json_parse : string -> option json;
  json_Unmarshal_Signatures : json -> list Signature -> list Signature;
  json_Unmarshal_Link : json -> Link;
  json_Unmarshal_Layout : json -> Layout;
  canonicaljson_Marshal : Signed -> string * option error;
  (* Modelled from the spec: EncodeCanonical, the encoder of package in_toto,
     which GenerateKeyId calls and the sources do not hold: a function from a
     value to bytes that may fail. *)
  EncodeCanonical : value -> result string;
  (* Modelled from the spec: validateKey, called by GenerateKeyId and not
     among the sources: a check of a key that may fail. *)
  validateKey : Key -> option error
}.

(** [strings.TrimSpace]: the loops over ASCII bytes from the left and from
    the right; a byte above 127 hands what is left to
    [TrimFunc(_, unicode.IsSpace)]. *)
Fixpoint TrimSpace_left (s : string) : bool * string :=
  match s with
  | EmptyString => (false, EmptyString)
  | String c r =>
      if nonASCII c then (true, s)
      else if asciiSpace c then TrimSpace_left r
      else (false, s)
  end.

Fixpoint TrimSpace_right (s : string) : bool * string :=
  match s with
  | EmptyString => (false, EmptyString)
  | String c r =>
      match TrimSpace_right r with
      | (fallback, String c' r') => (fallback, String c (String c' r'))
      | (_, EmptyString) =>
          if nonASCII c then (true, str c)
          else if asciiSpace c then (false, EmptyString)
          else (false, str c)
      end
  end.

Definition strings_TrimSpace `{GoLib} (s : string) : string :=
  let (fallback, s1) := TrimSpace_left s in
  if fallback then strings_TrimFunc_IsSpace s1
  else
    let (fallback, s2) := TrimSpace_right s1 in
    if fallback then strings_TrimFunc_IsSpace s2 else s2.

(** [fmt.Sprintf("%x", b)] of a byte array: two lower-case digits a byte. *)
Definition fmt_Sprintf_x (b : string) : string := hex_EncodeToString b.

(** ** Package in_toto: the key library *)

Module InToto.
Section Keylib.
Context {L : GoLib}.

(** The partial key map that [GenerateKeyId] hashes. *)
Definition keyToBeHashed (k : Key) : value :=
  VMap [ ("keytype", VString (KeyType k));
         ("scheme", VString (Scheme k));
         ("keyid_hash_algorithms", VSlice (map VString (KeyIdHashAlgorithms k)));
         ("keyval", VMap [ ("public", VString (Public (Key_KeyVal k))) ]) ].

Definition with_KeyId (k : Key) (id : string) : Key :=
  mkKey id (KeyIdHashAlgorithms k) (KeyType k) (Key_KeyVal k) (Scheme k).

(** A method with a pointer receiver returns the key it leaves behind
    together with its error. *)
Definition GenerateKeyId (k : Key) : Key * option error :=
  match EncodeCanonical (keyToBeHashed k) with
  | inr err => (k, Some err)
  | inl keyCanonical =>
      let keyHashed := sha256_Sum256 keyCanonical in
      let k := with_KeyId k (fmt_Sprintf_x keyHashed) in
      match validateKey k with
      | Some err => (k, Some err)
      | None => (k, None)
      end
  end.

Definition GeneratePublicPemBlock (pubKeyBytes : string) : string :=
  pem_EncodeToMemory (mkBlock "PUBLIC KEY" [] pubKeyBytes).

Definition SetKeyComponents (k : Key) (pubKeyBytes privateKeyBytes : string)
    (keyType scheme : string) (keyIdHashAlgorithms : list string) : Key * option error :=
  let set (kv : KeyVal) : Key * option error :=
    GenerateKeyId (mkKey (KeyId k) keyIdHashAlgorithms keyType kv scheme) in
  if String.eqb keyType rsaKeyType || String.eqb keyType ecdsaKeyType then
    if (0 <? String.length privateKeyBytes)%nat then
      set (mkKeyVal (strings_TrimSpace privateKeyBytes)
             (strings_TrimSpace (GeneratePublicPemBlock pubKeyBytes)))
    else
      set (mkKeyVal EmptyString (strings_TrimSpace pubKeyBytes))
  else if String.eqb keyType ed25519KeyType then
    if (0 <? String.length privateKeyBytes)%nat then
      set (mkKeyVal (strings_TrimSpace (hex_EncodeToString privateKeyBytes))
             (strings_TrimSpace (hex_EncodeToString pubKeyBytes)))
    else
      set (mkKeyVal EmptyString (strings_TrimSpace (hex_EncodeToString pubKeyBytes)))
  else (k, Some (Wrap ErrUnsupportedKeyType keyType)).

Definition ParseKey (data : string) : result crypto_key :=
  match x509_ParsePKCS8PrivateKey data with
  | inl key => inl key
  | inr _ =>
      match x509_ParsePKCS1PrivateKey data with
      | inl key => inl (RsaPrivateKey key)
      | inr _ =>
          match x509_ParsePKIXPublicKey data with
          | inl key => inl key
          | inr _ => inr ErrFailedPEMParsing
          end
      end
  end.

Definition LoadKey (k : Key) (path scheme : string) (keyIdHashAlgorithms : list string)
    : Key * option error :=
  match os_Open path with
  | inr err => (k, Some err)
  | inl pemFile =>
      match ioutil_ReadAll pemFile with
      | (_, Some err) => (k, Some err)
      | (pemBytes, None) =>
          match pem_Decode pemBytes with
          | None => (k, Some ErrNoPEMBlock)
          | Some data =>
              match ParseKey (Block_Bytes data) with
              | inr err => (k, Some err)
              | inl key =>
                  match key with
                  | RsaPublicKey _ =>
                      SetKeyComponents k pemBytes EmptyString rsaKeyType scheme keyIdHashAlgorithms
                  | RsaPrivateKey priv =>
                      match x509_MarshalPKIXPublicKey (RsaPublicKey (rsa_PublicKey_of priv)) with
                      | inr err => (k, Some err)
                      | inl pubKeyBytes =>
                          SetKeyComponents k pubKeyBytes pemBytes rsaKeyType scheme keyIdHashAlgorithms
                      end
                  | Ed25519PublicKey pub =>
                      SetKeyComponents k pub EmptyString ed25519KeyType scheme keyIdHashAlgorithms
                  | Ed25519PrivateKey priv =>
                      SetKeyComponents k (ed25519_Public priv) priv ed25519KeyType scheme
                        keyIdHashAlgorithms
                  | EcdsaPrivateKey priv =>
                      match x509_MarshalPKIXPublicKey (EcdsaPublicKey (ecdsa_PublicKey_of priv)) with
                      | inr err => (k, Some err)
                      | inl pubKeyBytes =>
                          SetKeyComponents k pubKeyBytes pemBytes ecdsaKeyType scheme
                            keyIdHashAlgorithms
                      end
                  | EcdsaPublicKey _ =>
                      SetKeyComponents k pemBytes EmptyString ecdsaKeyType scheme keyIdHashAlgorithms
                  | OtherKey _ => (k, Some (Wrap ErrUnsupportedKeyType (type_name key)))
                  end
              end
          end
      end
  end.

(** The options both [SignPSS] and [VerifyPSS] are called with. *)
Definition pssOptions : rsa_PSSOptions := mkPSSOptions sha256_Size crypto_SHA256.

(** The last three statements of [GenerateSignature]. *)
Definition finish_signature (key : Key) (signatureBuffer : string)
    : outcome (Signature * option error) :=
  Ret (mkSignature (KeyId key) (hex_EncodeToString signatureBuffer), None).

(** [rnd] is what [rand.Reader] yields during the call. *)
Definition GenerateSignature (rnd : Rand) (signable : string) (key : Key)
    : outcome (Signature * option error) :=
  let signature := Signature_zero in
  if String.eqb (KeyType key) rsaKeyType || String.eqb (KeyType key) ecdsaKeyType then
    match pem_Decode (Private (Key_KeyVal key)) with
    | None => Ret (signature, Some ErrNoPEMBlock)
    | Some data =>
        match ParseKey (Block_Bytes data) with
        | inr err => Ret (signature, Some err)
        | inl parsedKey =>
            let hashed := sha256_Sum256 signable in
            match parsedKey with
            | RsaPrivateKey priv =>
                if negb (String.eqb (KeyType key) "rsa") then
                  Ret (signature, Some ErrInvalidKeyType)
                else
                  match rsa_SignPSS rnd priv crypto_SHA256 hashed pssOptions with
                  | inr err => Ret (signature, Some err)
                  | inl signatureBuffer => finish_signature key signatureBuffer
                  end
            | EcdsaPrivateKey priv =>
                if negb (String.eqb (KeyType key) ecdsaKeyType) then
                  Ret (signature, Some ErrInvalidKeyType)
                else
                  match ecdsa_Sign rnd priv hashed with
                  | inr _ => Ret (signature, None)
                  | inl (r, s) =>
                      match asn1_Marshal (mkEcdsaSignature r s) with
                      | inl signatureBuffer => finish_signature key signatureBuffer
                      | inr _ => finish_signature key EmptyString
                      end
                  end
            | _ => Ret (signature, Some (Wrap ErrUnsupportedKeyType (type_name parsedKey)))
            end
        end
    end
  else if String.eqb (KeyType key) ed25519KeyType then
    match hex_DecodeString (Private (Key_KeyVal key)) with
    | (_, Some err) => Ret (signature, Some err)
    | (privateHex, None) =>
        bind_outcome (ed25519_Sign privateHex signable) (finish_signature key)
    end
  else Ret (signature, Some (Wrap ErrUnsupportedKeyType (KeyType key))).

Definition VerifySignature (key : Key) (sig : Signature) (unverified : string)
    : outcome (option error) :=
  if String.eqb (KeyType key) rsaKeyType || String.eqb (KeyType key) ecdsaKeyType then
    match pem_Decode (Public (Key_KeyVal key)) with
    | None => Ret (Some ErrNoPEMBlock)
    | Some data =>
        match ParseKey (Block_Bytes data) with
        | inr err => Ret (Some err)
        | inl parsedKey =>
            let hashed := sha256_Sum256 unverified in
            let sigBytes := fst (hex_DecodeString (Sig sig)) in
            match parsedKey with
            | RsaPublicKey pub =>
                match rsa_VerifyPSS pub crypto_SHA256 hashed sigBytes pssOptions with
                | Some err => Ret (Some (Wrap ErrInvalidSignature (Error err)))
                | None => Ret None
                end
            | EcdsaPublicKey pub =>
                match asn1_Unmarshal sigBytes with
                | inr err => Ret (Some err)
                | inl (ecdsaSignature, _) =>
                    if ecdsa_Verify pub hashed (sig_R ecdsaSignature) (sig_S ecdsaSignature)
                    then Ret None
                    else Ret (Some ErrInvalidSignature)
                end
            | _ =>
                Ret (Some (Wrap ErrInvalidSignature ("Key has type " ++ type_name parsedKey)))
            end
        end
    end
  else if String.eqb (KeyType key) ed25519KeyType then
    match hex_DecodeString (Public (Key_KeyVal key)) with
    | (_, Some err) => Ret (Some err)
    | (pubHex, None) =>
        match hex_DecodeString (Sig sig) with
        | (_, Some err) => Ret (Some err)
        | (sigHex, None) =>
            bind_outcome (ed25519_Verify pubHex unverified sigHex)
              (fun ok => if ok then Ret None
                         else Ret (Some (Wrap ErrInvalidSignature "ed25519")))
        end
    end
  else Ret (Some (Wrap ErrInvalidSignature ("Key has type " ++ KeyType key))).

End Keylib.
End InToto.

(** ** Package main: the prototype *)

Module Main.
Section Prototype.
Context {L : GoLib}.

(** The value a Go map built from the members of a JSON object holds for
    [key]: a later member replaces an earlier one of the same name. *)
Fixpoint member (key : string) (members : list (string * json)) : option json :=
  match members with
  | [] => None
  | (k, v) :: rest =>
      match member key rest with
      | Some v' => Some v'
      | None => if String.eqb k key then Some v else None
      end
  end.

(** [json.Unmarshal(jsonBytes, &rawMb)] followed by [rawMb[key]], for
    [rawMb] of type [map[string]*json.RawMessage]: the pointer is nil when
    the text is no JSON object, when the object lacks the member, and when
    the member is null.  A raw message is given by its parse. *)
Definition rawMb_index (jsonBytes : string) (key : string) : option json :=
  match json_parse jsonBytes with
  | Some (JObject members) =>
      match member key members with
      | Some JNull => None
      | other => other
      end
  | _ => None
  end.

(** [json.Unmarshal(raw, &signed)] followed by [signed[key]], for [signed]
    of type [map[string]interface{}]: nil unless [raw] is an object that
    has the member. *)
Definition signed_index (raw : json) (key : string) : option json :=
  match raw with
  | JObject members => member key members
  | _ => None
  end.

(** [v == s] for an interface value [v] and a string constant [s]. *)
Definition interface_is_string (v : option json) (s : string) : bool :=
  match v with
  | Some (JString s') => String.eqb s' s
  | _ => false
  end.

Definition nil_dereference : string :=
  "runtime error: invalid memory address or nil pointer dereference".

Definition unknown_type_message : string :=
  "The '_type' of the 'signed' part of a metadata file must be one"
  ++ str (ascii_of_nat 10) ++ "        of 'link' or 'layout'".

(** Errors of [os.Open] and [ioutil.ReadAll] are dropped: the bytes read
    are used as they are, and a file that did not open yields none. *)
Definition read_ignoring_errors (path : string) : string :=
  match os_Open path with
  | inl jsonFile => fst (ioutil_ReadAll jsonFile)
  | inr _ => EmptyString
  end.

Definition Load (mb : Metablock) (path : string) : outcome Metablock :=
  let jsonBytes := read_ignoring_errors path in
  match rawMb_index jsonBytes "signatures" with
  | None => Panic nil_dereference
  | Some rawSignatures =>
      let signatures := json_Unmarshal_Signatures rawSignatures (Signatures mb) in
      match rawMb_index jsonBytes "signed" with
      | None => Panic nil_dereference
      | Some rawSigned =>
          if interface_is_string (signed_index rawSigned "_type") "link" then
            Ret (mkMetablock (SignedLink (json_Unmarshal_Link rawSigned)) signatures)
          else if interface_is_string (signed_index rawSigned "_type") "layout" then
            Ret (mkMetablock (SignedLayout (json_Unmarshal_Layout rawSigned)) signatures)
          else Panic unknown_type_message
      end
  end.

Definition GetSignableRepresentation (mb : Metablock) : string :=
  fst (canonicaljson_Marshal (Metablock_Signed mb)).

(** [VerifySignature] of [keylib.go]: it returns nothing, prints a line on
    success and panics on failure.  The unchecked type assertion panics
    before the checked one is reached. *)
Definition VerifySignature (key : Key) (sig : Signature) (data : string) : outcome unit :=
  match pem_Decode (Public (Key_KeyVal key)) with
  | None => Panic "Failed to parse PEM block containing the public key"
  | Some block =>
      match x509_ParsePKIXPublicKey (Block_Bytes block) with
      | inr err => Panic ("Failed to parse DER encoded public key: " ++ Error err)
      | inl (RsaPublicKey rsaPub) =>
          let hashed := sha256_Sum256 data in
          let sigHex := fst (hex_DecodeString (Sig sig)) in
          match rsa_VerifyPSS rsaPub crypto_SHA256 hashed sigHex
                  (mkPSSOptions sha256_Size crypto_SHA256) with
          | Some _ => Panic "Signature verification failed"
          | None => Ret tt
          end
      | inl pub =>
          Panic ("interface conversion: interface {} is " ++ type_name pub
                 ++ ", not *rsa.PublicKey")
      end
  end.

(** The loop of [Metablock.VerifySignature]: the first signature whose key
    id is the key's, or the zero signature. *)
Fixpoint find_signature (signatures : list Signature) (key : Key) : Signature :=
  match signatures with
  | [] => Signature_zero
  | s :: rest =>
      if String.eqb (Signature_KeyId s) (KeyId key) then s
      else find_signature rest key
  end.

Definition Metablock_VerifySignature (mb : Metablock) (key : Key) : outcome unit :=
  let sig := find_signature (Signatures mb) key in
  if Signature_eqb sig Signature_zero then
    Panic ("No signature found for key " ++ KeyId key)
  else
    let dataCanonical := GetSignableRepresentation mb in
    VerifySignature key sig dataCanonical.

(** [Key.Load] of the prototype: it drops the errors of [os.Open] and
    [ioutil.ReadAll], stores the bytes of the file as the public component,
    and sets key type, scheme, hash algorithms and key id to constants. *)
Definition Key_Load (k : Key) (path : string) : Key :=
  mkKey "556caebdc0877eed53d419b60eddb1e57fa773e4e31d70698b588f3e9cc48b35"
    ["sha256"; "sha512"] "rsa"
    (mkKeyVal EmptyString (read_ignoring_errors path))
    "rsassa-pss-sha256".

End Prototype.
End Main.

(** ** A small library for running the model

    [TestLib] is an instance of [GoLib] on which the model computes: a file
    system of five files, PEM blocks without base64, one-letter DER tags,
    a 32-byte digest that is no hash, and signature schemes
    whose signature is the public key followed by the digest.  It stands
    in for Go's libraries where a statement is run on concrete input; the
    theorems hold for every instance. *)

Module TestLib.

Definition nl : string := str (ascii_of_nat 10).

Definition pem_text (label body : string) : string :=
  "-----BEGIN " ++ label ++ "-----" ++ nl ++ body ++ nl
  ++ "-----END " ++ label ++ "-----" ++ nl.

Definition drop (n : nat) (s : string) : string :=
  substring n (String.length s - n) s.

Definition pem_Decode (data : string) : option pem_Block :=
  match index 0 "-----BEGIN " data with
  | None => None
  | Some i =>
      let after := drop (i + 11) data in
      match index 0 ("-----" ++ nl) after with
      | None => None
      | Some j =>
          let label := substring 0 j after in
          let rest := drop (j + 6) after in
          match index 0 (nl ++ "-----END " ++ label ++ "-----") rest with
          | None => None
          | Some e => Some (mkBlock label [] (substring 0 e rest))
          end
      end
  end.

Definition pem_EncodeToMemory (b : pem_Block) : string :=
  pem_text (Block_Type b) (Block_Bytes b).

Definition num (c : ascii) : Z := Z.of_N (N_of_ascii c).

(** DER, by its first letter: R, E and D are PKCS8 private keys (RSA,
    ECDSA, Ed25519), S is a PKCS1 RSA private key, r, e, d and o are PKIX
    public keys (o: a DSA key). *)
Definition x509_ParsePKCS8PrivateKey (der : string) : result crypto_key :=
  match der with
  | String "R" (String n (String e (String d EmptyString))) =>
      inl (RsaPrivateKey (mkRsaPrivate (mkRsaPublic (num n) (num e)) (num d) []))
  | String "E" (String x (String y (String d EmptyString))) =>
      inl (EcdsaPrivateKey (mkEcdsaPrivate (mkEcdsaPublic "P-256" (num x) (num y)) (num d)))
  | String "D" priv =>
      if (String.length priv =? 64)%nat then inl (Ed25519PrivateKey priv)
      else inr (LibError "x509: invalid Ed25519 private key")
  | _ => inr (LibError "x509: failed to parse private key")
  end.

Definition x509_ParsePKCS1PrivateKey (der : string) : result rsa_PrivateKey :=
  match der with
  | String "S" (String n (String e (String d EmptyString))) =>
      inl (mkRsaPrivate (mkRsaPublic (num n) (num e)) (num d) [])
  | _ => inr (LibError "x509: failed to parse private key")
  end.

Definition x509_ParsePKIXPublicKey (der : string) : result crypto_key :=
  match der with
  | String "r" (String n (String e EmptyString)) =>
      inl (RsaPublicKey (mkRsaPublic (num n) (num e)))
  | String "e" (String x (String y EmptyString)) =>
      inl (EcdsaPublicKey (mkEcdsaPublic "P-256" (num x) (num y)))
  | String "d" pub =>
      if (String.length pub =? 32)%nat then inl (Ed25519PublicKey pub)
      else inr (LibError "x509: wrong Ed25519 public key size")
  | String "o" _ => inl (OtherKey "*dsa.PublicKey")
  | _ => inr (LibError "x509: failed to parse public key")
  end.

Definition x509_MarshalPKIXPublicKey (pub : crypto_key) : result string :=
  match pub with
  | RsaPublicKey k => inl (String "r" (String (byte_of_Z (rsa_N k)) (str (byte_of_Z (rsa_E k)))))
  | EcdsaPublicKey k =>
      inl (String "e" (String (byte_of_Z (ecdsa_X k)) (str (byte_of_Z (ecdsa_Y k)))))
  | Ed25519PublicKey k => inl (String "d" k)
  | _ => inr (LibError "x509: unsupported public key type")
  end.

(** A digest of 32 bytes: byte [i] folds the whole input, starting from
    [i]. *)
Fixpoint mix (data : string) (acc : N) : N :=
  match data with
  | EmptyString => acc
  | String c r => mix r ((acc * 31 + N_of_ascii c) mod 256)%N
  end.

Fixpoint digest_bytes (n : nat) (data : string) : string :=
  match n with
  | O => EmptyString
  | S n' => String (ascii_of_N (mix data (N.of_nat n'))) (digest_bytes n' data)
  end.

Definition sha256_Sum256 (data : string) : string := digest_bytes 32 data.

Definition rsa_signature (pub : rsa_PublicKey) (hashed : string) : string :=
  String (byte_of_Z (rsa_N pub)) (String (byte_of_Z (rsa_E pub)) hashed).

Definition rsa_SignPSS (rnd : Rand) (priv : rsa_PrivateKey) (hash : crypto_Hash)
    (hashed : string) (opts : rsa_PSSOptions) : result string :=
  match rnd with
  | EmptyString => inr (LibError "EOF")
  | _ => inl (rsa_signature (rsa_PublicKey_of priv) hashed)
  end.

Definition rsa_VerifyPSS (pub : rsa_PublicKey) (hash : crypto_Hash)
    (hashed sig : string) (opts : rsa_PSSOptions) : option error :=
  if String.eqb sig (rsa_signature pub hashed) then None
  else Some (LibError "crypto/rsa: verification error").

Fixpoint checksum (s : string) : Z :=
  match s with
  | EmptyString => 0
  | String c r => (num c + checksum r) mod 251
  end.

Definition ecdsa_Sign (rnd : Rand) (priv : ecdsa_PrivateKey) (hashed : string)
    : result (Z * Z) :=
  match rnd with
  | EmptyString => inr (LibError "EOF")
  | _ => inl (ecdsa_X (ecdsa_PublicKey_of priv), checksum hashed)
  end.

Definition ecdsa_Verify (pub : ecdsa_PublicKey) (hashed : string) (r s : Z) : bool :=
  Z.eqb r (ecdsa_X pub) && Z.eqb s (checksum hashed).

Definition asn1_Marshal (sg : EcdsaSignature) : result string :=
  if ((0 <=? sig_R sg) && (sig_R sg <? 256) && (0 <=? sig_S sg) && (sig_S sg <? 256))%Z
  then inl (String (byte_of_Z (sig_R sg)) (str (byte_of_Z (sig_S sg))))
  else inr (LibError "asn1: structure error").

Definition asn1_Unmarshal (der : string) : result (EcdsaSignature * string) :=
  match der with
  | String r (String s rest) => inl (mkEcdsaSignature (num r) (num s), rest)
  | _ => inr (LibError "asn1: syntax error: sequence truncated")
  end.

Definition ed25519_Sign (priv message : string) : outcome string :=
  if (String.length priv =? 64)%nat
  then Ret (ed25519_Public priv ++ sha256_Sum256 message)
  else Panic "ed25519: bad private key length".

Definition ed25519_Verify (pub message sig : string) : outcome bool :=
  if (String.length pub =? 32)%nat
  then Ret (String.eqb sig (pub ++ sha256_Sum256 message))
  else Panic "ed25519: bad public key length".

(** The files.  Key numbers are single bytes, written as letters. *)
Definition seed32 : string := "0123456789abcdef0123456789abcdef".
Definition point32 : string := "ABCDEFGHIJKLMNOPQRSTUVWXYZabcdef".

Definition files : list (string * string) :=
  [ ("alice.rsa", pem_text "PRIVATE KEY" "RMAQ");
    ("alice.pub", "Public key of alice" ++ nl ++ pem_text "PUBLIC KEY" "rMA");
    ("bob.ecdsa", pem_text "PRIVATE KEY" "EXYZ");
    ("carol.ed25519", pem_text "PRIVATE KEY" (String "D" (seed32 ++ point32)));
    ("demo.link", "{signed:{_type:link,name:build,command:[make]},signatures:[{keyid:k1,sig:00}]}");
    ("demo.layout", "{signed:{_type:layout},signatures:[]}");
    ("demo.widget", "{signed:{_type:widget},signatures:[]}");
    ("unsigned.link", "{signed:{_type:link,name:build}}") ].

Fixpoint lookup {A : Type} (key : string) (l : list (string * A)) : option A :=
  match l with
  | [] => None
  | (k, v) :: rest => if String.eqb k key then Some v else lookup key rest
  end.

Definition os_Open (path : string) : result os_File :=
  match lookup path files with
  | Some _ => inl path
  | None => inr (LibError ("open " ++ path ++ ": no such file or directory"))
  end.

Definition ioutil_ReadAll (f : os_File) : string * option error :=
  match lookup f files with
  | Some content => (content, None)
  | None => (EmptyString, Some (LibError "invalid argument"))
  end.

(** The JSON texts of the files, with their parses. *)
Definition documents : list (string * json) :=
  [ ("{signed:{_type:link,name:build,command:[make]},signatures:[{keyid:k1,sig:00}]}",
     JObject [ ("signed", JObject [ ("_type", JString "link"); ("name", JString "build");
                                     ("command", JArray [JString "make"]) ]);
               ("signatures", JArray [ JObject [ ("keyid", JString "k1");
                                                  ("sig", JString "00") ] ]) ]);
    ("{signed:{_type:layout},signatures:[]}",
     JObject [ ("signed", JObject [ ("_type", JString "layout") ]);
               ("signatures", JArray []) ]);
    ("{signed:{_type:widget},signatures:[]}",
     JObject [ ("signed", JObject [ ("_type", JString "widget") ]);
               ("signatures", JArray []) ]);
    ("{signed:{_type:link,name:build}}",
     JObject [ ("signed", JObject [ ("_type", JString "link"); ("name", JString "build") ]) ]) ].

Definition json_parse (text : string) : option json := lookup text documents.

Definition json_string (v : option json) : string :=
  match v with
  | Some (JString s) => s
  | _ => EmptyString
  end.

Definition json_strings (v : option json) : list string :=
  match v with
  | Some (JArray l) => map (fun j => json_string (Some j)) l
  | _ => []
  end.

Definition json_object (v : option json) : list (string * json) :=
  match v with
  | Some (JObject members) => members
  | _ => []
  end.

Definition json_Unmarshal_Signatures (raw : json) (old : list Signature) : list Signature :=
  match raw with
  | JArray l =>
      map (fun j => mkSignature (json_string (lookup "keyid" (json_object (Some j))))
                      (json_string (lookup "sig" (json_object (Some j))))) l
  | _ => old
  end.

Definition json_Unmarshal_Link (raw : json) : Link :=
  let m := json_object (Some raw) in
  mkLink (json_string (lookup "_type" m)) (json_string (lookup "name" m))
    (json_object (lookup "materials" m)) (json_object (lookup "products" m))
    (json_object (lookup "byproducts" m)) (json_strings (lookup "command" m)) [].

Definition json_Unmarshal_Layout (raw : json) : Layout :=
  let m := json_object (Some raw) in
  mkLayout (json_string (lookup "_type" m)) [] [] [] EmptyString EmptyString.

Definition canonicaljson_Marshal (signed : Signed) : string * option error :=
  match signed with
  | SignedNil => ("null", None)
  | SignedLink link =>
      (encode_canonical
         (VMap [ ("_type", VString (Link_Type link)); ("name", VString (Link_Name link));
                 ("command", VSlice (map VString (Link_Command link))) ]), None)
  | SignedLayout layout =>
      (encode_canonical (VMap [ ("_type", VString (Layout_Type layout)) ]), None)
  end.

#[export] Instance lib : GoLib := {
  os_Open := os_Open;
  ioutil_ReadAll := ioutil_ReadAll;
  strings_TrimFunc_IsSpace := fun s => s;
  pem_Decode := pem_Decode;
  pem_EncodeToMemory := pem_EncodeToMemory;
  x509_ParsePKCS8PrivateKey := x509_ParsePKCS8PrivateKey;
  x509_ParsePKCS1PrivateKey := x509_ParsePKCS1PrivateKey;
  x509_ParsePKIXPublicKey := x509_ParsePKIXPublicKey;
  x509_MarshalPKIXPublicKey := x509_MarshalPKIXPublicKey;
  sha256_Sum256 := sha256_Sum256;
  rsa_SignPSS := rsa_SignPSS;
  rsa_VerifyPSS := rsa_VerifyPSS;
  ecdsa_Sign := ecdsa_Sign;
  ecdsa_Verify := ecdsa_Verify;
  asn1_Marshal := asn1_Marshal;
  asn1_Unmarshal := asn1_Unmarshal;
  ed25519_Sign := ed25519_Sign;
  ed25519_Verify := ed25519_Verify;
  json_parse := json_parse;
  json_Unmarshal_Signatures := json_Unmarshal_Signatures;
  json_Unmarshal_Link := json_Unmarshal_Link;
  json_Unmarshal_Layout := json_Unmarshal_Layout;
  canonicaljson_Marshal := canonicaljson_Marshal;
  EncodeCanonical := fun v => inl (encode_canonical v);
  validateKey := fun _ => None
}.

Definition no_key : Key := mkKey EmptyString [] EmptyString (mkKeyVal EmptyString EmptyString) EmptyString.

Definition load (path scheme : string) : Key :=
  fst (InToto.LoadKey (L := lib) no_key path scheme ["sha256"; "sha512"]).

Definition alice : Key := load "alice.rsa" "rsassa-pss-sha256".
Definition alice_pub : Key := load "alice.pub" "rsassa-pss-sha256".
Definition bob : Key := load "bob.ecdsa" "ecdsa-sha2-nistp256".
Definition carol : Key := load "carol.ed25519" "ed25519".

End TestLib.

(** ** Sample values *)

Definition sample_entries : list (string * value) :=
  [ ("name", VString "step1"); ("command", VSlice [VString "echo"; VString "hi"]);
    ("_type", VString "link"); ("materials", VMap []) ].


(** ** When sign and verify of the libraries agree

    The hypotheses under which [GenerateSignature] followed by
    [VerifySignature] is studied: the two components of the key are read
    as a private and a public key of the family the key names, the
    signing function of the library returns a signature for the payload's
    digest (for the payload itself with Ed25519), and the verifying
    function of the library accepts that signature under the public key. *)
Inductive round_trip_ready {L : GoLib} (rnd : Rand) (payload : string) (key : Key) : Prop :=
| ready_rsa (dpriv dpub : pem_Block) (priv : rsa_PrivateKey) (pub : rsa_PublicKey)
    (signatureBuffer : string) :
    KeyType key = rsaKeyType ->
    pem_Decode (Private (Key_KeyVal key)) = Some dpriv ->
    InToto.ParseKey (Block_Bytes dpriv) = inl (RsaPrivateKey priv) ->
    pem_Decode (Public (Key_KeyVal key)) = Some dpub ->
    InToto.ParseKey (Block_Bytes dpub) = inl (RsaPublicKey pub) ->
    rsa_SignPSS rnd priv crypto_SHA256 (sha256_Sum256 payload)
      (mkPSSOptions sha256_Size crypto_SHA256) = inl signatureBuffer ->
    rsa_VerifyPSS pub crypto_SHA256 (sha256_Sum256 payload) signatureBuffer
      (mkPSSOptions sha256_Size crypto_SHA256) = None ->
    round_trip_ready rnd payload key
| ready_ecdsa (dpriv dpub : pem_Block) (priv : ecdsa_PrivateKey) (pub : ecdsa_PublicKey)
    (r s : Z) (der rest : string) :
    KeyType key = ecdsaKeyType ->
    pem_Decode (Private (Key_KeyVal key)) = Some dpriv ->
    InToto.ParseKey (Block_Bytes dpriv) = inl (EcdsaPrivateKey priv) ->
    pem_Decode (Public (Key_KeyVal key)) = Some dpub ->
    InToto.ParseKey (Block_Bytes dpub) = inl (EcdsaPublicKey pub) ->
    ecdsa_Sign rnd priv (sha256_Sum256 payload) = inl (r, s) ->
    asn1_Marshal (mkEcdsaSignature r s) = inl der ->
    asn1_Unmarshal der = inl (mkEcdsaSignature r s, rest) ->
    ecdsa_Verify pub (sha256_Sum256 payload) r s = true ->
    round_trip_ready rnd payload key
| ready_ed25519 (privateHex pubHex signatureBuffer : string) :
    KeyType key = ed25519KeyType ->
    hex_DecodeString (Private (Key_KeyVal key)) = (privateHex, None) ->
    hex_DecodeString (Public (Key_KeyVal key)) = (pubHex, None) ->
    ed25519_Sign privateHex payload = Ret signatureBuffer ->
    ed25519_Verify pubHex payload signatureBuffer = Ret true ->
    round_trip_ready rnd payload key.

(** ** Sample signatures *)

Definition signature_of (o : outcome (Signature * option error)) : Signature :=
  match o with
  | Ret (sig, _) => sig
  | Panic _ => Signature_zero
  end.

Definition alice_signature : Signature :=
  signature_of (InToto.GenerateSignature (L := TestLib.lib) "entropy" "hello" TestLib.alice).
Definition bob_signature : Signature :=
  signature_of (InToto.GenerateSignature (L := TestLib.lib) "entropy" "hello" TestLib.bob).
Definition carol_signature : Signature :=
  signature_of (InToto.GenerateSignature (L := TestLib.lib) "entropy" "hello" TestLib.carol).

(** The signature with bit [bit] of byte [pos] of its hexadecimal string
    flipped. *)
Definition flipped (pos : nat) (bit : N) (sig : Signature) : Signature :=
  mkSignature (Signature_KeyId sig) (flip_bit_at pos bit (Sig sig)).

Definition dsa_key : Key :=
  mkKey "abc" ["sha256"] "dsa" (mkKeyVal EmptyString "-----BEGIN PUBLIC KEY-----") "dsa-sha1".

(** Case analysis on the 256 bytes. *)
Ltac each_byte c := destruct c as [[] [] [] [] [] [] [] []].

(** ** Values that differ in the order of map entries only

    [same_entries v w]: [w] is [v] with the entries of its maps, at any
    depth, possibly in another order.  Slices are compared element by
    element, maps key by key. *)
Inductive same_entries : value -> value -> Prop :=
| same_string (s : string) : same_entries (VString s) (VString s)
| same_bool (b : bool) : same_entries (VBool b) (VBool b)
| same_int (i : Z) : same_entries (VInt i) (VInt i)
| same_nil : same_entries VNil VNil
| same_other : same_entries VOther VOther
| same_slice (l l' : list value) :
    List.length l = List.length l' ->
    (forall n, same_entries (nth n l VNil) (nth n l' VNil)) ->
    same_entries (VSlice l) (VSlice l')
| same_map (m m' : list (string * value)) :
    is_map m ->
    is_map m' ->
    Permutation (map fst m) (map fst m') ->
    (forall key, same_entries (map_index m key) (map_index m' key)) ->
    same_entries (VMap m) (VMap m').

(** ** A second library for running the model

    [StrictLib] is [TestLib] with three more files (a PEM block that holds
    no key, a DSA public key, an Ed25519 public key) and a [validateKey]
    that refuses a key without a scheme. *)

Module StrictLib.

Definition files : list (string * string) :=
  TestLib.files
  ++ [ ("garbage.pem", TestLib.pem_text "PRIVATE KEY" "zzz");
       ("dsa.pub", TestLib.pem_text "PUBLIC KEY" "oXY");
       ("carol.pub", TestLib.pem_text "PUBLIC KEY" (String "d" TestLib.point32)) ].

Definition open (path : string) : result os_File :=
  match TestLib.lookup path files with
  | Some _ => inl path
  | None => inr (LibError ("open " ++ path ++ ": no such file or directory"))
  end.

Definition read_all (f : os_File) : string * option error :=
  match TestLib.lookup f files with
  | Some content => (content, None)
  | None => (EmptyString, Some (LibError "invalid argument"))
  end.

Definition refuse_without_scheme (k : Key) : option error :=
  if String.eqb (Scheme k) EmptyString then Some (LibError "empty scheme") else None.

Definition lib : GoLib := {|
  os_Open := open;
  ioutil_ReadAll := read_all;
  strings_TrimFunc_IsSpace := fun s => s;
  pem_Decode := TestLib.pem_Decode;
  pem_EncodeToMemory := TestLib.pem_EncodeToMemory;
  x509_ParsePKCS8PrivateKey := TestLib.x509_ParsePKCS8PrivateKey;
  x509_ParsePKCS1PrivateKey := TestLib.x509_ParsePKCS1PrivateKey;
  x509_ParsePKIXPublicKey := TestLib.x509_ParsePKIXPublicKey;
  x509_MarshalPKIXPublicKey := TestLib.x509_MarshalPKIXPublicKey;
  sha256_Sum256 := TestLib.sha256_Sum256;
  rsa_SignPSS := TestLib.rsa_SignPSS;
  rsa_VerifyPSS := TestLib.rsa_VerifyPSS;
  ecdsa_Sign := TestLib.ecdsa_Sign;
  ecdsa_Verify := TestLib.ecdsa_Verify;
  asn1_Marshal := TestLib.asn1_Marshal;
  asn1_Unmarshal := TestLib.asn1_Unmarshal;
  ed25519_Sign := TestLib.ed25519_Sign;
  ed25519_Verify := TestLib.ed25519_Verify;
  json_parse := TestLib.json_parse;
  json_Unmarshal_Signatures := TestLib.json_Unmarshal_Signatures;
  json_Unmarshal_Link := TestLib.json_Unmarshal_Link;
  json_Unmarshal_Layout := TestLib.json_Unmarshal_Layout;
  canonicaljson_Marshal := TestLib.canonicaljson_Marshal;
  EncodeCanonical := fun v => inl (encode_canonical v);
  validateKey := refuse_without_scheme
|}.

End StrictLib.

(** The key types the key library knows. *)
Definition supported (keyType : string) : bool :=
  String.eqb keyType rsaKeyType || String.eqb keyType ecdsaKeyType
  || String.eqb keyType ed25519KeyType.

(** ** More sample values *)

Definition sample_link : value :=
  VMap [ ("name", VString "step1");
         ("byproducts", VMap [ ("stdout", VString "hi"); ("return-value", VNil) ]);
         ("command", VSlice [ VMap [ ("b", VBool true); ("a", VBool false) ] ]) ].

(** [sample_link] with the entries of each of its maps in the opposite
    order. *)
Definition sample_link_reordered : value :=
  VMap [ ("command", VSlice [ VMap [ ("a", VBool false); ("b", VBool true) ] ]);
         ("byproducts", VMap [ ("return-value", VNil); ("stdout", VString "hi") ]);
         ("name", VString "step1") ].

(** A key without a scheme. *)
Definition schemeless_key : Key :=
  mkKey EmptyString ["sha256"] "rsa" (mkKeyVal EmptyString "public") EmptyString.

(** The key of alice under the key type ecdsa, with another key id and
    scheme. *)
Definition alice_as_ecdsa : Key :=
  mkKey "another id" ["sha256"] "ecdsa" (Key_KeyVal TestLib.alice) "ecdsa-sha2-nistp256".

(** An Ed25519 key with the public component alone. *)
Definition carol_public : Key :=
  mkKey EmptyString ["sha256"] "ed25519"
    (mkKeyVal EmptyString (hex_EncodeToString TestLib.point32)) "ed25519".

(** What [LoadKey] leaves of the key of carol when it loads the RSA key
    of alice without a scheme and the library refuses such a key. *)
Definition overwritten_carol : Key :=
  fst (InToto.LoadKey (L := StrictLib.lib) TestLib.carol "alice.rsa" EmptyString []).

(** Three signatures: of another key, of alice, and a second one that
    bears the key id of alice. *)
Definition three_signatures : list Signature :=
  [ mkSignature "k1" "00"; alice_signature; mkSignature (KeyId TestLib.alice) "ff" ].


(** * Theorems *)

(** * Facts about strings *)

Lemma append_nil_r (s : string) : s ++ EmptyString = s.
Proof. induction s as [|c s IH]; simpl; [reflexivity | now rewrite IH]. Qed.

Lemma append_assoc (a b c : string) : (a ++ b) ++ c = a ++ (b ++ c).
Proof. induction a as [|x a IH]; simpl; [reflexivity | now rewrite IH]. Qed.

Lemma append_inv_head (a b c : string) : a ++ b = a ++ c -> b = c.
Proof.
  induction a as [|x a IH]; simpl; intros H; [assumption|].
  injection H as H. now apply IH.
Qed.

Lemma length_append (a b : string) :
  String.length (a ++ b) = (String.length a + String.length b)%nat.
Proof. induction a as [|x a IH]; simpl; [reflexivity | now rewrite IH]. Qed.

Lemma count_space_append (a b : string) :
  count_space (a ++ b) = (count_space a + count_space b)%nat.
Proof.
  induction a as [|x a IH]; simpl; [reflexivity|].
  rewrite IH. lia.
Qed.

Lemma all_chars_append (p : ascii -> bool) (a b : string) :
  all_chars p (a ++ b) = all_chars p a && all_chars p b.
Proof.
  induction a as [|x a IH]; simpl; [reflexivity|].
  now rewrite IH, andb_assoc.
Qed.

(** * Induction on values *)

Section ValueInduction.
Variable P : value -> Prop.
Hypothesis HString : forall s, P (VString s).
Hypothesis HBool : forall b, P (VBool b).
Hypothesis HInt : forall i, P (VInt i).
Hypothesis HNil : P VNil.
Hypothesis HSlice : forall l, Forall P l -> P (VSlice l).
Hypothesis HMap : forall m, Forall (fun kv => P (snd kv)) m -> P (VMap m).
Hypothesis HOther : P VOther.

Fixpoint value_nested_ind (v : value) : P v :=
  match v with
  | VString s => HString s
  | VBool b => HBool b
  | VInt i => HInt i
  | VNil => HNil
  | VSlice l =>
      HSlice l
        ((fix all (l : list value) : Forall P l :=
            match l with
            | [] => Forall_nil P
            | x :: r => Forall_cons x (value_nested_ind x) (all r)
            end) l)
  | VMap m =>
      HMap m
        ((fix all (m : list (string * value)) : Forall (fun kv => P (snd kv)) m :=
            match m with
            | [] => Forall_nil _
            | kv :: r => Forall_cons kv (value_nested_ind (snd kv)) (all r)
            end) m)
  | VOther => HOther
  end.
End ValueInduction.

(** * The buffer only grows *)

Lemma encode_elems_cons enc val rest result :
  encode_elems enc (val :: rest) result =
  encode_elems enc rest (comma_unless_last rest (enc val result)).
Proof. reflexivity. Qed.

Lemma encode_index_cons enc k v m key result :
  encode_index enc ((k, v) :: m) key result =
  if String.eqb k key then enc v result else encode_index enc m key result.
Proof. reflexivity. Qed.

Lemma encode_entries_cons enc m key rest result :
  encode_entries enc m (key :: rest) result =
  encode_entries enc m rest
    (comma_unless_last rest
       (encode_index enc m key ((result ++ _encode_canonical_string key) ++ ":"))).
Proof. reflexivity. Qed.

Lemma comma_unless_last_append {A : Type} (rest : list A) (a b : string) :
  comma_unless_last rest (a ++ b) = a ++ comma_unless_last rest b.
Proof. destruct rest; simpl; [reflexivity | apply append_assoc]. Qed.

Lemma encode_elems_appends enc l :
  Forall (fun v => appends (enc v)) l -> appends (encode_elems enc l).
Proof.
  induction 1 as [|v l Hv Hl IH]; intros result.
  - simpl. now rewrite append_nil_r.
  - rewrite !encode_elems_cons.
    rewrite (Hv result), comma_unless_last_append, IH, append_assoc.
    f_equal. symmetry. apply IH.
Qed.

Lemma encode_index_appends enc m key :
  Forall (fun kv => appends (enc (snd kv))) m -> appends (encode_index enc m key).
Proof.
  induction 1 as [|[k v] m Hv Hm IH]; intros result.
  - reflexivity.
  - rewrite !encode_index_cons.
    destruct (String.eqb k key); [apply Hv | apply IH].
Qed.

Lemma encode_entries_appends enc m keys :
  Forall (fun kv => appends (enc (snd kv))) m -> appends (encode_entries enc m keys).
Proof.
  intros Hm. induction keys as [|key rest IH]; intros result.
  - simpl. now rewrite append_nil_r.
  - rewrite !encode_entries_cons.
    rewrite (encode_index_appends enc m key Hm), !append_assoc.
    rewrite comma_unless_last_append, IH, append_assoc.
    f_equal. rewrite (IH (comma_unless_last _ _)). f_equal. f_equal.
    rewrite (encode_index_appends enc m key Hm (EmptyString ++ _)).
    cbn [append]. now rewrite append_assoc.
Qed.

Lemma _encode_canonical_appends (obj : value) : appends (_encode_canonical obj).
Proof.
  induction obj as [s|b|i| |l IH|m IH| ] using value_nested_ind;
    intros result; cbn [_encode_canonical]; try reflexivity.
  - now destruct b.
  - rewrite (encode_elems_appends _ l IH (result ++ "[")).
    rewrite (encode_elems_appends _ l IH (EmptyString ++ "[")).
    simpl. now rewrite !append_assoc.
  - cbv zeta.
    rewrite (encode_entries_appends _ m _ IH (result ++ "{")).
    rewrite (encode_entries_appends _ m _ IH (EmptyString ++ "{")).
    simpl. now rewrite !append_assoc.
  - now rewrite append_nil_r.
Qed.

(** * The order of [sort.Strings] *)

Lemma ascii_compare_refl (c : ascii) : Ascii.compare c c = Eq.
Proof. apply N.compare_refl. Qed.

Lemma string_compare_refl (s : string) : String.compare s s = Eq.
Proof.
  induction s as [|c s IH]; simpl; [reflexivity|].
  now rewrite ascii_compare_refl.
Qed.

Lemma ascii_compare_lt_trans (a b c : ascii) :
  Ascii.compare a b = Lt -> Ascii.compare b c = Lt -> Ascii.compare a c = Lt.
Proof.
  unfold Ascii.compare. rewrite !N.compare_lt_iff. lia.
Qed.

Lemma string_compare_lt_trans (a b c : string) :
  String.compare a b = Lt -> String.compare b c = Lt -> String.compare a c = Lt.
Proof.
  revert b c. induction a as [|x a IH]; intros [|y b] [|z c]; simpl;
    try discriminate; try reflexivity.
  destruct (Ascii.compare x y) eqn:Hxy; try discriminate;
    destruct (Ascii.compare y z) eqn:Hyz; try discriminate; intros Hab Hbc.
  - apply Ascii.compare_eq_iff in Hxy, Hyz. subst.
    rewrite ascii_compare_refl. eauto.
  - apply Ascii.compare_eq_iff in Hxy. subst. now rewrite Hyz.
  - apply Ascii.compare_eq_iff in Hyz. subst. now rewrite Hxy.
  - now rewrite (ascii_compare_lt_trans x y z).
Qed.

Lemma string_leb_refl (s : string) : String.leb s s = true.
Proof. unfold String.leb. now rewrite string_compare_refl. Qed.

Lemma string_leb_trans (a b c : string) :
  String.leb a b = true -> String.leb b c = true -> String.leb a c = true.
Proof.
  unfold String.leb.
  destruct (String.compare a b) eqn:Hab; try discriminate;
    destruct (String.compare b c) eqn:Hbc; try discriminate; intros _ _.
  - apply String.compare_eq_iff in Hab, Hbc. subst. now rewrite string_compare_refl.
  - apply String.compare_eq_iff in Hab. subst. now rewrite Hbc.
  - apply String.compare_eq_iff in Hbc. subst. now rewrite Hab.
  - now rewrite (string_compare_lt_trans a b c).
Qed.

Lemma string_ltb_leb (a b : string) :
  String.ltb a b = true <-> String.leb a b = true /\ a <> b.
Proof.
  unfold String.ltb, String.leb. split.
  - destruct (String.compare a b) eqn:H; try discriminate. intros _. split; [reflexivity|].
    intros ->. now rewrite string_compare_refl in H.
  - intros [H Hne]. destruct (String.compare a b) eqn:Hc; try discriminate; [|reflexivity].
    apply String.compare_eq_iff in Hc. contradiction.
Qed.

(** * [sort_Strings] sorts *)

Lemma insert_sorted_perm (k : string) (l : list string) :
  Permutation (k :: l) (insert_sorted k l).
Proof.
  induction l as [|x r IH]; simpl; [apply Permutation_refl|].
  destruct (String.leb k x); [apply Permutation_refl|].
  eapply perm_trans; [apply perm_swap|]. now apply perm_skip.
Qed.

Lemma sort_Strings_perm (l : list string) : Permutation l (sort_Strings l).
Proof.
  induction l as [|k r IH]; simpl; [constructor|].
  eapply perm_trans; [apply perm_skip, IH | apply insert_sorted_perm].
Qed.

Lemma insert_sorted_sorted (k : string) (l : list string) :
  StronglySorted string_le l -> StronglySorted string_le (insert_sorted k l).
Proof.
  induction 1 as [|x r Hr IH Hx]; simpl.
  - repeat constructor.
  - destruct (String.leb k x) eqn:Hkx.
    + constructor; [now constructor|].
      constructor; [exact Hkx|].
      eapply Forall_impl; [|exact Hx].
      intros y Hy. now apply (string_leb_trans k x y).
    + constructor; [exact IH|].
      eapply Permutation_Forall; [apply insert_sorted_perm|].
      constructor; [|exact Hx].
      destruct (String.leb_total k x) as [H|H]; [congruence | exact H].
Qed.

Lemma sort_Strings_sorted (l : list string) : StronglySorted string_le (sort_Strings l).
Proof.
  induction l as [|k r IH]; simpl; [constructor | now apply insert_sorted_sorted].
Qed.

Lemma sorted_le_NoDup_lt (l : list string) :
  StronglySorted string_le l -> NoDup l -> StronglySorted string_lt l.
Proof.
  induction 1 as [|x r Hr IH Hx]; intros Hnd; [constructor|].
  inversion Hnd as [|? ? Hnotin Hnd']; subst.
  constructor; [now apply IH|].
  rewrite Forall_forall in *. intros y Hy.
  apply string_ltb_leb. split; [now apply Hx|].
  intros ->. contradiction.
Qed.

(** Keys without repetition come out in strictly increasing order. *)
Lemma sort_Strings_strict (l : list string) :
  NoDup l -> StronglySorted string_lt (sort_Strings l).
Proof.
  intros Hnd. apply sorted_le_NoDup_lt; [apply sort_Strings_sorted|].
  eapply Permutation_NoDup; [apply sort_Strings_perm | exact Hnd].
Qed.

(** A sorted list is determined by its elements. *)
Lemma sorted_le_unique (l l' : list string) :
  StronglySorted string_le l -> StronglySorted string_le l' ->
  Permutation l l' -> l = l'.
Proof.
  intros Hl. revert l'. induction Hl as [|x r Hr IH Hx]; intros l' Hl' Hp.
  - now apply Permutation_nil in Hp.
  - destruct l' as [|y r']; [now apply Permutation_sym, Permutation_nil in Hp|].
    inversion Hl' as [|? ? Hr' Hy]; subst.
    assert (x = y) as ->.
    { rewrite Forall_forall in Hx, Hy.
      assert (In x (y :: r')) as Hinx by (eapply Permutation_in; [exact Hp | now left]).
      assert (In y (x :: r)) as Hiny
          by (eapply Permutation_in; [apply Permutation_sym; exact Hp | now left]).
      destruct Hinx as [->|Hinx]; [reflexivity|].
      destruct Hiny as [->|Hiny]; [reflexivity|].
      apply String.leb_antisym; [now apply Hx | now apply Hy]. }
    f_equal. apply IH; [exact Hr'|]. now apply Permutation_cons_inv in Hp.
Qed.

Lemma sort_Strings_permutation_invariant (l l' : list string) :
  Permutation l l' -> sort_Strings l = sort_Strings l'.
Proof.
  intros Hp. apply sorted_le_unique; try apply sort_Strings_sorted.
  eapply perm_trans; [apply Permutation_sym, sort_Strings_perm|].
  eapply perm_trans; [exact Hp | apply sort_Strings_perm].
Qed.

(** * What the encoder writes *)

Lemma encode_elems_concat enc l :
  Forall (fun v => appends (enc v)) l ->
  encode_elems enc l EmptyString = concat "," (map (fun v => enc v EmptyString) l).
Proof.
  induction 1 as [|v l Hv Hl IH]; [reflexivity|].
  rewrite encode_elems_cons. destruct l as [|w l']; [reflexivity|].
  rewrite (encode_elems_appends enc _ Hl), IH.
  cbn [comma_unless_last map concat]. now rewrite append_assoc.
Qed.

Lemma encode_entries_concat enc m keys :
  Forall (fun kv => appends (enc (snd kv))) m ->
  encode_entries enc m keys EmptyString =
  concat ","
    (map (fun key => _encode_canonical_string key ++ ":" ++ encode_index enc m key EmptyString)
       keys).
Proof.
  intros Hm. induction keys as [|key rest IH]; [reflexivity|].
  rewrite encode_entries_cons.
  rewrite (encode_index_appends enc m key Hm). cbn [append].
  destruct rest as [|key' rest'].
  - cbn [comma_unless_last encode_entries map concat]. now rewrite append_assoc.
  - rewrite (encode_entries_appends enc m _ Hm), IH.
    cbn [comma_unless_last map concat]. now rewrite !append_assoc.
Qed.

Lemma encode_index_map_index m key :
  encode_index _encode_canonical m key EmptyString = encode_canonical (map_index m key).
Proof.
  induction m as [|[k v] m IH]; [reflexivity|].
  rewrite encode_index_cons. cbn [map_index].
  destruct (String.eqb k key); [reflexivity | exact IH].
Qed.

Lemma all_append (m : list (string * value)) :
  Forall (fun kv => appends (_encode_canonical (snd kv))) m.
Proof. apply Forall_forall. intros kv _. apply _encode_canonical_appends. Qed.

(** A slice is written as its elements between brackets, a comma between
    two of them. *)
Lemma encode_canonical_slice (l : list value) :
  encode_canonical (VSlice l) = "[" ++ concat "," (map encode_canonical l) ++ "]".
Proof.
  assert (Forall (fun v => appends (_encode_canonical v)) l) as Hl
      by (apply Forall_forall; intros v _; apply _encode_canonical_appends).
  unfold encode_canonical at 1. cbn [_encode_canonical].
  rewrite (encode_elems_appends _encode_canonical l Hl).
  rewrite (encode_elems_concat _ l Hl).
  change (EmptyString ++ "[") with "[". now rewrite append_assoc.
Qed.

Lemma encode_entries_canonical m keys :
  encode_entries _encode_canonical m keys EmptyString =
  concat ","
    (map (fun key => _encode_canonical_string key ++ ":"
                     ++ encode_canonical (map_index m key)) keys).
Proof.
  rewrite (encode_entries_concat _ m _ (all_append m)). f_equal.
  apply map_ext. intros key. now rewrite encode_index_map_index.
Qed.

(** A map is written as its entries between braces, in the order of the
    sorted keys: the key as a string, a colon, the value, and a comma
    between two entries. *)
Lemma encode_canonical_map (m : list (string * value)) :
  encode_canonical (VMap m) =
  "{" ++ concat ","
           (map (fun key => _encode_canonical_string key ++ ":"
                            ++ encode_canonical (map_index m key))
              (sort_Strings (map fst m))) ++ "}".
Proof.
  unfold encode_canonical at 1. cbn [_encode_canonical]. cbv zeta.
  rewrite (encode_entries_appends _encode_canonical m _ (all_append m)).
  rewrite encode_entries_canonical.
  change (EmptyString ++ "{") with "{". now rewrite append_assoc.
Qed.

(** * White space *)

Lemma count_space_escape_quotes (s : string) :
  count_space (escape_quotes s) = count_space s.
Proof.
  induction s as [|c s IH]; [reflexivity|].
  cbn [escape_quotes]. destruct (Ascii.eqb_spec c dquote) as [->|Hne].
  - cbn. now rewrite IH.
  - cbn [count_space]. now rewrite IH.
Qed.

Lemma count_space_encode_string (s : string) :
  count_space (_encode_canonical_string s) = count_space s.
Proof.
  unfold _encode_canonical_string.
  rewrite !count_space_append, count_space_escape_quotes. cbn. lia.
Qed.

Lemma count_space_concat (l : list string) :
  Forall (fun s => count_space s = 0%nat) l -> count_space (concat "," l) = 0%nat.
Proof.
  induction 1 as [|s l Hs Hl IH]; [reflexivity|].
  destruct l as [|t l']; [exact Hs|].
  change (concat "," (s :: t :: l')) with (s ++ "," ++ concat "," (t :: l')).
  rewrite !count_space_append, Hs, IH. reflexivity.
Qed.

Lemma space_free_map_index m key :
  space_free (VMap m) = true -> space_free (map_index m key) = true.
Proof.
  cbn [space_free]. induction m as [|[k v] m IH]; [reflexivity|].
  cbn [forallb map_index fst snd]. rewrite !andb_true_iff. intros [[_ Hv] Hm].
  destruct (String.eqb k key); [exact Hv | now apply IH].
Qed.

Lemma space_free_keys m key :
  space_free (VMap m) = true -> In key (map fst m) -> count_space key = 0%nat.
Proof.
  cbn [space_free]. rewrite forallb_forall. intros Hm Hin.
  apply in_map_iff in Hin. destruct Hin as [[k v] [<- Hin]].
  apply Hm in Hin. apply andb_true_iff in Hin. now apply Nat.eqb_eq.
Qed.

Lemma map_index_in_or_nil m key :
  map_index m key = VNil \/ In (map_index m key) (map snd m).
Proof.
  induction m as [|[k v] m IH]; [now left|].
  cbn [map_index map snd]. destruct (String.eqb k key).
  - right. now left.
  - destruct IH as [IH|IH]; [now left | right; now right].
Qed.

(** The encoder writes no white space of its own. *)
Lemma encode_canonical_space_free (v : value) :
  space_free v = true -> count_space (encode_canonical v) = 0%nat.
Proof.
  induction v as [s|b|i| |l IH|m IH| ] using value_nested_ind; intros Hv.
  - unfold encode_canonical. cbn [_encode_canonical append].
    rewrite count_space_encode_string. now apply Nat.eqb_eq.
  - now destruct b.
  - unfold encode_canonical. cbn [_encode_canonical append]. now apply Nat.eqb_eq.
  - reflexivity.
  - rewrite encode_canonical_slice, !count_space_append, count_space_concat; [reflexivity|].
    apply Forall_map. cbn [space_free] in Hv. rewrite forallb_forall in Hv.
    rewrite Forall_forall in *. intros x Hx. apply IH; [exact Hx | now apply Hv].
  - rewrite encode_canonical_map, !count_space_append, count_space_concat; [reflexivity|].
    apply Forall_map, Forall_forall. intros key Hkey.
    rewrite !count_space_append, count_space_encode_string.
    rewrite (space_free_keys m key Hv).
    2:{ eapply Permutation_in; [apply Permutation_sym, sort_Strings_perm | exact Hkey]. }
    cbn. pose proof (space_free_map_index m key Hv) as Hidx.
    destruct (map_index_in_or_nil m key) as [Hnil|Hin].
    + now rewrite Hnil.
    + rewrite Forall_forall in IH. apply in_map_iff in Hin.
      destruct Hin as [kv [Heq Hin]]. rewrite <- Heq in *. now apply IH.
  - reflexivity.
Qed.

(** * The order of the entries does not matter *)

Lemma map_index_permutation m m' key :
  is_map m -> Permutation m m' -> map_index m key = map_index m' key.
Proof.
  unfold is_map. intros Hnd Hp. induction Hp as [|[k v] l l' Hp IH|[k v] [k' v'] l|l l' l'' H1 IH1 H2 IH2].
  - reflexivity.
  - cbn [map_index]. cbn [map fst] in Hnd. inversion Hnd; subst.
    destruct (String.eqb k key); [reflexivity | now apply IH].
  - cbn [map_index]. cbn [map fst] in Hnd. inversion Hnd as [|? ? Hnotin _]; subst.
    destruct (String.eqb_spec k' key) as [->|]; [|reflexivity].
    destruct (String.eqb_spec k key) as [->|]; [|reflexivity].
    exfalso. apply Hnotin. now left.
  - rewrite IH1 by exact Hnd. apply IH2.
    eapply Permutation_NoDup; [apply Permutation_map; exact H1 | exact Hnd].
Qed.

(** Two maps with the same entries are written the same. *)
Lemma encode_canonical_permutation m m' :
  is_map m -> Permutation m m' -> encode_canonical (VMap m) = encode_canonical (VMap m').
Proof.
  intros Hnd Hp. rewrite !encode_canonical_map.
  rewrite (sort_Strings_permutation_invariant (map fst m) (map fst m'))
    by now apply Permutation_map.
  do 3 f_equal. apply map_ext. intros key.
  now rewrite (map_index_permutation m m' key Hnd Hp).
Qed.

(** * encoding/hex *)

Lemma hextable_is_lower_hex (c : ascii) :
  is_lower_hex (hextable (N_of_ascii c / 16)) = true
  /\ is_lower_hex (hextable (N_of_ascii c mod 16)) = true.
Proof. each_byte c; split; reflexivity. Qed.

Lemma fromHexChar_hextable (c : ascii) :
  fromHexChar (hextable (N_of_ascii c / 16)) = Some (N_of_ascii c / 16)%N
  /\ fromHexChar (hextable (N_of_ascii c mod 16)) = Some (N_of_ascii c mod 16)%N
  /\ ascii_of_N (N_of_ascii c / 16 * 16 + N_of_ascii c mod 16) = c.
Proof. each_byte c; repeat split; reflexivity. Qed.

(** The digits [hex.EncodeToString] writes are lower-case. *)
Lemma hex_EncodeToString_lower (src : string) :
  all_chars is_lower_hex (hex_EncodeToString src) = true.
Proof.
  induction src as [|c r IH]; [reflexivity|].
  cbn [hex_EncodeToString all_chars].
  destruct (hextable_is_lower_hex c) as [-> ->]. exact IH.
Qed.

Lemma hex_EncodeToString_length (src : string) :
  String.length (hex_EncodeToString src) = (2 * String.length src)%nat.
Proof.
  induction src as [|c r IH]; [reflexivity|].
  cbn [hex_EncodeToString String.length]. rewrite IH. lia.
Qed.

(** Decoding undoes encoding. *)
Lemma hex_DecodeString_EncodeToString (src : string) :
  hex_DecodeString (hex_EncodeToString src) = (src, None).
Proof.
  induction src as [|c r IH]; [reflexivity|].
  cbn [hex_EncodeToString hex_DecodeString].
  destruct (fromHexChar_hextable c) as (-> & -> & Hc).
  now rewrite IH, Hc.
Qed.

(** * strings.TrimSpace on text without white space *)

Lemma is_lower_hex_plain (c : ascii) : is_lower_hex c = true -> plain c = true.
Proof. each_byte c; intros H; first [reflexivity | discriminate H]. Qed.

Lemma all_chars_impl (p q : ascii -> bool) (s : string) :
  (forall c, p c = true -> q c = true) -> all_chars p s = true -> all_chars q s = true.
Proof.
  intros Hpq. induction s as [|c r IH]; [reflexivity|].
  cbn [all_chars]. rewrite !andb_true_iff. intros [Hc Hr]. split; auto.
Qed.

Lemma TrimSpace_left_plain (s : string) :
  all_chars plain s = true -> TrimSpace_left s = (false, s).
Proof.
  destruct s as [|c r]; [reflexivity|].
  cbn [all_chars TrimSpace_left]. unfold plain.
  rewrite !andb_true_iff, !negb_true_iff. now intros [[-> ->] _].
Qed.

Lemma TrimSpace_right_plain (s : string) :
  all_chars plain s = true -> TrimSpace_right s = (false, s).
Proof.
  induction s as [|c r IH]; [reflexivity|].
  cbn [all_chars TrimSpace_right]. unfold plain at 1.
  rewrite !andb_true_iff, !negb_true_iff. intros [[Hc1 Hc2] Hr].
  rewrite (IH Hr). destruct r as [|c' r']; [|reflexivity].
  now rewrite Hc1, Hc2.
Qed.

Lemma strings_TrimSpace_plain `{GoLib} (s : string) :
  all_chars plain s = true -> strings_TrimSpace s = s.
Proof.
  intros Hs. unfold strings_TrimSpace.
  now rewrite (TrimSpace_left_plain s Hs), (TrimSpace_right_plain s Hs).
Qed.

(** A hexadecimal string is left as it is. *)
Lemma strings_TrimSpace_hex `{GoLib} (src : string) :
  strings_TrimSpace (hex_EncodeToString src) = hex_EncodeToString src.
Proof.
  apply strings_TrimSpace_plain.
  apply (all_chars_impl is_lower_hex); [apply is_lower_hex_plain|].
  apply hex_EncodeToString_lower.
Qed.

(** * No integer is written as its decimal digits *)

Lemma starts_differ (a b : string) :
  starts_nonASCII a = true -> starts_ASCII b = true -> a <> b.
Proof.
  destruct a as [|x a], b as [|y b]; cbn; try discriminate.
  intros Hx Hy E. injection E as -> _. rewrite Hx in Hy. discriminate.
Qed.

Lemma below_by_cases (p : nat -> bool) (bound : nat) :
  forallb p (seq 0 bound) = true -> forall n, (n < bound)%nat -> p n = true.
Proof.
  intros H n Hn. rewrite forallb_forall in H. apply H, in_seq. lia.
Qed.

Lemma lead_byte_nonASCII (tag x : Z) :
  (tag = 192 \/ tag = 224 \/ tag = 240)%Z -> (0 <= x < 64)%Z ->
  nonASCII (byte_of_Z (Z.lor tag x)) = true.
Proof.
  intros Htag Hx.
  assert (forall n, (n < 64)%nat ->
            nonASCII (byte_of_Z (Z.lor 192 (Z.of_nat n)))
            && nonASCII (byte_of_Z (Z.lor 224 (Z.of_nat n)))
            && nonASCII (byte_of_Z (Z.lor 240 (Z.of_nat n))) = true) as H
      by (apply below_by_cases; vm_compute; reflexivity).
  specialize (H (Z.to_nat x) ltac:(lia)). rewrite Z2Nat.id in H by lia.
  apply andb_true_iff in H. destruct H as [H H240].
  apply andb_true_iff in H. destruct H as [H192 H224].
  destruct Htag as [->|[->| ->]]; assumption.
Qed.

Lemma shiftr_bounds (i : Z) (n bound : Z) :
  (0 <= i)%Z -> (0 <= n)%Z -> (i < bound * 2 ^ n)%Z -> (0 <= Z.shiftr i n < bound)%Z.
Proof.
  intros Hi Hn Hb. rewrite Z.shiftr_div_pow2 by exact Hn.
  assert (0 < 2 ^ n)%Z by (apply Z.pow_pos_nonneg; lia). split.
  - now apply Z.div_pos.
  - apply Z.div_lt_upper_bound; lia.
Qed.

(** Outside 0..127 the conversion starts with a byte above 127. *)
Lemma string_of_int_starts_nonASCII (i : Z) :
  (i < 0 \/ 127 < i)%Z -> starts_nonASCII (string_of_int i) = true.
Proof.
  intros Hi. unfold string_of_int.
  destruct ((i <? 0) || (1114111 <? i) || ((55296 <=? i) && (i <=? 57343)))%Z eqn:Hbad;
    [reflexivity|].
  apply orb_false_iff in Hbad. destruct Hbad as [Hbad _].
  apply orb_false_iff in Hbad. destruct Hbad as [Hneg Hbig].
  apply Z.ltb_ge in Hneg, Hbig.
  destruct (i <=? 127)%Z eqn:H127; [apply Z.leb_le in H127; lia|].
  destruct (i <=? 2047)%Z eqn:H2047; [|destruct (i <=? 65535)%Z eqn:H65535];
    cbn [starts_nonASCII]; apply lead_byte_nonASCII; auto.
  - apply Z.leb_le in H2047.
    pose proof (shiftr_bounds i 6 32 ltac:(lia) ltac:(lia) ltac:(lia)). lia.
  - apply Z.leb_le in H65535.
    pose proof (shiftr_bounds i 12 16 ltac:(lia) ltac:(lia) ltac:(lia)). lia.
  - pose proof (shiftr_bounds i 18 8 ltac:(lia) ltac:(lia) ltac:(lia)). lia.
Qed.

Lemma digit_is_ASCII (n : N) : nonASCII (ascii_of_N (48 + n mod 10)) = false.
Proof.
  unfold nonASCII. assert (n mod 10 < 10)%N by (apply N.mod_lt; discriminate).
  rewrite N_ascii_embedding by lia. apply N.leb_gt. lia.
Qed.

Lemma decimal_digits_starts_ASCII (fuel : nat) :
  forall n acc,
    (0 < fuel)%nat \/ starts_ASCII acc = true ->
    starts_ASCII (decimal_digits fuel n acc) = true.
Proof.
  induction fuel as [|fuel IH]; intros n acc H.
  - destruct H as [H|H]; [lia | exact H].
  - cbn [decimal_digits].
    assert (starts_ASCII (String (ascii_of_N (48 + n mod 10)) acc) = true) as Hd
        by (cbn [starts_ASCII]; now rewrite digit_is_ASCII).
    destruct (n / 10 =? 0)%N; [exact Hd | apply IH; now right].
Qed.

(** The decimal digits start with a digit or the minus sign. *)
Lemma decimal_of_int_starts_ASCII (i : Z) : starts_ASCII (decimal_of_int i) = true.
Proof.
  unfold decimal_of_int. destruct (i <? 0)%Z; [reflexivity|].
  apply decimal_digits_starts_ASCII. left. lia.
Qed.

(** For no integer at all is what the integer case writes the decimal
    representation of the integer. *)
Lemma encode_canonical_int_never_decimal (i : Z) :
  encode_canonical (VInt i) <> decimal_of_int i.
Proof.
  unfold encode_canonical. cbn [_encode_canonical append].
  destruct (Z_lt_ge_dec i 0) as [Hneg|Hpos];
    [|destruct (Z_le_gt_dec i 127) as [Hsmall|Hbig]].
  - apply starts_differ; [apply string_of_int_starts_nonASCII; lia|].
    apply decimal_of_int_starts_ASCII.
  - assert (forall n, (n < 128)%nat ->
              negb (String.eqb (string_of_int (Z.of_nat n)) (decimal_of_int (Z.of_nat n)))
              = true) as H
        by (apply below_by_cases; vm_compute; reflexivity).
    specialize (H (Z.to_nat i) ltac:(lia)). rewrite Z2Nat.id in H by lia.
    apply negb_true_iff in H. now apply String.eqb_neq.
  - apply starts_differ; [apply string_of_int_starts_nonASCII; lia|].
    apply decimal_of_int_starts_ASCII.
Qed.

(** * The canonical encoder: integers, white space, key order *)

(** C2: the integer case of [_encode_canonical] converts the integer with
    [string(i)], which yields the character of code point 65 for the
    integer 65, the one byte [A], where the decimal digits are [65]; and
    for no integer does it write the decimal digits. *)
Theorem encode_canonical_int_is_rune :
  encode_canonical (VInt 65) = "A"
  /\ decimal_of_int 65 = "65"
  /\ (forall i, encode_canonical (VInt i) <> decimal_of_int i).
Proof.
  split; [reflexivity | split; [reflexivity|]].
  exact encode_canonical_int_never_decimal.
Qed.

(** Every integer from 0 to 127 is written as the single byte of that
    value. *)
Lemma encode_canonical_int_ascii (i : Z) :
  (0 <= i <= 127)%Z -> encode_canonical (VInt i) = str (byte_of_Z i).
Proof.
  intros Hi. unfold encode_canonical. cbn [_encode_canonical append].
  unfold string_of_int.
  replace (i <? 0)%Z with false by (symmetry; apply Z.ltb_ge; lia).
  replace (1114111 <? i)%Z with false by (symmetry; apply Z.ltb_ge; lia).
  replace (55296 <=? i)%Z with false by (symmetry; apply Z.leb_gt; lia).
  replace (i <=? 127)%Z with true by (symmetry; apply Z.leb_le; lia).
  reflexivity.
Qed.

(** C6, as stated, fails: a string that holds a space is written with
    the space. *)
Example encode_canonical_keeps_space :
  encode_canonical (VMap [("k", VString "a b")])
  = "{" ++ _encode_canonical_string "k" ++ ":" ++ _encode_canonical_string "a b" ++ "}"
  /\ count_space (encode_canonical (VMap [("k", VString "a b")])) = 1%nat.
Proof. split; reflexivity. Qed.

(** C6 (amended): the encoder writes no white space of its own, so the
    encoding of a value whose strings and keys hold none holds none; a map
    is written as an opening brace, its entries in strictly increasing
    byte-wise order of their keys, each as key, colon, value with a comma
    between two entries and none after the last, and a closing brace; and
    two maps with the same entries in a different order are written the
    same. *)
Theorem encode_canonical_sorted_and_compact (v : value) (m m' : list (string * value)) :
  space_free v = true ->
  is_map m ->
  Permutation m m' ->
  count_space (encode_canonical v) = 0%nat
  /\ StronglySorted string_lt (sort_Strings (map fst m))
  /\ Permutation (map fst m) (sort_Strings (map fst m))
  /\ encode_canonical (VMap m)
     = "{" ++ concat ","
                (map (fun key => _encode_canonical_string key ++ ":"
                                 ++ encode_canonical (map_index m key))
                   (sort_Strings (map fst m))) ++ "}"
  /\ encode_canonical (VMap m) = encode_canonical (VMap m').
Proof.
  intros Hv Hm Hp. repeat split.
  - now apply encode_canonical_space_free.
  - now apply sort_Strings_strict.
  - apply sort_Strings_perm.
  - apply encode_canonical_map.
  - now apply encode_canonical_permutation.
Qed.

Lemma sample_entries_is_map : is_map sample_entries.
Proof.
  unfold is_map, sample_entries. cbn [map fst].
  repeat (constructor; [cbn [In]; intuition discriminate|]). constructor.
Defined.

Example encode_canonical_sorted_and_compact_witness :
  count_space (encode_canonical (VMap sample_entries)) = 0%nat
  /\ StronglySorted string_lt (sort_Strings (map fst sample_entries))
  /\ Permutation (map fst sample_entries) (sort_Strings (map fst sample_entries))
  /\ encode_canonical (VMap sample_entries)
     = "{" ++ concat ","
                (map (fun key => _encode_canonical_string key ++ ":"
                                 ++ encode_canonical (map_index sample_entries key))
                   (sort_Strings (map fst sample_entries))) ++ "}"
  /\ encode_canonical (VMap sample_entries) = encode_canonical (VMap (rev sample_entries)).
Proof.
  apply (encode_canonical_sorted_and_compact (VMap sample_entries) sample_entries
           (rev sample_entries)).
  - reflexivity.
  - exact sample_entries_is_map.
  - apply Permutation_rev.
Defined.

(** * Package in_toto: key ids *)

Section KeylibFacts.
Context {L : GoLib}.

Lemma keyToBeHashed_with_KeyId (k : Key) (id : string) :
  InToto.keyToBeHashed (InToto.with_KeyId k id) = InToto.keyToBeHashed k.
Proof. reflexivity. Qed.

(** The key [GenerateKeyId] leaves behind. *)
Lemma GenerateKeyId_key (k : Key) :
  fst (InToto.GenerateKeyId k) =
  match EncodeCanonical (InToto.keyToBeHashed k) with
  | inl keyCanonical =>
      InToto.with_KeyId k (hex_EncodeToString (sha256_Sum256 keyCanonical))
  | inr _ => k
  end.
Proof.
  unfold InToto.GenerateKeyId.
  destruct (EncodeCanonical (InToto.keyToBeHashed k)) as [keyCanonical|err]; [|reflexivity].
  cbv zeta. now destruct (validateKey _).
Qed.

Lemma GenerateKeyId_keeps_KeyVal (k : Key) :
  Key_KeyVal (fst (InToto.GenerateKeyId k)) = Key_KeyVal k.
Proof.
  rewrite GenerateKeyId_key. now destruct (EncodeCanonical _).
Qed.

(** Running [GenerateKeyId] again changes nothing: same key, same error. *)
Lemma GenerateKeyId_idempotent (k : Key) :
  InToto.GenerateKeyId (fst (InToto.GenerateKeyId k)) = InToto.GenerateKeyId k.
Proof.
  rewrite GenerateKeyId_key. unfold InToto.GenerateKeyId.
  destruct (EncodeCanonical (InToto.keyToBeHashed k)) as [keyCanonical|err] eqn:Henc.
  - rewrite keyToBeHashed_with_KeyId, Henc. reflexivity.
  - now rewrite Henc.
Qed.

(** C3: the key id that [GenerateKeyId] derives is the lower-case
    hexadecimal SHA-256 digest of the canonical encoding of the map of
    keytype, scheme, keyid_hash_algorithms and keyval with the public
    component alone; a key that differs in its key id and its private
    component only gets the same id; and running [GenerateKeyId] on the
    key it left behind yields the same key and error. *)
Theorem GenerateKeyId_derives_key_id (k : Key) (keyCanonical : string) :
  EncodeCanonical
    (VMap [ ("keytype", VString (KeyType k));
            ("scheme", VString (Scheme k));
            ("keyid_hash_algorithms", VSlice (map VString (KeyIdHashAlgorithms k)));
            ("keyval", VMap [ ("public", VString (Public (Key_KeyVal k))) ]) ])
  = inl keyCanonical ->
  KeyId (fst (InToto.GenerateKeyId k)) = hex_EncodeToString (sha256_Sum256 keyCanonical)
  /\ all_chars is_lower_hex (KeyId (fst (InToto.GenerateKeyId k))) = true
  /\ (forall id priv,
        KeyId (fst (InToto.GenerateKeyId
                      (mkKey id (KeyIdHashAlgorithms k) (KeyType k)
                         (mkKeyVal priv (Public (Key_KeyVal k))) (Scheme k))))
        = KeyId (fst (InToto.GenerateKeyId k)))
  /\ InToto.GenerateKeyId (fst (InToto.GenerateKeyId k)) = InToto.GenerateKeyId k.
Proof.
  intros Henc.
  assert (KeyId (fst (InToto.GenerateKeyId k))
          = hex_EncodeToString (sha256_Sum256 keyCanonical)) as Hid.
  { rewrite GenerateKeyId_key. unfold InToto.keyToBeHashed. now rewrite Henc. }
  repeat split.
  - exact Hid.
  - rewrite Hid. apply hex_EncodeToString_lower.
  - intros id priv. rewrite Hid, GenerateKeyId_key.
    unfold InToto.keyToBeHashed. cbn [KeyType Scheme KeyIdHashAlgorithms Key_KeyVal Public].
    now rewrite Henc.
  - apply GenerateKeyId_idempotent.
Qed.

(** * Package in_toto: the unsupported key type *)

(** C1: for a key type that is none of rsa, ecdsa and ed25519,
    [VerifySignature] returns an error that wraps [ErrInvalidSignature],
    and that is not [ErrUnsupportedKeyType]. *)
Theorem VerifySignature_unsupported_key_type (key : Key) (sig : Signature) (unverified : string) :
  String.eqb (KeyType key) rsaKeyType = false ->
  String.eqb (KeyType key) ecdsaKeyType = false ->
  String.eqb (KeyType key) ed25519KeyType = false ->
  InToto.VerifySignature key sig unverified
  = Ret (Some (Wrap ErrInvalidSignature ("Key has type " ++ KeyType key)))
  /\ errors_Is (Wrap ErrInvalidSignature ("Key has type " ++ KeyType key))
       ErrInvalidSignature = true
  /\ errors_Is (Wrap ErrInvalidSignature ("Key has type " ++ KeyType key))
       ErrUnsupportedKeyType = false.
Proof.
  intros Hrsa Hecdsa Hed. unfold InToto.VerifySignature.
  rewrite Hrsa, Hecdsa, Hed. repeat split.
Qed.

(** [GenerateSignature] names the same condition [ErrUnsupportedKeyType]. *)
Lemma GenerateSignature_unsupported_key_type (rnd : Rand) (signable : string) (key : Key) :
  String.eqb (KeyType key) rsaKeyType = false ->
  String.eqb (KeyType key) ecdsaKeyType = false ->
  String.eqb (KeyType key) ed25519KeyType = false ->
  InToto.GenerateSignature rnd signable key
  = Ret (Signature_zero, Some (Wrap ErrUnsupportedKeyType (KeyType key))).
Proof.
  intros Hrsa Hecdsa Hed. unfold InToto.GenerateSignature.
  now rewrite Hrsa, Hecdsa, Hed.
Qed.

(** * Package in_toto: a failing ECDSA signing step *)

(** C10: when the key is an ECDSA key and [ecdsa.Sign] fails,
    [GenerateSignature] returns the zero signature, whose [Sig] is the
    hexadecimal encoding of no bytes, and a nil error. *)
Theorem GenerateSignature_ecdsa_sign_failure (rnd : Rand) (signable : string) (key : Key)
    (data : pem_Block) (priv : ecdsa_PrivateKey) (err : error) :
  KeyType key = ecdsaKeyType ->
  pem_Decode (Private (Key_KeyVal key)) = Some data ->
  InToto.ParseKey (Block_Bytes data) = inl (EcdsaPrivateKey priv) ->
  ecdsa_Sign rnd priv (sha256_Sum256 signable) = inr err ->
  InToto.GenerateSignature rnd signable key = Ret (Signature_zero, None)
  /\ Sig Signature_zero = hex_EncodeToString EmptyString.
Proof.
  intros Htype Hpem Hparse Hsign. unfold InToto.GenerateSignature.
  rewrite Htype, Hpem, Hparse. cbn [String.eqb Ascii.eqb Bool.eqb orb negb ecdsaKeyType rsaKeyType].
  cbv zeta. rewrite Hsign. split; reflexivity.
Qed.

End KeylibFacts.


(** * Package in_toto: what LoadKey stores *)

Section LoadKeyFacts.
Context {L : GoLib}.

Lemma length_positive (s : string) :
  s <> EmptyString -> (0 <? String.length s)%nat = true.
Proof. destruct s; [contradiction | reflexivity]. Qed.

(** Of an RSA or ECDSA key with a private part, the public part is
    stored as a PEM block of type PUBLIC KEY. *)
Lemma SetKeyComponents_pem_private k pubKeyBytes privateKeyBytes keyType scheme algos :
  String.eqb keyType rsaKeyType || String.eqb keyType ecdsaKeyType = true ->
  privateKeyBytes <> EmptyString ->
  Key_KeyVal (fst (InToto.SetKeyComponents k pubKeyBytes privateKeyBytes keyType scheme algos))
  = mkKeyVal (strings_TrimSpace privateKeyBytes)
      (strings_TrimSpace (pem_EncodeToMemory (mkBlock "PUBLIC KEY" [] pubKeyBytes))).
Proof.
  intros Htype Hpriv. unfold InToto.SetKeyComponents.
  rewrite Htype, (length_positive _ Hpriv). apply GenerateKeyId_keeps_KeyVal.
Qed.

(** Without a private part, the bytes given as the public part are stored
    as they are, trimmed. *)
Lemma SetKeyComponents_pem_public k pubKeyBytes keyType scheme algos :
  String.eqb keyType rsaKeyType || String.eqb keyType ecdsaKeyType = true ->
  Key_KeyVal (fst (InToto.SetKeyComponents k pubKeyBytes EmptyString keyType scheme algos))
  = mkKeyVal EmptyString (strings_TrimSpace pubKeyBytes).
Proof.
  intros Htype. unfold InToto.SetKeyComponents.
  rewrite Htype. cbn [String.length Nat.ltb Nat.leb]. apply GenerateKeyId_keeps_KeyVal.
Qed.

Lemma SetKeyComponents_ed25519 k pubKeyBytes privateKeyBytes scheme algos :
  Key_KeyVal (fst (InToto.SetKeyComponents k pubKeyBytes privateKeyBytes ed25519KeyType
                     scheme algos))
  = mkKeyVal (hex_EncodeToString privateKeyBytes) (hex_EncodeToString pubKeyBytes).
Proof.
  unfold InToto.SetKeyComponents.
  change (String.eqb ed25519KeyType rsaKeyType || String.eqb ed25519KeyType ecdsaKeyType)
    with false.
  change (String.eqb ed25519KeyType ed25519KeyType) with true. cbv iota.
  destruct privateKeyBytes as [|c r].
  - cbn [String.length Nat.ltb Nat.leb]. rewrite GenerateKeyId_keeps_KeyVal.
    now rewrite strings_TrimSpace_hex.
  - rewrite (length_positive (String c r)) by discriminate.
    rewrite GenerateKeyId_keeps_KeyVal. now rewrite !strings_TrimSpace_hex.
Qed.

(** C9 (amended): of a file that holds an RSA or ECDSA private key,
    [LoadKey] stores the public key as a PEM block of type PUBLIC KEY
    around its PKIX encoding, trimmed, and the text of the file, trimmed,
    as the private component; of a file that holds an RSA or ECDSA public
    key it stores the text of the file, trimmed, as the public component,
    and does not encode it again; of an Ed25519 key it stores the
    lower-case hexadecimal digits of the key bytes. *)
Theorem LoadKey_stored_components (k : Key) (path scheme : string) (algos : list string)
    (pemFile : os_File) (pemBytes : string) (data : pem_Block) (key : crypto_key) :
  os_Open path = inl pemFile ->
  ioutil_ReadAll pemFile = (pemBytes, None) ->
  pem_Decode pemBytes = Some data ->
  InToto.ParseKey (Block_Bytes data) = inl key ->
  pemBytes <> EmptyString ->
  let stored := Key_KeyVal (fst (InToto.LoadKey k path scheme algos)) in
  match key with
  | RsaPrivateKey priv =>
      forall der,
        x509_MarshalPKIXPublicKey (RsaPublicKey (rsa_PublicKey_of priv)) = inl der ->
        Public stored = strings_TrimSpace (pem_EncodeToMemory (mkBlock "PUBLIC KEY" [] der))
        /\ Private stored = strings_TrimSpace pemBytes
  | EcdsaPrivateKey priv =>
      forall der,
        x509_MarshalPKIXPublicKey (EcdsaPublicKey (ecdsa_PublicKey_of priv)) = inl der ->
        Public stored = strings_TrimSpace (pem_EncodeToMemory (mkBlock "PUBLIC KEY" [] der))
        /\ Private stored = strings_TrimSpace pemBytes
  | RsaPublicKey _ | EcdsaPublicKey _ =>
      Public stored = strings_TrimSpace pemBytes /\ Private stored = EmptyString
  | Ed25519PublicKey pub =>
      Public stored = hex_EncodeToString pub /\ Private stored = EmptyString
      /\ all_chars is_lower_hex (Public stored) = true
  | Ed25519PrivateKey priv =>
      Public stored = hex_EncodeToString (ed25519_Public priv)
      /\ Private stored = hex_EncodeToString priv
      /\ all_chars is_lower_hex (Public stored) = true
      /\ all_chars is_lower_hex (Private stored) = true
  | OtherKey _ => stored = Key_KeyVal k
  end.
Proof.
  intros Hopen Hread Hpem Hparse Hne stored. subst stored.
  unfold InToto.LoadKey. rewrite Hopen, Hread, Hpem, Hparse.
  destruct key as [priv|pub|priv|pub|priv|pub|other].
  - intros der ->. now rewrite SetKeyComponents_pem_private.
  - now rewrite SetKeyComponents_pem_public.
  - intros der ->. now rewrite SetKeyComponents_pem_private.
  - now rewrite SetKeyComponents_pem_public.
  - rewrite SetKeyComponents_ed25519. cbn [Public Private].
    repeat split; apply hex_EncodeToString_lower.
  - rewrite SetKeyComponents_ed25519. cbn [Public Private].
    repeat split; apply hex_EncodeToString_lower.
  - reflexivity.
Qed.

End LoadKeyFacts.

(** * Package in_toto: an altered signature *)

Lemma flip_case_fromHexChar (c : ascii) :
  is_hex_letter c = true ->
  fromHexChar (flip_bit 5 c) = fromHexChar c /\ fromHexChar c <> None.
Proof. each_byte c; intros H; first [discriminate H | split; [reflexivity | discriminate]]. Qed.

(** Flipping bit 5 of a letter among the digits changes its case, and
    not what the string decodes to. *)
Lemma hex_DecodeString_flip_case (pos : nat) :
  forall (s : string) (c : ascii),
    String.get pos s = Some c ->
    is_hex_letter c = true ->
    hex_DecodeString (flip_bit_at pos 5 s) = hex_DecodeString s.
Proof.
  induction pos as [pos IH] using (well_founded_induction Wf_nat.lt_wf).
  intros s c Hget Hc. destruct s as [|p [|q rest]].
  - discriminate Hget.
  - destruct pos as [|pos']; [|destruct pos'; discriminate Hget].
    injection Hget as ->. cbn [flip_bit_at hex_DecodeString].
    destruct (flip_case_fromHexChar c Hc) as [-> Hsome].
    destruct (fromHexChar c); [reflexivity | contradiction].
  - destruct pos as [|[|pos']].
    + injection Hget as ->. cbn [flip_bit_at hex_DecodeString].
      destruct (flip_case_fromHexChar c Hc) as [-> Hsome].
      destruct (fromHexChar c); [reflexivity | contradiction].
    + cbn [String.get] in Hget. injection Hget as ->. cbn [flip_bit_at hex_DecodeString].
      destruct (flip_case_fromHexChar c Hc) as [-> Hsome].
      destruct (fromHexChar c); [reflexivity | contradiction].
    + cbn [String.get] in Hget. cbn [flip_bit_at hex_DecodeString].
      rewrite (IH pos' ltac:(lia) rest c Hget Hc). reflexivity.
Qed.

Section SignatureFacts.
Context {L : GoLib}.

(** [VerifySignature] reads the signature through [hex.DecodeString]
    alone. *)
Lemma VerifySignature_by_decoded (key : Key) (sig sig' : Signature) (unverified : string) :
  hex_DecodeString (Sig sig') = hex_DecodeString (Sig sig) ->
  InToto.VerifySignature key sig' unverified = InToto.VerifySignature key sig unverified.
Proof.
  intros H. unfold InToto.VerifySignature. now rewrite H.
Qed.

(** C4 (amended): whatever the signature string is (so also after a bit of
    a valid one was flipped), [VerifySignature] decides by the bytes that
    [hex.DecodeString] reads from it.  On the RSA path it returns nil
    exactly when [rsa.VerifyPSS] accepts those bytes over the SHA-256
    digest of the payload with salt length 32, and otherwise an error that
    wraps [ErrInvalidSignature] around the error of [rsa.VerifyPSS]; the
    error of [hex.DecodeString] is dropped.  On the ECDSA path it returns
    the error of [asn1.Unmarshal] itself when the decoded bytes do not
    unmarshal, and otherwise nil exactly when [ecdsa.Verify] accepts the two
    integers over the digest, and otherwise [ErrInvalidSignature].  On the
    Ed25519 path it returns the error of [hex.DecodeString] itself when the
    string does not decode, and otherwise what [ed25519.Verify] decides:
    nil, or an error that wraps [ErrInvalidSignature].  Flipping bit 5 of a
    letter among the hexadecimal digits changes the case of the letter and
    leaves the result as it was. *)
Theorem VerifySignature_altered_signature (key : Key) (sig : Signature) (unverified : string) :
  (forall data pub,
      String.eqb (KeyType key) rsaKeyType || String.eqb (KeyType key) ecdsaKeyType = true ->
      pem_Decode (Public (Key_KeyVal key)) = Some data ->
      InToto.ParseKey (Block_Bytes data) = inl (RsaPublicKey pub) ->
      InToto.VerifySignature key sig unverified
      = match rsa_VerifyPSS pub crypto_SHA256 (sha256_Sum256 unverified)
                (fst (hex_DecodeString (Sig sig))) (mkPSSOptions 32 crypto_SHA256) with
        | None => Ret None
        | Some err => Ret (Some (Wrap ErrInvalidSignature (Error err)))
        end)
  /\ (forall data pub,
        String.eqb (KeyType key) rsaKeyType || String.eqb (KeyType key) ecdsaKeyType = true ->
        pem_Decode (Public (Key_KeyVal key)) = Some data ->
        InToto.ParseKey (Block_Bytes data) = inl (EcdsaPublicKey pub) ->
        InToto.VerifySignature key sig unverified
        = match asn1_Unmarshal (fst (hex_DecodeString (Sig sig))) with
          | inr err => Ret (Some err)
          | inl (ecdsaSignature, _) =>
              if ecdsa_Verify pub (sha256_Sum256 unverified) (sig_R ecdsaSignature)
                   (sig_S ecdsaSignature)
              then Ret None
              else Ret (Some ErrInvalidSignature)
          end)
  /\ (forall pubHex,
        KeyType key = ed25519KeyType ->
        hex_DecodeString (Public (Key_KeyVal key)) = (pubHex, None) ->
        InToto.VerifySignature key sig unverified
        = match hex_DecodeString (Sig sig) with
          | (_, Some err) => Ret (Some err)
          | (sigHex, None) =>
              match ed25519_Verify pubHex unverified sigHex with
              | Ret true => Ret None
              | Ret false => Ret (Some (Wrap ErrInvalidSignature "ed25519"))
              | Panic msg => Panic msg
              end
          end)
  /\ (forall pos c,
        String.get pos (Sig sig) = Some c ->
        is_hex_letter c = true ->
        InToto.VerifySignature key
          (mkSignature (Signature_KeyId sig) (flip_bit_at pos 5 (Sig sig))) unverified
        = InToto.VerifySignature key sig unverified).
Proof.
  repeat split.
  - intros data pub Htype Hpem Hparse. unfold InToto.VerifySignature, InToto.pssOptions.
    rewrite Htype, Hpem, Hparse. cbv zeta. change sha256_Size with 32%Z.
    now destruct (rsa_VerifyPSS _ _ _ _ _).
  - intros data pub Htype Hpem Hparse. unfold InToto.VerifySignature.
    now rewrite Htype, Hpem, Hparse.
  - intros pubHex Htype Hpub. unfold InToto.VerifySignature.
    rewrite Htype, Hpub.
    change (String.eqb ed25519KeyType rsaKeyType || String.eqb ed25519KeyType ecdsaKeyType)
      with false.
    change (String.eqb ed25519KeyType ed25519KeyType) with true. cbv iota.
    destruct (hex_DecodeString (Sig sig)) as [sigHex [err|]]; [reflexivity|].
    unfold bind_outcome. now destruct (ed25519_Verify _ _ _) as [[|]|msg].
  - intros pos c Hget Hc. apply VerifySignature_by_decoded.
    cbn [Sig]. now apply (hex_DecodeString_flip_case pos (Sig sig) c).
Qed.

(** * Package in_toto: sign, then verify *)

Lemma finish_signature_Sig (key : Key) (signatureBuffer : string) :
  InToto.finish_signature key signatureBuffer
  = Ret (mkSignature (KeyId key) (hex_EncodeToString signatureBuffer), None).
Proof. reflexivity. Qed.

(** C7: for a key of each of the three families whose components are
    read as a matching pair, and a payload for which the signing function
    of the library returns a signature that its verifying function
    accepts, [GenerateSignature] returns a signature and a nil error, and
    [VerifySignature] of that signature over the same payload with the same
    key returns nil. *)
Theorem sign_then_verify_succeeds (rnd : Rand) (payload : string) (key : Key) :
  round_trip_ready rnd payload key ->
  exists sig,
    InToto.GenerateSignature rnd payload key = Ret (sig, None)
    /\ Signature_KeyId sig = KeyId key
    /\ InToto.VerifySignature key sig payload = Ret None.
Proof.
  intros [dpriv dpub priv pub signatureBuffer Htype Hdpriv Hpriv Hdpub Hpub Hsign Hverify
         |dpriv dpub priv pub r s der rest Htype Hdpriv Hpriv Hdpub Hpub Hsign Hder Hund Hverify
         |privateHex pubHex signatureBuffer Htype Hpriv Hpub Hsign Hverify].
  - exists (mkSignature (KeyId key) (hex_EncodeToString signatureBuffer)).
    unfold InToto.GenerateSignature, InToto.VerifySignature, InToto.pssOptions.
    rewrite Htype, Hdpriv, Hpriv, Hdpub, Hpub.
    change (String.eqb rsaKeyType rsaKeyType || String.eqb rsaKeyType ecdsaKeyType) with true.
    change (negb (String.eqb rsaKeyType "rsa")) with false.
    cbv iota zeta. rewrite Hsign. cbn [Sig Signature_KeyId].
    rewrite hex_DecodeString_EncodeToString. cbn [fst]. rewrite Hverify.
    repeat split.
  - exists (mkSignature (KeyId key) (hex_EncodeToString der)).
    unfold InToto.GenerateSignature, InToto.VerifySignature.
    rewrite Htype, Hdpriv, Hpriv, Hdpub, Hpub.
    change (String.eqb ecdsaKeyType rsaKeyType || String.eqb ecdsaKeyType ecdsaKeyType)
      with true.
    change (negb (String.eqb ecdsaKeyType ecdsaKeyType)) with false.
    cbv iota zeta. rewrite Hsign, Hder. cbn [Sig Signature_KeyId].
    rewrite hex_DecodeString_EncodeToString. cbn [fst]. rewrite Hund.
    cbn [sig_R sig_S]. rewrite Hverify. repeat split.
  - exists (mkSignature (KeyId key) (hex_EncodeToString signatureBuffer)).
    unfold InToto.GenerateSignature, InToto.VerifySignature.
    rewrite Htype, Hpriv, Hpub.
    change (String.eqb ed25519KeyType rsaKeyType || String.eqb ed25519KeyType ecdsaKeyType)
      with false.
    change (String.eqb ed25519KeyType ed25519KeyType) with true.
    cbv iota. rewrite Hsign. cbn [bind_outcome]. rewrite finish_signature_Sig.
    cbn [Sig Signature_KeyId]. rewrite hex_DecodeString_EncodeToString, Hverify.
    repeat split.
Qed.

End SignatureFacts.

(** * Package main: loading a metablock *)

Section PrototypeFacts.
Context {L : GoLib}.

Lemma interface_is_string_true (v : option json) (s : string) :
  Main.interface_is_string v s = true <-> v = Some (JString s).
Proof.
  unfold Main.interface_is_string. split.
  - destruct v as [[| | |s'| |]|]; try discriminate.
    intros H. apply String.eqb_eq in H. now subst.
  - intros ->. apply String.eqb_refl.
Qed.

Lemma interface_is_string_false (v : option json) (s : string) :
  v <> Some (JString s) -> Main.interface_is_string v s = false.
Proof.
  intros H. destruct (Main.interface_is_string v s) eqn:E; [|reflexivity].
  apply interface_is_string_true in E. contradiction.
Qed.

(** C5 (amended): for a document whose top level holds a signed and a
    signatures member that are not null, [Load] resolves the signed part by
    its _type member: the string link yields a [Link], the string layout a
    [Layout], and a _type that is missing or anything else makes [Load]
    panic with the message that _type must be one of link or layout. *)
Theorem Load_resolves_signed_by_type (mb : Metablock) (path : string)
    (rawSignatures rawSigned : json) :
  Main.rawMb_index (Main.read_ignoring_errors path) "signatures" = Some rawSignatures ->
  Main.rawMb_index (Main.read_ignoring_errors path) "signed" = Some rawSigned ->
  (Main.signed_index rawSigned "_type" = Some (JString "link") ->
   Main.Load mb path
   = Ret (mkMetablock (SignedLink (json_Unmarshal_Link rawSigned))
            (json_Unmarshal_Signatures rawSignatures (Signatures mb))))
  /\ (Main.signed_index rawSigned "_type" = Some (JString "layout") ->
      Main.Load mb path
      = Ret (mkMetablock (SignedLayout (json_Unmarshal_Layout rawSigned))
               (json_Unmarshal_Signatures rawSignatures (Signatures mb))))
  /\ (Main.signed_index rawSigned "_type" <> Some (JString "link") ->
      Main.signed_index rawSigned "_type" <> Some (JString "layout") ->
      Main.Load mb path = Panic Main.unknown_type_message).
Proof.
  intros Hsignatures Hsigned. unfold Main.Load. cbv zeta.
  rewrite Hsignatures, Hsigned. repeat split.
  - intros ->. reflexivity.
  - intros ->. reflexivity.
  - intros Hlink Hlayout.
    now rewrite (interface_is_string_false _ _ Hlink), (interface_is_string_false _ _ Hlayout).
Qed.

(** A document without a signatures member, or without a signed member,
    does not reach the test of _type. *)
Lemma Load_without_members (mb : Metablock) (path : string) :
  Main.rawMb_index (Main.read_ignoring_errors path) "signatures" = None
  \/ Main.rawMb_index (Main.read_ignoring_errors path) "signed" = None ->
  Main.Load mb path = Panic Main.nil_dereference.
Proof.
  unfold Main.Load. cbv zeta. intros [H|H].
  - now rewrite H.
  - rewrite H. now destruct (Main.rawMb_index _ "signatures").
Qed.

(** * Package main: verifying the signature of a metablock *)

Lemma find_signature_none (signatures : list Signature) (key : Key) :
  Forall (fun s => Signature_KeyId s <> KeyId key) signatures ->
  Main.find_signature signatures key = Signature_zero.
Proof.
  induction 1 as [|s rest Hs _ IH]; [reflexivity|].
  cbn [Main.find_signature]. apply String.eqb_neq in Hs. now rewrite Hs.
Qed.

Lemma find_signature_some (signatures : list Signature) (key : Key) :
  Exists (fun s => Signature_KeyId s = KeyId key) signatures ->
  In (Main.find_signature signatures key) signatures
  /\ Signature_KeyId (Main.find_signature signatures key) = KeyId key.
Proof.
  induction signatures as [|s rest IH]; intros Hex; [inversion Hex|].
  cbn [Main.find_signature]. destruct (String.eqb_spec (Signature_KeyId s) (KeyId key)) as [E|E].
  - split; [now left | exact E].
  - inversion Hex as [? ? H|? ? H]; subst; [contradiction|].
    destruct (IH H) as [Hin Hid]. split; [now right | exact Hid].
Qed.

Lemma Signature_eqb_zero (sig : Signature) :
  Signature_eqb sig Signature_zero = true <-> sig = Signature_zero.
Proof.
  unfold Signature_eqb, Signature_zero. destruct sig as [id sg]. cbn [Signature_KeyId Sig].
  rewrite andb_true_iff, !String.eqb_eq. split.
  - now intros [-> ->].
  - intros H. injection H as -> ->. now split.
Qed.

(** Without a signature that bears the key's id, the call panics with
    the message that no signature was found. *)
Lemma Metablock_VerifySignature_no_entry (mb : Metablock) (key : Key) :
  Forall (fun s => Signature_KeyId s <> KeyId key) (Signatures mb) ->
  Main.Metablock_VerifySignature mb key = Panic ("No signature found for key " ++ KeyId key).
Proof.
  intros H. unfold Main.Metablock_VerifySignature. cbv zeta.
  now rewrite (find_signature_none _ _ H).
Qed.

(** When the first signature that bears the key's id is not the zero
    signature, the call is the call of [VerifySignature] on that signature
    and the signable representation. *)
Lemma Metablock_VerifySignature_delegates (mb : Metablock) (key : Key) :
  Main.find_signature (Signatures mb) key <> Signature_zero ->
  Main.Metablock_VerifySignature mb key
  = Main.VerifySignature key (Main.find_signature (Signatures mb) key)
      (Main.GetSignableRepresentation mb).
Proof.
  intros Hfound. unfold Main.Metablock_VerifySignature. cbv zeta.
  destruct (Signature_eqb _ Signature_zero) eqn:E; [|reflexivity].
  apply Signature_eqb_zero in E. contradiction.
Qed.

(** That is so whenever the key id is not empty and a signature bears
    it. *)
Lemma find_signature_not_zero (signatures : list Signature) (key : Key) :
  Exists (fun s => Signature_KeyId s = KeyId key) signatures ->
  KeyId key <> EmptyString ->
  Main.find_signature signatures key <> Signature_zero.
Proof.
  intros Hex Hid E. destruct (find_signature_some _ _ Hex) as [_ Hfound].
  rewrite E in Hfound. cbn in Hfound. congruence.
Qed.

(** No panic of [VerifySignature] has the message of the missing
    signature. *)
Lemma VerifySignature_other_panic (key : Key) (sig : Signature) (data : string) (id : string) :
  Main.VerifySignature key sig data <> Panic ("No signature found for key " ++ id).
Proof.
  unfold Main.VerifySignature.
  destruct (pem_Decode _) as [block|]; [|discriminate].
  destruct (x509_ParsePKIXPublicKey _) as [[| | | | | |]|err]; try discriminate.
  destruct (rsa_VerifyPSS _ _ _ _ _); discriminate.
Qed.

(** C8: a metablock whose first signature has an empty key id and an
    empty [sig], probed with a key whose key id is empty: the list holds a
    signature that bears the key's id, and the call panics with the
    message that none was found, which is not what [VerifySignature] on
    that signature and the signable representation does. *)
Theorem Metablock_VerifySignature_empty_entry (signed : Signed) (rest : list Signature)
    (algos : list string) (keyType : string) (keyVal : KeyVal) (scheme : string) :
  Exists (fun s => Signature_KeyId s = KeyId (mkKey EmptyString algos keyType keyVal scheme))
    (Signature_zero :: rest)
  /\ Main.Metablock_VerifySignature (mkMetablock signed (Signature_zero :: rest))
       (mkKey EmptyString algos keyType keyVal scheme)
     = Panic "No signature found for key "
  /\ Main.Metablock_VerifySignature (mkMetablock signed (Signature_zero :: rest))
       (mkKey EmptyString algos keyType keyVal scheme)
     <> Main.VerifySignature (mkKey EmptyString algos keyType keyVal scheme) Signature_zero
          (Main.GetSignableRepresentation (mkMetablock signed (Signature_zero :: rest))).
Proof.
  split; [now left | split; [reflexivity|]].
  intros E. symmetry in E. revert E.
  apply (VerifySignature_other_panic _ _ _ EmptyString).
Qed.

End PrototypeFacts.

(** * More on the canonical encoder *)

(** X1: a call of [_encode_canonical] keeps what the buffer held and
    appends to it what it writes on an empty buffer, whatever the value:
    nothing written earlier is changed, and what is written does not depend
    on what was written earlier. *)
Theorem encode_canonical_extends_buffer (obj : value) (result : string) :
  _encode_canonical obj result = result ++ encode_canonical obj.
Proof. apply _encode_canonical_appends. Qed.

Lemma escape_quotes_no_leading_quote (s r : string) :
  escape_quotes s <> String dquote r.
Proof.
  destruct s as [|c s]; [discriminate|].
  cbn [escape_quotes]. destruct (Ascii.eqb_spec c dquote) as [->|Hne].
  - discriminate.
  - intros E. injection E as E _. contradiction.
Qed.

Lemma escape_quotes_injective (a : string) :
  forall b, escape_quotes a = escape_quotes b -> a = b.
Proof.
  induction a as [|x a IH]; intros [|y b].
  - reflexivity.
  - cbn [escape_quotes]. destruct (Ascii.eqb y dquote); discriminate.
  - cbn [escape_quotes]. destruct (Ascii.eqb x dquote); discriminate.
  - cbn [escape_quotes].
    destruct (Ascii.eqb_spec x dquote) as [->|Hx], (Ascii.eqb_spec y dquote) as [->|Hy].
    + intros E. injection E as E. f_equal. now apply IH.
    + intros E. injection E as <- E. symmetry in E. now apply escape_quotes_no_leading_quote in E.
    + intros E. injection E as -> E. now apply escape_quotes_no_leading_quote in E.
    + intros E. injection E as -> E. f_equal. now apply IH.
Qed.

Lemma append_inv_tail (a : string) :
  forall b c, a ++ c = b ++ c -> a = b.
Proof.
  induction a as [|x a IH]; intros [|y b] c E.
  - reflexivity.
  - apply (f_equal String.length) in E. cbn in E. rewrite length_append in E. lia.
  - apply (f_equal String.length) in E. cbn in E. rewrite length_append in E. lia.
  - cbn in E. injection E as -> E. f_equal. now apply (IH b c).
Qed.

(** X2: two strings that are written the same are the same string. *)
Theorem encode_canonical_string_injective (a b : string) :
  _encode_canonical_string a = _encode_canonical_string b -> a = b.
Proof.
  unfold _encode_canonical_string. intros E.
  apply append_inv_head in E. apply append_inv_tail in E.
  now apply escape_quotes_injective.
Qed.

(** X3: two values that differ only in the order of the entries of their
    maps, at any depth, are written the same. *)
Theorem encode_canonical_same_entries (v w : value) :
  same_entries v w -> encode_canonical v = encode_canonical w.
Proof.
  induction 1 as [s|b|i| | |l l' Hlen Hnth IH|m m' Hm Hm' Hkeys Hidx IH]; try reflexivity.
  - rewrite !encode_canonical_slice. do 2 f_equal. f_equal.
    apply (nth_ext _ _ (encode_canonical VNil) (encode_canonical VNil)).
    + now rewrite !length_map.
    + intros n _. rewrite !map_nth. apply IH.
  - rewrite !encode_canonical_map.
    rewrite (sort_Strings_permutation_invariant _ _ Hkeys).
    do 2 f_equal. f_equal. apply map_ext. intros key. now rewrite (IH key).
Qed.

Lemma append_not_empty (a b : string) : b <> EmptyString -> a ++ b <> EmptyString.
Proof.
  intros Hb E. apply (f_equal String.length) in E. rewrite length_append in E.
  destruct b; [contradiction | cbn in E; lia].
Qed.

Lemma string_of_int_not_empty (i : Z) : string_of_int i <> EmptyString.
Proof.
  unfold string_of_int.
  destruct ((i <? 0) || (1114111 <? i) || ((55296 <=? i) && (i <=? 57343)))%Z;
    [discriminate|].
  destruct (i <=? 127)%Z; [discriminate|].
  destruct (i <=? 2047)%Z; [discriminate|].
  destruct (i <=? 65535)%Z; discriminate.
Qed.

(** X4: a call leaves the buffer empty exactly for a value of a type the
    type switch has no case for, and it is not silent then: it prints one
    line on standard output.  Every other value is written as at least one
    byte, so a call that prints nothing leaves a buffer that is not
    empty. *)
Theorem encode_canonical_empty_iff_unknown (v : value) :
  (encode_canonical v = EmptyString <-> v = VOther)
  /\ (encode_canonical v = EmptyString -> diagnostics v = 1%nat)
  /\ (diagnostics v = 0%nat -> encode_canonical v <> EmptyString).
Proof.
  assert (encode_canonical v = EmptyString -> v = VOther) as Hempty.
  { destruct v as [s|b|i| |l|m| ]; try reflexivity; intros E; exfalso; revert E.
    - discriminate.
    - now destruct b.
    - apply string_of_int_not_empty.
    - discriminate.
    - rewrite encode_canonical_slice. discriminate.
    - rewrite encode_canonical_map. discriminate. }
  split; [split; [exact Hempty | now intros ->]|].
  split.
  - intros E. now rewrite (Hempty E).
  - intros Hnone E. rewrite (Hempty E) in Hnone. discriminate Hnone.
Qed.

(** * More on the key library *)

Section MoreKeylibFacts.
Context {L : GoLib}.

Lemma GenerateKeyId_keeps_fields (k : Key) :
  KeyType (fst (InToto.GenerateKeyId k)) = KeyType k
  /\ Scheme (fst (InToto.GenerateKeyId k)) = Scheme k
  /\ KeyIdHashAlgorithms (fst (InToto.GenerateKeyId k)) = KeyIdHashAlgorithms k
  /\ Key_KeyVal (fst (InToto.GenerateKeyId k)) = Key_KeyVal k.
Proof.
  rewrite GenerateKeyId_key. now destruct (EncodeCanonical _).
Qed.

(** What a call of [GenerateKeyId] without error tells. *)
Lemma GenerateKeyId_success (k k' : Key) :
  InToto.GenerateKeyId k = (k', None) ->
  exists keyCanonical,
    EncodeCanonical (InToto.keyToBeHashed k) = inl keyCanonical
    /\ k' = InToto.with_KeyId k (hex_EncodeToString (sha256_Sum256 keyCanonical))
    /\ validateKey k' = None.
Proof.
  unfold InToto.GenerateKeyId.
  destruct (EncodeCanonical (InToto.keyToBeHashed k)) as [keyCanonical|err]; [|discriminate].
  cbv zeta. destruct (validateKey _) as [err|] eqn:Hval; [discriminate|].
  intros E. injection E as <-. exists keyCanonical. repeat split. exact Hval.
Qed.

(** X5: [GenerateKeyId] stores the key id before it validates the key: when
    [validateKey] refuses the key, the error is returned and the key is left
    with the new key id. *)
Theorem GenerateKeyId_stores_id_before_validation (k : Key) (keyCanonical : string)
    (err : error) :
  EncodeCanonical (InToto.keyToBeHashed k) = inl keyCanonical ->
  validateKey (InToto.with_KeyId k (hex_EncodeToString (sha256_Sum256 keyCanonical)))
  = Some err ->
  InToto.GenerateKeyId k
  = (InToto.with_KeyId k (hex_EncodeToString (sha256_Sum256 keyCanonical)), Some err)
  /\ KeyId (fst (InToto.GenerateKeyId k)) = hex_EncodeToString (sha256_Sum256 keyCanonical).
Proof.
  intros Henc Hval. unfold InToto.GenerateKeyId. rewrite Henc. cbv zeta.
  unfold fmt_Sprintf_x. now rewrite Hval.
Qed.

Lemma GenerateKeyId_receiver (id1 id2 : string) algos keyType kv scheme :
  let r1 := InToto.GenerateKeyId (mkKey id1 algos keyType kv scheme) in
  let r2 := InToto.GenerateKeyId (mkKey id2 algos keyType kv scheme) in
  snd r1 = snd r2
  /\ KeyType (fst r1) = keyType /\ Scheme (fst r1) = scheme
  /\ KeyIdHashAlgorithms (fst r1) = algos
  /\ Key_KeyVal (fst r1) = kv /\ Key_KeyVal (fst r2) = kv
  /\ (snd r1 = None -> fst r1 = fst r2).
Proof.
  cbv zeta. unfold InToto.GenerateKeyId.
  change (InToto.keyToBeHashed (mkKey id2 algos keyType kv scheme))
    with (InToto.keyToBeHashed (mkKey id1 algos keyType kv scheme)).
  destruct (EncodeCanonical _) as [keyCanonical|err].
  - cbv zeta. unfold InToto.with_KeyId.
    cbn [KeyIdHashAlgorithms KeyType Key_KeyVal Scheme].
    destruct (validateKey _); cbn [fst snd]; repeat split.
  - cbn [fst snd]. repeat split. discriminate.
Qed.

(** For a supported key type the key that [SetKeyComponents] leaves has
    the key type passed. *)
Lemma SetKeyComponents_KeyType (k : Key) (pubKeyBytes privateKeyBytes : string)
    (keyType scheme : string) (algos : list string) :
  supported keyType = true ->
  KeyType (fst (InToto.SetKeyComponents k pubKeyBytes privateKeyBytes keyType scheme algos))
  = keyType.
Proof.
  unfold supported. intros Hs. unfold InToto.SetKeyComponents.
  destruct (String.eqb keyType rsaKeyType || String.eqb keyType ecdsaKeyType) eqn:Hpem.
  - destruct (0 <? String.length privateKeyBytes)%nat;
      now rewrite (proj1 (GenerateKeyId_keeps_fields _)).
  - cbn [orb] in Hs. rewrite Hs.
    destruct (0 <? String.length privateKeyBytes)%nat;
      now rewrite (proj1 (GenerateKeyId_keeps_fields _)).
Qed.

(** X6: for a supported key type, what [SetKeyComponents] does depends on
    its arguments and not on the key it is called on: the error is the
    same for any two receivers, key type, scheme and hash algorithms are
    the arguments, the components are the same, and a call without error
    leaves the same key whatever the receiver held. *)
Theorem SetKeyComponents_overwrites_receiver (k1 k2 : Key) (pubKeyBytes privateKeyBytes : string)
    (keyType scheme : string) (algos : list string) :
  supported keyType = true ->
  let r1 := InToto.SetKeyComponents k1 pubKeyBytes privateKeyBytes keyType scheme algos in
  let r2 := InToto.SetKeyComponents k2 pubKeyBytes privateKeyBytes keyType scheme algos in
  snd r1 = snd r2
  /\ KeyType (fst r1) = keyType
  /\ Scheme (fst r1) = scheme
  /\ KeyIdHashAlgorithms (fst r1) = algos
  /\ Key_KeyVal (fst r1) = Key_KeyVal (fst r2)
  /\ (snd r1 = None -> fst r1 = fst r2).
Proof.
  unfold supported. intros Hs. cbv zeta. unfold InToto.SetKeyComponents.
  destruct (String.eqb keyType rsaKeyType || String.eqb keyType ecdsaKeyType) eqn:Hpem.
  - destruct (0 <? String.length privateKeyBytes)%nat;
      match goal with
      | |- context [InToto.GenerateKeyId (mkKey _ ?a ?t ?kv ?s)] =>
          destruct (GenerateKeyId_receiver (KeyId k1) (KeyId k2) a t kv s)
            as (H1 & H2 & H3 & H4 & H5 & H6 & H7)
      end; repeat split; try assumption; congruence.
  - cbn [orb] in Hs. rewrite Hs.
    destruct (0 <? String.length privateKeyBytes)%nat;
      match goal with
      | |- context [InToto.GenerateKeyId (mkKey _ ?a ?t ?kv ?s)] =>
          destruct (GenerateKeyId_receiver (KeyId k1) (KeyId k2) a t kv s)
            as (H1 & H2 & H3 & H4 & H5 & H6 & H7)
      end; repeat split; try assumption; congruence.
Qed.

(** X7: for a key type that is none of rsa, ecdsa and ed25519,
    [SetKeyComponents] returns an error that wraps [ErrUnsupportedKeyType]
    and names the key type, and leaves the key as it was. *)
Theorem SetKeyComponents_unsupported_key_type (k : Key) (pubKeyBytes privateKeyBytes : string)
    (keyType scheme : string) (algos : list string) :
  supported keyType = false ->
  InToto.SetKeyComponents k pubKeyBytes privateKeyBytes keyType scheme algos
  = (k, Some (Wrap ErrUnsupportedKeyType keyType))
  /\ errors_Is (Wrap ErrUnsupportedKeyType keyType) ErrUnsupportedKeyType = true
  /\ Error (Wrap ErrUnsupportedKeyType keyType) = "unsupported key type: " ++ keyType.
Proof.
  unfold supported. intros Hs. apply orb_false_iff in Hs. destruct Hs as [Hpem Hed].
  unfold InToto.SetKeyComponents. rewrite Hpem, Hed. repeat split.
Qed.

(** The only error of [ParseKey]. *)
Lemma ParseKey_error (data : string) (err : error) :
  InToto.ParseKey data = inr err -> err = ErrFailedPEMParsing.
Proof.
  unfold InToto.ParseKey.
  destruct (x509_ParsePKCS8PrivateKey data); [discriminate|].
  destruct (x509_ParsePKCS1PrivateKey data); [discriminate|].
  destruct (x509_ParsePKIXPublicKey data); [discriminate|].
  intros E. now injection E as <-.
Qed.

(** X8: [ParseKey] returns the key of the first of the three parsers that
    succeeds, in the order PKCS8, PKCS1, PKIX; it fails exactly when all
    three fail, and its only error is [ErrFailedPEMParsing], whatever the
    parsers reported. *)
Theorem ParseKey_first_parser_wins (data : string) :
  match InToto.ParseKey data with
  | inl key =>
      x509_ParsePKCS8PrivateKey data = inl key
      \/ (exists e8 priv,
            x509_ParsePKCS8PrivateKey data = inr e8
            /\ x509_ParsePKCS1PrivateKey data = inl priv
            /\ key = RsaPrivateKey priv)
      \/ (exists e8 e1,
            x509_ParsePKCS8PrivateKey data = inr e8
            /\ x509_ParsePKCS1PrivateKey data = inr e1
            /\ x509_ParsePKIXPublicKey data = inl key)
  | inr err =>
      err = ErrFailedPEMParsing
      /\ exists e8 e1 ex,
           x509_ParsePKCS8PrivateKey data = inr e8
           /\ x509_ParsePKCS1PrivateKey data = inr e1
           /\ x509_ParsePKIXPublicKey data = inr ex
  end.
Proof.
  unfold InToto.ParseKey.
  destruct (x509_ParsePKCS8PrivateKey data) as [k8|e8]; [now left|].
  destruct (x509_ParsePKCS1PrivateKey data) as [k1|e1].
  { right. left. exists e8, k1. repeat split. }
  destruct (x509_ParsePKIXPublicKey data) as [kx|ex].
  { right. right. exists e8, e1. repeat split. }
  split; [reflexivity|]. exists e8, e1, ex. repeat split.
Qed.

Lemma SetKeyComponents_success (k k' : Key) pubKeyBytes privateKeyBytes keyType scheme algos :
  InToto.SetKeyComponents k pubKeyBytes privateKeyBytes keyType scheme algos = (k', None) ->
  supported keyType = true
  /\ KeyType k' = keyType /\ Scheme k' = scheme /\ KeyIdHashAlgorithms k' = algos
  /\ exists keyCanonical,
       EncodeCanonical (InToto.keyToBeHashed k') = inl keyCanonical
       /\ KeyId k' = hex_EncodeToString (sha256_Sum256 keyCanonical)
       /\ validateKey k' = None.
Proof.
  unfold InToto.SetKeyComponents, supported.
  destruct (String.eqb keyType rsaKeyType || String.eqb keyType ecdsaKeyType) eqn:Hpem;
    [|destruct (String.eqb keyType ed25519KeyType) eqn:Hed; [|discriminate]];
    (destruct (0 <? String.length privateKeyBytes)%nat;
     intros H; apply GenerateKeyId_success in H;
     destruct H as (keyCanonical & Henc & -> & Hval);
     (split; [reflexivity|]); repeat (split; [reflexivity|]);
     exists keyCanonical; rewrite keyToBeHashed_with_KeyId; repeat split; assumption).
Qed.

(** X9: a key that [LoadKey] loaded without error has one of the three key
    types, the scheme and the hash algorithms the caller passed, passes
    [validateKey], and bears the key id of its own content: the lower-case
    hexadecimal SHA-256 digest of the canonical encoding of its own partial
    key map. *)
Theorem LoadKey_success_invariant (k k' : Key) (path scheme : string) (algos : list string) :
  InToto.LoadKey k path scheme algos = (k', None) ->
  supported (KeyType k') = true
  /\ Scheme k' = scheme
  /\ KeyIdHashAlgorithms k' = algos
  /\ validateKey k' = None
  /\ exists keyCanonical,
       EncodeCanonical (InToto.keyToBeHashed k') = inl keyCanonical
       /\ KeyId k' = hex_EncodeToString (sha256_Sum256 keyCanonical)
       /\ all_chars is_lower_hex (KeyId k') = true.
Proof.
  unfold InToto.LoadKey.
  destruct (os_Open path) as [pemFile|e]; [|discriminate].
  destruct (ioutil_ReadAll pemFile) as [pemBytes [e|]]; [discriminate|].
  destruct (pem_Decode pemBytes) as [data|]; [|discriminate].
  destruct (InToto.ParseKey (Block_Bytes data)) as [key|e]; [|discriminate].
  assert (forall pub priv keyType,
             InToto.SetKeyComponents k pub priv keyType scheme algos = (k', None) ->
             supported (KeyType k') = true /\ Scheme k' = scheme
             /\ KeyIdHashAlgorithms k' = algos /\ validateKey k' = None
             /\ exists keyCanonical,
                  EncodeCanonical (InToto.keyToBeHashed k') = inl keyCanonical
                  /\ KeyId k' = hex_EncodeToString (sha256_Sum256 keyCanonical)
                  /\ all_chars is_lower_hex (KeyId k') = true) as Hset.
  { intros pub priv keyType H. apply SetKeyComponents_success in H.
    destruct H as (Hs & Ht & Hsch & Halg & c & Henc & Hid & Hval).
    rewrite Ht. repeat (split; [assumption|]). exists c.
    repeat split; try assumption. rewrite Hid. apply hex_EncodeToString_lower. }
  destruct key as [priv|pub|priv|pub|priv|pub|other]; try (now apply Hset).
  - destruct (x509_MarshalPKIXPublicKey _); [now apply Hset | discriminate].
  - destruct (x509_MarshalPKIXPublicKey _); [now apply Hset | discriminate].
  - discriminate.
Qed.

(** What a failure of [SetKeyComponents] for a supported key type is: the
    failure of [GenerateKeyId] on the key with the new components. *)
Lemma SetKeyComponents_failure (k k' : Key) (pubKeyBytes privateKeyBytes : string)
    (keyType scheme : string) (algos : list string) (err : error) :
  supported keyType = true ->
  InToto.SetKeyComponents k pubKeyBytes privateKeyBytes keyType scheme algos = (k', Some err) ->
  exists kv,
    InToto.GenerateKeyId (mkKey (KeyId k) algos keyType kv scheme) = (k', Some err)
    /\ KeyType k' = keyType /\ Scheme k' = scheme /\ KeyIdHashAlgorithms k' = algos
    /\ Key_KeyVal k' = kv.
Proof.
  unfold supported. intros Hs. unfold InToto.SetKeyComponents.
  assert (forall kv,
             InToto.GenerateKeyId (mkKey (KeyId k) algos keyType kv scheme) = (k', Some err) ->
             exists kv,
               InToto.GenerateKeyId (mkKey (KeyId k) algos keyType kv scheme) = (k', Some err)
               /\ KeyType k' = keyType /\ Scheme k' = scheme /\ KeyIdHashAlgorithms k' = algos
               /\ Key_KeyVal k' = kv) as Hgen.
  { intros kv H. exists kv. split; [exact H|].
    pose proof (GenerateKeyId_keeps_fields (mkKey (KeyId k) algos keyType kv scheme)) as Hf.
    rewrite H in Hf. exact Hf. }
  destruct (String.eqb keyType rsaKeyType || String.eqb keyType ecdsaKeyType).
  - destruct (0 <? String.length privateKeyBytes)%nat; apply Hgen.
  - cbn [orb] in Hs. rewrite Hs.
    destruct (0 <? String.length privateKeyBytes)%nat; apply Hgen.
Qed.

(** X10: the failures of [LoadKey].  Up to the call of [SetKeyComponents]
    it leaves the key as it was and reports: the error of [os.Open]; the
    error of [ioutil.ReadAll]; [ErrNoPEMBlock] when the bytes hold no PEM
    block; [ErrFailedPEMParsing] when none of the three parsers reads the
    block; an error that wraps [ErrUnsupportedKeyType] when the block holds
    a key of another type; the error of [x509.MarshalPKIXPublicKey] for a
    private RSA or ECDSA key.  These are not all: whenever [LoadKey] returns
    an error, either the key is as it was, or the error is the one of
    [GenerateKeyId] inside [SetKeyComponents], and then the key is
    overwritten: it has the new key type, scheme, hash algorithms and
    components. *)
Theorem LoadKey_failure_paths (k : Key) (path scheme : string) (algos : list string) :
  (forall err, os_Open path = inr err ->
               InToto.LoadKey k path scheme algos = (k, Some err))
  /\ (forall pemFile pemBytes err,
        os_Open path = inl pemFile -> ioutil_ReadAll pemFile = (pemBytes, Some err) ->
        InToto.LoadKey k path scheme algos = (k, Some err))
  /\ (forall pemFile pemBytes,
        os_Open path = inl pemFile -> ioutil_ReadAll pemFile = (pemBytes, None) ->
        (pem_Decode pemBytes = None ->
         InToto.LoadKey k path scheme algos = (k, Some ErrNoPEMBlock))
        /\ (forall data,
              pem_Decode pemBytes = Some data ->
              (forall err, InToto.ParseKey (Block_Bytes data) = inr err ->
                           InToto.LoadKey k path scheme algos = (k, Some ErrFailedPEMParsing))
              /\ (forall go_type,
                    InToto.ParseKey (Block_Bytes data) = inl (OtherKey go_type) ->
                    InToto.LoadKey k path scheme algos
                    = (k, Some (Wrap ErrUnsupportedKeyType go_type)))
              /\ (forall priv err,
                    InToto.ParseKey (Block_Bytes data) = inl (RsaPrivateKey priv) ->
                    x509_MarshalPKIXPublicKey (RsaPublicKey (rsa_PublicKey_of priv)) = inr err ->
                    InToto.LoadKey k path scheme algos = (k, Some err))
              /\ (forall priv err,
                    InToto.ParseKey (Block_Bytes data) = inl (EcdsaPrivateKey priv) ->
                    x509_MarshalPKIXPublicKey (EcdsaPublicKey (ecdsa_PublicKey_of priv))
                    = inr err ->
                    InToto.LoadKey k path scheme algos = (k, Some err))))
  /\ (forall k' err,
        InToto.LoadKey k path scheme algos = (k', Some err) ->
        k' = k
        \/ exists keyType kv,
             supported keyType = true
             /\ InToto.GenerateKeyId (mkKey (KeyId k) algos keyType kv scheme) = (k', Some err)
             /\ KeyType k' = keyType /\ Scheme k' = scheme
             /\ KeyIdHashAlgorithms k' = algos /\ Key_KeyVal k' = kv).
Proof.
  unfold InToto.LoadKey. split; [|split; [|split]].
  - now intros err ->.
  - now intros pemFile pemBytes err -> ->.
  - intros pemFile pemBytes -> ->. split.
    + now intros ->.
    + intros data ->. split; [|split; [|split]].
      * intros err Hparse. rewrite Hparse. now rewrite (ParseKey_error _ _ Hparse).
      * now intros go_type ->.
      * now intros priv err -> ->.
      * now intros priv err -> ->.
  - intros k' err.
    destruct (os_Open path) as [pemFile|e]; [|intros E; injection E as <- _; now left].
    destruct (ioutil_ReadAll pemFile) as [pemBytes [e|]];
      [intros E; injection E as <- _; now left|].
    destruct (pem_Decode pemBytes) as [data|]; [|intros E; injection E as <- _; now left].
    destruct (InToto.ParseKey (Block_Bytes data)) as [key|e];
      [|intros E; injection E as <- _; now left].
    assert (forall pub priv keyType,
               supported keyType = true ->
               InToto.SetKeyComponents k pub priv keyType scheme algos = (k', Some err) ->
               k' = k
               \/ exists keyType kv,
                    supported keyType = true
                    /\ InToto.GenerateKeyId (mkKey (KeyId k) algos keyType kv scheme)
                       = (k', Some err)
                    /\ KeyType k' = keyType /\ Scheme k' = scheme
                    /\ KeyIdHashAlgorithms k' = algos /\ Key_KeyVal k' = kv) as Hset.
    { intros pub priv keyType Hs H. right.
      destruct (SetKeyComponents_failure _ _ _ _ _ _ _ _ Hs H) as (kv & Hkv).
      exists keyType, kv. split; assumption. }
    destruct key as [priv|pub|priv|pub|priv|pub|other];
      try (apply Hset; reflexivity).
    + destruct (x509_MarshalPKIXPublicKey _);
        [apply Hset; reflexivity | intros E; injection E as <- _; now left].
    + destruct (x509_MarshalPKIXPublicKey _);
        [apply Hset; reflexivity | intros E; injection E as <- _; now left].
    + intros E; injection E as <- _; now left.
Qed.

End MoreKeylibFacts.

(** * More on signing and verifying *)

Section MoreSignatureFacts.
Context {L : GoLib}.

(** X11: an Ed25519 private key survives [LoadKey]: [GenerateSignature]
    with the loaded key hands to [ed25519.Sign] the very bytes the parser
    returned, and [VerifySignature] hands to [ed25519.Verify] their last
    32 bytes, the public key. *)
Theorem LoadKey_ed25519_key_is_used_as_parsed (k : Key) (path scheme : string)
    (algos : list string) (pemFile : os_File) (pemBytes : string) (data : pem_Block)
    (priv : string) (rnd : Rand) (payload : string) (sig : Signature) (sigHex : string) :
  os_Open path = inl pemFile ->
  ioutil_ReadAll pemFile = (pemBytes, None) ->
  pem_Decode pemBytes = Some data ->
  InToto.ParseKey (Block_Bytes data) = inl (Ed25519PrivateKey priv) ->
  hex_DecodeString (Sig sig) = (sigHex, None) ->
  InToto.GenerateSignature rnd payload (fst (InToto.LoadKey k path scheme algos))
  = bind_outcome (ed25519_Sign priv payload)
      (fun signatureBuffer =>
         Ret (mkSignature (KeyId (fst (InToto.LoadKey k path scheme algos)))
                (hex_EncodeToString signatureBuffer), None))
  /\ InToto.VerifySignature (fst (InToto.LoadKey k path scheme algos)) sig payload
     = bind_outcome (ed25519_Verify (ed25519_Public priv) payload sigHex)
         (fun ok => if ok then Ret None
                    else Ret (Some (Wrap ErrInvalidSignature "ed25519"))).
Proof.
  intros Hopen Hread Hpem Hparse Hsig.
  assert (KeyType (fst (InToto.LoadKey k path scheme algos)) = ed25519KeyType
          /\ Key_KeyVal (fst (InToto.LoadKey k path scheme algos))
             = mkKeyVal (hex_EncodeToString priv) (hex_EncodeToString (ed25519_Public priv)))
    as [Htype Hval].
  { unfold InToto.LoadKey. rewrite Hopen, Hread, Hpem, Hparse.
    split; [now apply SetKeyComponents_KeyType | apply SetKeyComponents_ed25519]. }
  unfold InToto.GenerateSignature, InToto.VerifySignature.
  rewrite Htype, Hval. cbn [Private Public].
  change (String.eqb ed25519KeyType rsaKeyType || String.eqb ed25519KeyType ecdsaKeyType)
    with false.
  change (String.eqb ed25519KeyType ed25519KeyType) with true. cbv iota.
  rewrite !hex_DecodeString_EncodeToString, Hsig. split; reflexivity.
Qed.

(** X12: whatever [GenerateSignature] returns, the [Sig] of the signature
    is the hexadecimal encoding of some bytes, so lower-case digits of even
    number that [hex.DecodeString] reads back; the key id of the signature
    is the key's unless the signature is the zero signature; and with an
    error the signature is the zero signature. *)
Theorem GenerateSignature_returns_hex (rnd : Rand) (signable : string) (key : Key)
    (sig : Signature) (err : option error) :
  InToto.GenerateSignature rnd signable key = Ret (sig, err) ->
  (exists signatureBuffer,
      Sig sig = hex_EncodeToString signatureBuffer
      /\ hex_DecodeString (Sig sig) = (signatureBuffer, None))
  /\ all_chars is_lower_hex (Sig sig) = true
  /\ (sig = Signature_zero \/ Signature_KeyId sig = KeyId key)
  /\ (err <> None -> sig = Signature_zero).
Proof.
  intros H.
  assert (sig = Signature_zero
          \/ exists signatureBuffer,
               sig = mkSignature (KeyId key) (hex_EncodeToString signatureBuffer)
               /\ err = None) as Hshape.
  { revert H. unfold InToto.GenerateSignature, InToto.finish_signature.
    destruct (String.eqb (KeyType key) rsaKeyType || String.eqb (KeyType key) ecdsaKeyType).
    - destruct (pem_Decode _) as [data|]; [|intros E; injection E as <- <-; now left].
      destruct (InToto.ParseKey _) as [parsedKey|e]; [|intros E; injection E as <- <-; now left].
      cbv zeta.
      destruct parsedKey as [priv|pub|priv|pub|priv|pub|other];
        try (intros E; injection E as <- <-; now left).
      + destruct (negb _); [intros E; injection E as <- <-; now left|].
        destruct (rsa_SignPSS _ _ _ _ _) as [buf|e];
          intros E; injection E as <- <-; [right; eexists; split; reflexivity | now left].
      + destruct (negb _); [intros E; injection E as <- <-; now left|].
        destruct (ecdsa_Sign _ _ _) as [[r s]|e]; [|intros E; injection E as <- <-; now left].
        destruct (asn1_Marshal _) as [buf|e]; intros E; injection E as <- <-; right;
          [exists buf | exists EmptyString]; split; reflexivity.
    - destruct (String.eqb (KeyType key) ed25519KeyType);
        [|intros E; injection E as <- <-; now left].
      destruct (hex_DecodeString _) as [privateHex [e|]];
        [intros E; injection E as <- <-; now left|].
      destruct (ed25519_Sign _ _) as [buf|msg]; cbn [bind_outcome]; [|discriminate].
      intros E; injection E as <- <-; right; eexists; split; reflexivity. }
  destruct Hshape as [->|(buf & -> & ->)].
  - repeat split; try (now left). exists EmptyString. split; reflexivity.
  - cbn [Sig Signature_KeyId]. repeat split.
    + exists buf. split; [reflexivity | apply hex_DecodeString_EncodeToString].
    + apply hex_EncodeToString_lower.
    + now right.
    + intros Hne. now contradiction Hne.
Qed.

(** X13: [GenerateSignature] signs with key material of the family the
    key type names only: an RSA private key under the key type ecdsa, and an
    ECDSA private key under the key type rsa, give [ErrInvalidKeyType]; any
    other material in the private component (a public key, an Ed25519 key)
    gives an error that wraps [ErrUnsupportedKeyType]; in each case with the
    zero signature and without a call of a signing function. *)
Theorem GenerateSignature_material_mismatch (rnd : Rand) (signable : string) (key : Key)
    (data : pem_Block) (parsedKey : crypto_key) :
  String.eqb (KeyType key) rsaKeyType || String.eqb (KeyType key) ecdsaKeyType = true ->
  pem_Decode (Private (Key_KeyVal key)) = Some data ->
  InToto.ParseKey (Block_Bytes data) = inl parsedKey ->
  match parsedKey with
  | RsaPrivateKey _ =>
      KeyType key = ecdsaKeyType ->
      InToto.GenerateSignature rnd signable key = Ret (Signature_zero, Some ErrInvalidKeyType)
  | EcdsaPrivateKey _ =>
      KeyType key = rsaKeyType ->
      InToto.GenerateSignature rnd signable key = Ret (Signature_zero, Some ErrInvalidKeyType)
  | _ =>
      InToto.GenerateSignature rnd signable key
      = Ret (Signature_zero, Some (Wrap ErrUnsupportedKeyType (type_name parsedKey)))
  end.
Proof.
  intros Htype Hpem Hparse. unfold InToto.GenerateSignature.
  rewrite Htype, Hpem, Hparse. cbv zeta.
  destruct parsedKey as [priv|pub|priv|pub|priv|pub|other]; try reflexivity.
  - now intros ->.
  - now intros ->.
Qed.

(** X14: for an Ed25519 key without a private component,
    [GenerateSignature] returns no error of its own: it hands the empty key
    to [ed25519.Sign], and panics when that panics. *)
Theorem GenerateSignature_ed25519_without_private (rnd : Rand) (signable : string) (key : Key)
    (msg : string) :
  KeyType key = ed25519KeyType ->
  Private (Key_KeyVal key) = EmptyString ->
  ed25519_Sign EmptyString signable = Panic msg ->
  InToto.GenerateSignature rnd signable key = Panic msg.
Proof.
  intros Htype Hpriv Hsign. unfold InToto.GenerateSignature.
  rewrite Htype, Hpriv.
  change (String.eqb ed25519KeyType rsaKeyType || String.eqb ed25519KeyType ecdsaKeyType)
    with false.
  change (String.eqb ed25519KeyType ed25519KeyType) with true. cbv iota.
  cbn [hex_DecodeString]. now rewrite Hsign.
Qed.

(** X15: [VerifySignature] returns nil only when the verifying function of
    a library accepted the decoded signature under the key read from the
    public component: [rsa.VerifyPSS] over the SHA-256 digest with salt
    length 32, [ecdsa.Verify] over the digest and the two integers of the
    signature, or [ed25519.Verify] over the payload. *)
Theorem VerifySignature_nil_means_accepted (key : Key) (sig : Signature) (unverified : string) :
  InToto.VerifySignature key sig unverified = Ret None ->
  (exists data pub,
      pem_Decode (Public (Key_KeyVal key)) = Some data
      /\ InToto.ParseKey (Block_Bytes data) = inl (RsaPublicKey pub)
      /\ rsa_VerifyPSS pub crypto_SHA256 (sha256_Sum256 unverified)
           (fst (hex_DecodeString (Sig sig))) (mkPSSOptions 32 crypto_SHA256) = None)
  \/ (exists data pub ecdsaSignature rest,
         pem_Decode (Public (Key_KeyVal key)) = Some data
         /\ InToto.ParseKey (Block_Bytes data) = inl (EcdsaPublicKey pub)
         /\ asn1_Unmarshal (fst (hex_DecodeString (Sig sig))) = inl (ecdsaSignature, rest)
         /\ ecdsa_Verify pub (sha256_Sum256 unverified) (sig_R ecdsaSignature)
              (sig_S ecdsaSignature) = true)
  \/ (exists pubHex sigHex,
         KeyType key = ed25519KeyType
         /\ hex_DecodeString (Public (Key_KeyVal key)) = (pubHex, None)
         /\ hex_DecodeString (Sig sig) = (sigHex, None)
         /\ ed25519_Verify pubHex unverified sigHex = Ret true).
Proof.
  unfold InToto.VerifySignature, InToto.pssOptions.
  destruct (String.eqb (KeyType key) rsaKeyType || String.eqb (KeyType key) ecdsaKeyType).
  - destruct (pem_Decode _) as [data|] eqn:Hpem; [|discriminate].
    destruct (InToto.ParseKey _) as [parsedKey|e] eqn:Hparse; [|discriminate]. cbv zeta.
    destruct parsedKey as [priv|pub|priv|pub|priv|pub|other]; try discriminate.
    + destruct (rsa_VerifyPSS _ _ _ _ _) eqn:Hv; [discriminate|]. intros _.
      left. exists data, pub. repeat split; assumption.
    + destruct (asn1_Unmarshal _) as [[ecdsaSignature rest]|e] eqn:Hu; [|discriminate].
      destruct (ecdsa_Verify _ _ _ _) eqn:Hv; [|discriminate]. intros _.
      right. left. exists data, pub, ecdsaSignature, rest. repeat split; assumption.
  - destruct (String.eqb_spec (KeyType key) ed25519KeyType) as [Htype|]; [|discriminate].
    destruct (hex_DecodeString (Public _)) as [pubHex [e|]] eqn:Hpub; [discriminate|].
    destruct (hex_DecodeString (Sig sig)) as [sigHex [e|]] eqn:Hsig; [discriminate|].
    destruct (ed25519_Verify _ _ _) as [[|]|msg] eqn:Hv; cbn [bind_outcome]; try discriminate.
    intros _. right. right. exists pubHex, sigHex. repeat split; assumption.
Qed.

Lemma hex_DecodeString_ignores_tail (b : string) (c : ascii) (rest : string) :
  fromHexChar c = None \/ rest = EmptyString ->
  fst (hex_DecodeString (hex_EncodeToString b ++ String c rest)) = b.
Proof.
  intros Htail. induction b as [|x b IH].
  - cbn [hex_EncodeToString append]. destruct rest as [|q rest'].
    + cbn [hex_DecodeString]. now destruct (fromHexChar c).
    + destruct Htail as [Hc|Hr]; [|discriminate Hr].
      cbn [hex_DecodeString]. now rewrite Hc.
  - cbn [hex_EncodeToString append hex_DecodeString].
    destruct (fromHexChar_hextable x) as (-> & -> & Hx).
    destruct (hex_DecodeString _) as [out err]. cbn [fst] in *. now rewrite IH, Hx.
Qed.

(** X16: on the RSA and the ECDSA path [VerifySignature] drops the error of
    [hex.DecodeString]: a signature string that is the hexadecimal encoding
    of some bytes followed by one more character, or by anything that
    starts with a character that is no hexadecimal digit, is verified as
    the encoding alone. *)
Theorem VerifySignature_ignores_hex_tail (key : Key) (id : string) (signatureBuffer : string)
    (c : ascii) (rest : string) (unverified : string) :
  String.eqb (KeyType key) rsaKeyType || String.eqb (KeyType key) ecdsaKeyType = true ->
  fromHexChar c = None \/ rest = EmptyString ->
  InToto.VerifySignature key
    (mkSignature id (hex_EncodeToString signatureBuffer ++ String c rest)) unverified
  = InToto.VerifySignature key (mkSignature id (hex_EncodeToString signatureBuffer)) unverified.
Proof.
  intros Htype Htail. unfold InToto.VerifySignature. rewrite Htype. cbn [Sig].
  now rewrite hex_DecodeString_ignores_tail, hex_DecodeString_EncodeToString.
Qed.

(** X17: [VerifySignature] reads of the key its key type and its public
    component, and of the signature its [Sig]: it does not compare the key
    id of the signature with the key's, it does not read the scheme, and
    it takes the key types rsa and ecdsa for one, so that an RSA public key
    under the key type ecdsa is verified as an RSA key. *)
Theorem VerifySignature_reads_type_and_public (key key' : Key) (sig sig' : Signature)
    (unverified : string) :
  KeyType key = KeyType key'
  \/ (String.eqb (KeyType key) rsaKeyType || String.eqb (KeyType key) ecdsaKeyType = true
      /\ String.eqb (KeyType key') rsaKeyType || String.eqb (KeyType key') ecdsaKeyType = true) ->
  Public (Key_KeyVal key) = Public (Key_KeyVal key') ->
  Sig sig = Sig sig' ->
  InToto.VerifySignature key sig unverified = InToto.VerifySignature key' sig' unverified.
Proof.
  intros Htype Hpub Hsig. unfold InToto.VerifySignature. rewrite Hpub, Hsig.
  destruct Htype as [->|[-> ->]]; reflexivity.
Qed.

(** X18: a key that [LoadKey] made of an RSA or ECDSA public key has no
    private component, and [GenerateSignature] with it returns
    [ErrNoPEMBlock] (the empty text holds no PEM block). *)
Theorem LoadKey_public_key_cannot_sign (k : Key) (path scheme : string) (algos : list string)
    (pemFile : os_File) (pemBytes : string) (data : pem_Block) (key : crypto_key)
    (rnd : Rand) (signable : string) :
  os_Open path = inl pemFile ->
  ioutil_ReadAll pemFile = (pemBytes, None) ->
  pem_Decode pemBytes = Some data ->
  InToto.ParseKey (Block_Bytes data) = inl key ->
  (exists pub, key = RsaPublicKey pub) \/ (exists pub, key = EcdsaPublicKey pub) ->
  pem_Decode EmptyString = None ->
  Private (Key_KeyVal (fst (InToto.LoadKey k path scheme algos))) = EmptyString
  /\ InToto.GenerateSignature rnd signable (fst (InToto.LoadKey k path scheme algos))
     = Ret (Signature_zero, Some ErrNoPEMBlock).
Proof.
  intros Hopen Hread Hpem Hparse Hkey Hempty.
  assert (exists keyType,
             String.eqb keyType rsaKeyType || String.eqb keyType ecdsaKeyType = true
             /\ fst (InToto.LoadKey k path scheme algos)
                = fst (InToto.SetKeyComponents k pemBytes EmptyString keyType scheme algos))
    as (keyType & Hpemtype & Hload).
  { unfold InToto.LoadKey. rewrite Hopen, Hread, Hpem, Hparse.
    destruct Hkey as [[pub ->]|[pub ->]];
      [exists rsaKeyType | exists ecdsaKeyType]; split; reflexivity. }
  rewrite Hload.
  pose proof (SetKeyComponents_pem_public k pemBytes keyType scheme algos Hpemtype) as Hval.
  assert (supported keyType = true) as Hs by (unfold supported; now rewrite Hpemtype).
  pose proof (SetKeyComponents_KeyType k pemBytes EmptyString keyType scheme algos Hs)
    as Htype.
  split; [now rewrite Hval|].
  unfold InToto.GenerateSignature. rewrite Htype, Hpemtype, Hval. cbn [Private].
  now rewrite Hempty.
Qed.

End MoreSignatureFacts.

(** * More on the prototype *)

Section MorePrototypeFacts.
Context {L : GoLib}.

(** X19: [VerifySignature] of the prototype returns (it does not panic)
    exactly when the public component holds a PEM block, the block is read
    as a PKIX RSA public key, and [rsa.VerifyPSS] accepts the decoded
    signature over the SHA-256 digest of the data with salt length 32. *)
Theorem prototype_VerifySignature_returns_iff (key : Key) (sig : Signature) (data : string) :
  Main.VerifySignature key sig data = Ret tt
  <-> exists block rsaPub,
        pem_Decode (Public (Key_KeyVal key)) = Some block
        /\ x509_ParsePKIXPublicKey (Block_Bytes block) = inl (RsaPublicKey rsaPub)
        /\ rsa_VerifyPSS rsaPub crypto_SHA256 (sha256_Sum256 data)
             (fst (hex_DecodeString (Sig sig))) (mkPSSOptions 32 crypto_SHA256) = None.
Proof.
  unfold Main.VerifySignature. split.
  - destruct (pem_Decode _) as [block|] eqn:Hpem; [|discriminate].
    destruct (x509_ParsePKIXPublicKey _) as [[| rsaPub | | | | |]|err] eqn:Hparse;
      try discriminate.
    cbv zeta. destruct (rsa_VerifyPSS _ _ _ _ _) eqn:Hv; [discriminate|].
    intros _. exists block, rsaPub. repeat split; assumption.
  - intros (block & rsaPub & -> & -> & Hv). cbv zeta.
    change sha256_Size with 32%Z. now rewrite Hv.
Qed.

Lemma find_signature_skips (pre : list Signature) (s : Signature) (post : list Signature)
    (key : Key) :
  Forall (fun t => Signature_KeyId t <> KeyId key) pre ->
  Signature_KeyId s = KeyId key ->
  Main.find_signature (pre ++ s :: post) key = s.
Proof.
  intros Hpre Hs. induction Hpre as [|t pre Ht _ IH].
  - cbn [app Main.find_signature]. rewrite Hs. now rewrite String.eqb_refl.
  - cbn [app Main.find_signature]. apply String.eqb_neq in Ht. now rewrite Ht.
Qed.

(** X20: [Metablock.VerifySignature] verifies the first signature that
    bears the key's id, over the canonical encoding of the signed part
    alone: the signatures before it are skipped, the signatures after it
    are not looked at, and its outcome is the outcome of [VerifySignature]
    on that signature. *)
Theorem Metablock_VerifySignature_first_match (signed : Signed)
    (pre : list Signature) (s : Signature) (post : list Signature) (key : Key) :
  Forall (fun t => Signature_KeyId t <> KeyId key) pre ->
  Signature_KeyId s = KeyId key ->
  s <> Signature_zero ->
  Main.Metablock_VerifySignature (mkMetablock signed (pre ++ s :: post)) key
  = Main.VerifySignature key s (fst (canonicaljson_Marshal signed)).
Proof.
  intros Hpre Hs Hnz. rewrite Metablock_VerifySignature_delegates.
  - cbn [Signatures]. now rewrite (find_signature_skips pre s post key Hpre Hs).
  - cbn [Signatures]. now rewrite (find_signature_skips pre s post key Hpre Hs).
Qed.

(** X21: without a signature that bears the key's id (so also with no
    signature at all), [Metablock.VerifySignature] panics with the message
    that names the key id, and [VerifySignature] is not called. *)
Theorem Metablock_VerifySignature_without_signature (mb : Metablock) (key : Key) :
  (forall s, In s (Signatures mb) -> Signature_KeyId s <> KeyId key) ->
  Main.Metablock_VerifySignature mb key = Panic ("No signature found for key " ++ KeyId key).
Proof.
  intros H. apply Metablock_VerifySignature_no_entry. now apply Forall_forall.
Qed.

(** X22: when the bytes read are no JSON object (the file did not open,
    the text is not JSON, or its top level is an array, a string, a number
    or null), [Load] panics on a nil pointer. *)
Theorem Load_not_an_object (mb : Metablock) (path : string) :
  (forall members, json_parse (Main.read_ignoring_errors path) <> Some (JObject members)) ->
  Main.Load mb path = Panic Main.nil_dereference.
Proof.
  intros H. apply Load_without_members. left. unfold Main.rawMb_index.
  destruct (json_parse _) as [[| | | | |members]|]; try reflexivity.
  now contradiction (H members).
Qed.

(** X23: a metablock that [Load] returns is typed: its signed part is a
    [Link] decoded from a signed member whose _type is the string link, or a
    [Layout] decoded from one whose _type is the string layout, never nil;
    its signatures are decoded from the signatures member; and what the
    metablock held before as its signed part does not matter. *)
Theorem Load_returns_typed (mb mb' : Metablock) (path : string) :
  Main.Load mb path = Ret mb' ->
  exists rawSignatures rawSigned,
    Main.rawMb_index (Main.read_ignoring_errors path) "signatures" = Some rawSignatures
    /\ Main.rawMb_index (Main.read_ignoring_errors path) "signed" = Some rawSigned
    /\ Signatures mb' = json_Unmarshal_Signatures rawSignatures (Signatures mb)
    /\ ((Main.signed_index rawSigned "_type" = Some (JString "link")
         /\ Metablock_Signed mb' = SignedLink (json_Unmarshal_Link rawSigned))
        \/ (Main.signed_index rawSigned "_type" = Some (JString "layout")
            /\ Metablock_Signed mb' = SignedLayout (json_Unmarshal_Layout rawSigned))).
Proof.
  unfold Main.Load. cbv zeta.
  destruct (Main.rawMb_index _ "signatures") as [rawSignatures|] eqn:Hsigs; [|discriminate].
  destruct (Main.rawMb_index _ "signed") as [rawSigned|] eqn:Hsigned; [|discriminate].
  destruct (Main.interface_is_string _ "link") eqn:Hlink.
  - intros E. injection E as <-. exists rawSignatures, rawSigned.
    apply interface_is_string_true in Hlink. repeat split. left. now split.
  - destruct (Main.interface_is_string _ "layout") eqn:Hlayout; [|discriminate].
    intros E. injection E as <-. exists rawSignatures, rawSigned.
    apply interface_is_string_true in Hlayout. repeat split. right. now split.
Qed.

(** X24: [Key.Load] reports no failure: of a file that does not open it
    makes a key with an empty public component, and [VerifySignature] with
    that key panics for want of a PEM block (the empty text holds none). *)
Theorem Key_Load_unreadable_file (k : Key) (path : string) (err : error)
    (sig : Signature) (data : string) :
  os_Open path = inr err ->
  pem_Decode EmptyString = None ->
  Public (Key_KeyVal (Main.Key_Load k path)) = EmptyString
  /\ Main.VerifySignature (Main.Key_Load k path) sig data
     = Panic "Failed to parse PEM block containing the public key".
Proof.
  intros Hopen Hpem. unfold Main.Key_Load, Main.VerifySignature, Main.read_ignoring_errors.
  rewrite Hopen. cbn [Key_KeyVal Public]. now rewrite Hpem.
Qed.

(** X25: [Key.Load] gives every key the same key id, whatever the file
    holds and whatever the key held, so [Metablock.VerifySignature] with a
    key it loaded panics for every metablock none of whose signatures
    bears that one id. *)
Theorem Key_Load_fixed_key_id (k : Key) (path : string) (mb : Metablock) :
  (forall s, In s (Signatures mb) ->
             Signature_KeyId s
             <> "556caebdc0877eed53d419b60eddb1e57fa773e4e31d70698b588f3e9cc48b35") ->
  Main.Metablock_VerifySignature mb (Main.Key_Load k path)
  = Panic ("No signature found for key "
           ++ "556caebdc0877eed53d419b60eddb1e57fa773e4e31d70698b588f3e9cc48b35").
Proof.
  intros H. apply Metablock_VerifySignature_no_entry. now apply Forall_forall.
Qed.

End MorePrototypeFacts.

(** * Runs on the test library *)

Section Runs.
#[local] Existing Instance TestLib.lib.
Example GenerateKeyId_derives_key_id_witness :
  KeyId (fst (InToto.GenerateKeyId TestLib.alice))
  = hex_EncodeToString
      (sha256_Sum256 (encode_canonical (InToto.keyToBeHashed TestLib.alice)))
  /\ all_chars is_lower_hex (KeyId (fst (InToto.GenerateKeyId TestLib.alice))) = true
  /\ (forall id priv,
        KeyId (fst (InToto.GenerateKeyId
                      (mkKey id (KeyIdHashAlgorithms TestLib.alice) (KeyType TestLib.alice)
                         (mkKeyVal priv (Public (Key_KeyVal TestLib.alice)))
                         (Scheme TestLib.alice))))
        = KeyId (fst (InToto.GenerateKeyId TestLib.alice)))
  /\ InToto.GenerateKeyId (fst (InToto.GenerateKeyId TestLib.alice))
     = InToto.GenerateKeyId TestLib.alice.
Proof.
  apply (GenerateKeyId_derives_key_id TestLib.alice).
  reflexivity.
Defined.

Example VerifySignature_unsupported_key_type_witness :
  InToto.VerifySignature dsa_key (mkSignature "abc" "00") "payload"
  = Ret (Some (Wrap ErrInvalidSignature ("Key has type " ++ "dsa")))
  /\ errors_Is (Wrap ErrInvalidSignature ("Key has type " ++ "dsa")) ErrInvalidSignature = true
  /\ errors_Is (Wrap ErrInvalidSignature ("Key has type " ++ "dsa")) ErrUnsupportedKeyType
     = false.
Proof.
  apply (VerifySignature_unsupported_key_type dsa_key
           (mkSignature "abc" "00") "payload"); reflexivity.
Defined.

Example GenerateSignature_ecdsa_sign_failure_witness :
  InToto.GenerateSignature EmptyString "payload" TestLib.bob = Ret (Signature_zero, None)
  /\ Sig Signature_zero = hex_EncodeToString EmptyString.
Proof.
  apply (GenerateSignature_ecdsa_sign_failure EmptyString "payload"
           TestLib.bob
           (mkBlock "PRIVATE KEY" [] "EXYZ")
           (mkEcdsaPrivate (mkEcdsaPublic "P-256" 88 89) 90)
           (LibError "EOF")); reflexivity.
Defined.

(** C9, as stated, fails: a file that holds a PKIX public key after a line
    of text is accepted, and the public component stored is the text of
    the file, which is not the PEM block of type PUBLIC KEY around the
    key's PKIX encoding. *)
Example LoadKey_keeps_public_key_file :
  InToto.LoadKey TestLib.no_key "alice.pub" "rsassa-pss-sha256" ["sha256"; "sha512"]
  = (TestLib.alice_pub, None)
  /\ KeyType TestLib.alice_pub = rsaKeyType
  /\ Public (Key_KeyVal TestLib.alice_pub)
     = "Public key of alice" ++ TestLib.nl ++ "-----BEGIN PUBLIC KEY-----" ++ TestLib.nl
       ++ "rMA" ++ TestLib.nl ++ "-----END PUBLIC KEY-----"
  /\ x509_MarshalPKIXPublicKey (RsaPublicKey (mkRsaPublic 77 65)) = inl "rMA"
  /\ strings_TrimSpace (InToto.GeneratePublicPemBlock "rMA")
     = "-----BEGIN PUBLIC KEY-----" ++ TestLib.nl ++ "rMA" ++ TestLib.nl
       ++ "-----END PUBLIC KEY-----"
  /\ String.eqb (Public (Key_KeyVal TestLib.alice_pub))
       (strings_TrimSpace (InToto.GeneratePublicPemBlock "rMA")) = false.
Proof. repeat split. Qed.

Example LoadKey_stored_components_witness :
  (Public (Key_KeyVal TestLib.alice)
   = strings_TrimSpace (pem_EncodeToMemory (mkBlock "PUBLIC KEY" [] "rMA"))
   /\ Private (Key_KeyVal TestLib.alice)
      = strings_TrimSpace (TestLib.pem_text "PRIVATE KEY" "RMAQ"))
  /\ (Public (Key_KeyVal TestLib.alice_pub)
      = strings_TrimSpace ("Public key of alice" ++ TestLib.nl
                           ++ TestLib.pem_text "PUBLIC KEY" "rMA")
      /\ Private (Key_KeyVal TestLib.alice_pub) = EmptyString)
  /\ (Public (Key_KeyVal TestLib.carol) = hex_EncodeToString TestLib.point32
      /\ Private (Key_KeyVal TestLib.carol)
         = hex_EncodeToString (TestLib.seed32 ++ TestLib.point32)
      /\ all_chars is_lower_hex (Public (Key_KeyVal TestLib.carol)) = true
      /\ all_chars is_lower_hex (Private (Key_KeyVal TestLib.carol)) = true).
Proof.
  split; [|split].
  - apply (LoadKey_stored_components (L := TestLib.lib) TestLib.no_key "alice.rsa" "rsassa-pss-sha256"
             ["sha256"; "sha512"] "alice.rsa" (TestLib.pem_text "PRIVATE KEY" "RMAQ")
             (mkBlock "PRIVATE KEY" [] "RMAQ")
             (RsaPrivateKey (mkRsaPrivate (mkRsaPublic 77 65) 81 []))
             eq_refl eq_refl eq_refl eq_refl);
      [discriminate | reflexivity].
  - apply (LoadKey_stored_components (L := TestLib.lib) TestLib.no_key "alice.pub" "rsassa-pss-sha256"
             ["sha256"; "sha512"] "alice.pub"
             ("Public key of alice" ++ TestLib.nl ++ TestLib.pem_text "PUBLIC KEY" "rMA")
             (mkBlock "PUBLIC KEY" [] "rMA")
             (RsaPublicKey (mkRsaPublic 77 65))
             eq_refl eq_refl eq_refl eq_refl).
    discriminate.
  - apply (LoadKey_stored_components (L := TestLib.lib) TestLib.no_key "carol.ed25519" "ed25519"
             ["sha256"; "sha512"] "carol.ed25519"
             (TestLib.pem_text "PRIVATE KEY" (String "D" (TestLib.seed32 ++ TestLib.point32)))
             (mkBlock "PRIVATE KEY" [] (String "D" (TestLib.seed32 ++ TestLib.point32)))
             (Ed25519PrivateKey (TestLib.seed32 ++ TestLib.point32))
             eq_refl eq_refl eq_refl eq_refl).
    discriminate.
Defined.

(** C4, as stated, fails: with a valid Ed25519 signature, flipping bit 4
    of the first digit leaves no digit, and [VerifySignature] returns the
    error of [hex.DecodeString], which is not [ErrInvalidSignature];
    flipping bit 5 of the letter at index 19 changes its case, and
    [VerifySignature] still returns nil; with a valid ECDSA signature,
    flipping bit 4 of the first digit makes [VerifySignature] return the
    error of [asn1.Unmarshal]. *)
Example VerifySignature_flipped_bit :
  InToto.GenerateSignature "entropy" "hello" TestLib.carol = Ret (carol_signature, None)
  /\ InToto.VerifySignature TestLib.carol carol_signature "hello" = Ret None
  /\ String.get 0 (Sig carol_signature) = Some "4"%char
  /\ InToto.VerifySignature TestLib.carol (flipped 0 4 carol_signature) "hello"
     = Ret (Some (hex_InvalidByteError "$"))
  /\ errors_Is (hex_InvalidByteError "$") ErrInvalidSignature = false
  /\ String.get 19 (Sig carol_signature) = Some "a"%char
  /\ String.get 19 (Sig (flipped 19 5 carol_signature)) = Some "A"%char
  /\ InToto.VerifySignature TestLib.carol (flipped 19 5 carol_signature) "hello" = Ret None
  /\ InToto.GenerateSignature "entropy" "hello" TestLib.bob = Ret (bob_signature, None)
  /\ InToto.VerifySignature TestLib.bob bob_signature "hello" = Ret None
  /\ InToto.VerifySignature TestLib.bob (flipped 0 4 bob_signature) "hello"
     = Ret (Some (LibError "asn1: syntax error: sequence truncated"))
  /\ errors_Is (LibError "asn1: syntax error: sequence truncated") ErrInvalidSignature = false.
Proof. repeat split. Qed.

Example VerifySignature_altered_signature_witness :
  InToto.VerifySignature TestLib.alice (flipped 0 0 alice_signature) "hello"
  = Ret (Some (Wrap ErrInvalidSignature "crypto/rsa: verification error"))
  /\ InToto.VerifySignature TestLib.alice alice_signature "hello" = Ret None
  /\ InToto.VerifySignature TestLib.bob (flipped 0 4 bob_signature) "hello"
     = Ret (Some (LibError "asn1: syntax error: sequence truncated"))
  /\ InToto.VerifySignature TestLib.bob (flipped 0 0 bob_signature) "hello"
     = Ret (Some ErrInvalidSignature)
  /\ InToto.VerifySignature TestLib.bob bob_signature "hello" = Ret None
  /\ InToto.VerifySignature TestLib.carol (flipped 0 4 carol_signature) "hello"
     = Ret (Some (hex_InvalidByteError "$"))
  /\ InToto.VerifySignature TestLib.carol (flipped 0 0 carol_signature) "hello"
     = Ret (Some (Wrap ErrInvalidSignature "ed25519"))
  /\ InToto.VerifySignature TestLib.carol (flipped 19 5 carol_signature) "hello"
     = InToto.VerifySignature TestLib.carol carol_signature "hello".
Proof.
  refine (conj _ (conj _ (conj _ (conj _ (conj _ (conj _ (conj _ _))))))).
  - apply (proj1 (VerifySignature_altered_signature (L := TestLib.lib) TestLib.alice
                    (flipped 0 0 alice_signature) "hello")
             (mkBlock "PUBLIC KEY" [] "rMA") (mkRsaPublic 77 65)); reflexivity.
  - apply (proj1 (VerifySignature_altered_signature (L := TestLib.lib) TestLib.alice
                    alice_signature "hello")
             (mkBlock "PUBLIC KEY" [] "rMA") (mkRsaPublic 77 65)); reflexivity.
  - apply (proj1 (proj2 (VerifySignature_altered_signature (L := TestLib.lib) TestLib.bob
                           (flipped 0 4 bob_signature) "hello"))
             (mkBlock "PUBLIC KEY" [] "eXY") (mkEcdsaPublic "P-256" 88 89)); reflexivity.
  - apply (proj1 (proj2 (VerifySignature_altered_signature (L := TestLib.lib) TestLib.bob
                           (flipped 0 0 bob_signature) "hello"))
             (mkBlock "PUBLIC KEY" [] "eXY") (mkEcdsaPublic "P-256" 88 89)); reflexivity.
  - apply (proj1 (proj2 (VerifySignature_altered_signature (L := TestLib.lib) TestLib.bob
                           bob_signature "hello"))
             (mkBlock "PUBLIC KEY" [] "eXY") (mkEcdsaPublic "P-256" 88 89)); reflexivity.
  - apply (proj1 (proj2 (proj2 (VerifySignature_altered_signature (L := TestLib.lib)
                                  TestLib.carol (flipped 0 4 carol_signature) "hello")))
             TestLib.point32); reflexivity.
  - apply (proj1 (proj2 (proj2 (VerifySignature_altered_signature (L := TestLib.lib)
                                  TestLib.carol (flipped 0 0 carol_signature) "hello")))
             TestLib.point32); reflexivity.
  - apply (proj2 (proj2 (proj2 (VerifySignature_altered_signature (L := TestLib.lib)
                                  TestLib.carol carol_signature "hello")))
             19%nat "a"%char); reflexivity.
Defined.

Example sign_then_verify_succeeds_witness :
  (exists sig,
      InToto.GenerateSignature "entropy" "hello" TestLib.alice = Ret (sig, None)
      /\ Signature_KeyId sig = KeyId TestLib.alice
      /\ InToto.VerifySignature TestLib.alice sig "hello" = Ret None)
  /\ (exists sig,
         InToto.GenerateSignature "entropy" "hello" TestLib.bob = Ret (sig, None)
         /\ Signature_KeyId sig = KeyId TestLib.bob
         /\ InToto.VerifySignature TestLib.bob sig "hello" = Ret None)
  /\ (exists sig,
         InToto.GenerateSignature "entropy" "hello" TestLib.carol = Ret (sig, None)
         /\ Signature_KeyId sig = KeyId TestLib.carol
         /\ InToto.VerifySignature TestLib.carol sig "hello" = Ret None).
Proof.
  split; [|split]; apply (sign_then_verify_succeeds (L := TestLib.lib)).
  - apply (ready_rsa "entropy" "hello" TestLib.alice
             (mkBlock "PRIVATE KEY" [] "RMAQ") (mkBlock "PUBLIC KEY" [] "rMA")
             (mkRsaPrivate (mkRsaPublic 77 65) 81 []) (mkRsaPublic 77 65)
             (TestLib.rsa_signature (mkRsaPublic 77 65) (TestLib.sha256_Sum256 "hello")));
      reflexivity.
  - apply (ready_ecdsa "entropy" "hello" TestLib.bob
             (mkBlock "PRIVATE KEY" [] "EXYZ") (mkBlock "PUBLIC KEY" [] "eXY")
             (mkEcdsaPrivate (mkEcdsaPublic "P-256" 88 89) 90) (mkEcdsaPublic "P-256" 88 89)
             88%Z (TestLib.checksum (TestLib.sha256_Sum256 "hello"))
             (String (byte_of_Z 88)
                (str (byte_of_Z (TestLib.checksum (TestLib.sha256_Sum256 "hello")))))
             EmptyString);
      reflexivity.
  - apply (ready_ed25519 "entropy" "hello" TestLib.carol
             (TestLib.seed32 ++ TestLib.point32) TestLib.point32
             (TestLib.point32 ++ TestLib.sha256_Sum256 "hello"));
      reflexivity.
Defined.

(** C5, as stated, fails: a document whose signed part has the _type
    link and that has no signatures member does not load as a [Link]; the
    call panics on a nil pointer. *)
Example Load_without_signatures :
  Main.rawMb_index (Main.read_ignoring_errors "unsigned.link") "signed"
  = Some (JObject [("_type", JString "link"); ("name", JString "build")])
  /\ Main.signed_index (JObject [("_type", JString "link"); ("name", JString "build")]) "_type"
     = Some (JString "link")
  /\ Main.rawMb_index (Main.read_ignoring_errors "unsigned.link") "signatures" = None
  /\ Main.Load (mkMetablock SignedNil []) "unsigned.link" = Panic Main.nil_dereference.
Proof. repeat split. Qed.

Example Load_resolves_signed_by_type_witness :
  Main.Load (mkMetablock SignedNil []) "demo.link"
  = Ret (mkMetablock
           (SignedLink (mkLink "link" "build" [] [] [] ["make"] []))
           [mkSignature "k1" "00"])
  /\ Main.Load (mkMetablock SignedNil []) "demo.layout"
     = Ret (mkMetablock (SignedLayout (mkLayout "layout" [] [] [] EmptyString EmptyString)) [])
  /\ Main.Load (mkMetablock SignedNil []) "demo.widget" = Panic Main.unknown_type_message.
Proof.
  split; [|split].
  - apply (proj1 (Load_resolves_signed_by_type (L := TestLib.lib) (mkMetablock SignedNil [])
                    "demo.link"
                    (JArray [JObject [("keyid", JString "k1"); ("sig", JString "00")]])
                    (JObject [("_type", JString "link"); ("name", JString "build");
                              ("command", JArray [JString "make"])])
                    eq_refl eq_refl)).
    reflexivity.
  - apply (proj1 (proj2 (Load_resolves_signed_by_type (L := TestLib.lib)
                           (mkMetablock SignedNil []) "demo.layout" (JArray [])
                           (JObject [("_type", JString "layout")]) eq_refl eq_refl))).
    reflexivity.
  - apply (proj2 (proj2 (Load_resolves_signed_by_type (L := TestLib.lib)
                           (mkMetablock SignedNil []) "demo.widget" (JArray [])
                           (JObject [("_type", JString "widget")]) eq_refl eq_refl)));
      discriminate.
Defined.

End Runs.

(** * More runs on the test libraries *)

Section MoreRuns.
#[local] Existing Instance TestLib.lib.

Example encode_canonical_string_injective_witness :
  String "a" (str dquote) = String "a" (str dquote).
Proof.
  apply (encode_canonical_string_injective (String "a" (str dquote))
           (String "a" (str dquote))).
  reflexivity.
Defined.

Ltac distinct_keys :=
  unfold is_map; cbn [map fst];
  repeat (constructor; [cbn [In]; intuition discriminate|]); constructor.

Lemma sample_link_same_entries : same_entries sample_link sample_link_reordered.
Proof.
  apply same_map; [distinct_keys | distinct_keys | apply (Permutation_rev [_; _; _]) |].
  intros key. cbn [map_index].
  destruct (String.eqb_spec "name" key) as [<-|_]; [constructor|].
  destruct (String.eqb_spec "byproducts" key) as [<-|_].
  { cbn. apply same_map; [distinct_keys | distinct_keys | apply (Permutation_rev [_; _]) |].
    intros key. cbn [map_index].
    destruct (String.eqb_spec "stdout" key) as [<-|_]; [constructor|].
    destruct (String.eqb_spec "return-value" key) as [<-|_]; constructor. }
  destruct (String.eqb_spec "command" key) as [<-|_]; [|constructor].
  cbn. apply same_slice; [reflexivity|]. intros [|n]; [|destruct n; constructor].
  cbn [nth]. apply same_map; [distinct_keys | distinct_keys | apply (Permutation_rev [_; _]) |].
  intros key. cbn [map_index].
  destruct (String.eqb_spec "b" key) as [<-|_]; [constructor|].
  destruct (String.eqb_spec "a" key) as [<-|_]; constructor.
Qed.

Example encode_canonical_same_entries_witness :
  encode_canonical sample_link = encode_canonical sample_link_reordered.
Proof.
  apply (encode_canonical_same_entries sample_link sample_link_reordered).
  exact sample_link_same_entries.
Defined.

Example GenerateKeyId_stores_id_before_validation_witness :
  InToto.GenerateKeyId (L := StrictLib.lib) schemeless_key
  = (InToto.with_KeyId schemeless_key
       (hex_EncodeToString
          (TestLib.sha256_Sum256 (encode_canonical (InToto.keyToBeHashed schemeless_key)))),
     Some (LibError "empty scheme"))
  /\ KeyId (fst (InToto.GenerateKeyId (L := StrictLib.lib) schemeless_key))
     = hex_EncodeToString
         (TestLib.sha256_Sum256 (encode_canonical (InToto.keyToBeHashed schemeless_key))).
Proof.
  apply (GenerateKeyId_stores_id_before_validation (L := StrictLib.lib) schemeless_key
           (encode_canonical (InToto.keyToBeHashed schemeless_key))
           (LibError "empty scheme")); reflexivity.
Defined.

Example SetKeyComponents_overwrites_receiver_witness :
  snd (InToto.SetKeyComponents TestLib.no_key "pub" "priv" "ed25519" "ed25519" ["sha256"])
  = snd (InToto.SetKeyComponents TestLib.carol "pub" "priv" "ed25519" "ed25519" ["sha256"])
  /\ KeyType (fst (InToto.SetKeyComponents TestLib.no_key "pub" "priv" "ed25519" "ed25519"
                     ["sha256"])) = "ed25519"
  /\ Scheme (fst (InToto.SetKeyComponents TestLib.no_key "pub" "priv" "ed25519" "ed25519"
                    ["sha256"])) = "ed25519"
  /\ KeyIdHashAlgorithms (fst (InToto.SetKeyComponents TestLib.no_key "pub" "priv" "ed25519"
                                 "ed25519" ["sha256"])) = ["sha256"]
  /\ Key_KeyVal (fst (InToto.SetKeyComponents TestLib.no_key "pub" "priv" "ed25519" "ed25519"
                        ["sha256"]))
     = Key_KeyVal (fst (InToto.SetKeyComponents TestLib.carol "pub" "priv" "ed25519" "ed25519"
                          ["sha256"]))
  /\ (snd (InToto.SetKeyComponents TestLib.no_key "pub" "priv" "ed25519" "ed25519" ["sha256"])
      = None ->
      fst (InToto.SetKeyComponents TestLib.no_key "pub" "priv" "ed25519" "ed25519" ["sha256"])
      = fst (InToto.SetKeyComponents TestLib.carol "pub" "priv" "ed25519" "ed25519"
               ["sha256"])).
Proof.
  apply (SetKeyComponents_overwrites_receiver (L := TestLib.lib) TestLib.no_key TestLib.carol
           "pub" "priv" "ed25519" "ed25519" ["sha256"]).
  reflexivity.
Defined.

Example SetKeyComponents_unsupported_key_type_witness :
  InToto.SetKeyComponents TestLib.carol "pub" "priv" "dsa" "dsa-sha1" ["sha256"]
  = (TestLib.carol, Some (Wrap ErrUnsupportedKeyType "dsa"))
  /\ errors_Is (Wrap ErrUnsupportedKeyType "dsa") ErrUnsupportedKeyType = true
  /\ Error (Wrap ErrUnsupportedKeyType "dsa") = "unsupported key type: " ++ "dsa".
Proof.
  apply (SetKeyComponents_unsupported_key_type (L := TestLib.lib) TestLib.carol "pub" "priv"
           "dsa" "dsa-sha1" ["sha256"]).
  reflexivity.
Defined.

Example LoadKey_success_invariant_witness :
  supported (KeyType TestLib.alice) = true
  /\ Scheme TestLib.alice = "rsassa-pss-sha256"
  /\ KeyIdHashAlgorithms TestLib.alice = ["sha256"; "sha512"]
  /\ validateKey TestLib.alice = None
  /\ exists keyCanonical,
       EncodeCanonical (InToto.keyToBeHashed TestLib.alice) = inl keyCanonical
       /\ KeyId TestLib.alice = hex_EncodeToString (sha256_Sum256 keyCanonical)
       /\ all_chars is_lower_hex (KeyId TestLib.alice) = true.
Proof.
  apply (LoadKey_success_invariant (L := TestLib.lib) TestLib.no_key TestLib.alice "alice.rsa"
           "rsassa-pss-sha256" ["sha256"; "sha512"]).
  reflexivity.
Defined.

Example LoadKey_failure_paths_witness :
  InToto.LoadKey (L := StrictLib.lib) TestLib.carol "missing.pem" "ed25519" []
  = (TestLib.carol, Some (LibError "open missing.pem: no such file or directory"))
  /\ InToto.LoadKey (L := StrictLib.lib) TestLib.carol "demo.link" "ed25519" []
     = (TestLib.carol, Some ErrNoPEMBlock)
  /\ InToto.LoadKey (L := StrictLib.lib) TestLib.carol "garbage.pem" "ed25519" []
     = (TestLib.carol, Some ErrFailedPEMParsing)
  /\ InToto.LoadKey (L := StrictLib.lib) TestLib.carol "dsa.pub" "ed25519" []
     = (TestLib.carol, Some (Wrap ErrUnsupportedKeyType "*dsa.PublicKey"))
  /\ (overwritten_carol = TestLib.carol
      \/ exists keyType kv,
           supported keyType = true
           /\ InToto.GenerateKeyId (L := StrictLib.lib)
                (mkKey (KeyId TestLib.carol) [] keyType kv EmptyString)
              = (overwritten_carol, Some (LibError "empty scheme"))
           /\ KeyType overwritten_carol = keyType /\ Scheme overwritten_carol = EmptyString
           /\ KeyIdHashAlgorithms overwritten_carol = [] /\ Key_KeyVal overwritten_carol = kv)
  /\ KeyType overwritten_carol = "rsa"
  /\ KeyType TestLib.carol = "ed25519".
Proof.
  refine (conj _ (conj _ (conj _ (conj _ (conj _ (conj eq_refl eq_refl)))))).
  - apply (proj1 (LoadKey_failure_paths (L := StrictLib.lib) TestLib.carol "missing.pem"
                    "ed25519" [])).
    reflexivity.
  - apply (proj1 (proj1 (proj2 (proj2 (LoadKey_failure_paths (L := StrictLib.lib)
                                         TestLib.carol "demo.link" "ed25519" [])))
                    "demo.link" _ eq_refl eq_refl)).
    reflexivity.
  - apply (proj1 (proj2 (proj1 (proj2 (proj2 (LoadKey_failure_paths (L := StrictLib.lib)
                                                TestLib.carol "garbage.pem" "ed25519" [])))
                           "garbage.pem" _ eq_refl eq_refl)
                    (mkBlock "PRIVATE KEY" [] "zzz") eq_refl) ErrFailedPEMParsing).
    reflexivity.
  - apply (proj1 (proj2 (proj2 (proj1 (proj2 (proj2 (LoadKey_failure_paths
                                                       (L := StrictLib.lib) TestLib.carol
                                                       "dsa.pub" "ed25519" [])))
                                  "dsa.pub" _ eq_refl eq_refl)
                           (mkBlock "PUBLIC KEY" [] "oXY") eq_refl)) "*dsa.PublicKey").
    reflexivity.
  - apply (proj2 (proj2 (proj2 (LoadKey_failure_paths (L := StrictLib.lib) TestLib.carol
                                  "alice.rsa" EmptyString [])))
             overwritten_carol (LibError "empty scheme")).
    reflexivity.
Defined.

Example LoadKey_ed25519_key_is_used_as_parsed_witness :
  InToto.GenerateSignature "entropy" "hello"
    (fst (InToto.LoadKey TestLib.no_key "carol.ed25519" "ed25519" ["sha256"; "sha512"]))
  = bind_outcome (ed25519_Sign (TestLib.seed32 ++ TestLib.point32) "hello")
      (fun signatureBuffer =>
         Ret (mkSignature
                (KeyId (fst (InToto.LoadKey TestLib.no_key "carol.ed25519" "ed25519"
                               ["sha256"; "sha512"])))
                (hex_EncodeToString signatureBuffer), None))
  /\ InToto.VerifySignature
       (fst (InToto.LoadKey TestLib.no_key "carol.ed25519" "ed25519" ["sha256"; "sha512"]))
       carol_signature "hello"
     = bind_outcome
         (ed25519_Verify (ed25519_Public (TestLib.seed32 ++ TestLib.point32)) "hello"
            (TestLib.point32 ++ TestLib.sha256_Sum256 "hello"))
         (fun ok => if ok then Ret None
                    else Ret (Some (Wrap ErrInvalidSignature "ed25519"))).
Proof.
  apply (LoadKey_ed25519_key_is_used_as_parsed (L := TestLib.lib) TestLib.no_key
           "carol.ed25519" "ed25519" ["sha256"; "sha512"] "carol.ed25519"
           (TestLib.pem_text "PRIVATE KEY" (String "D" (TestLib.seed32 ++ TestLib.point32)))
           (mkBlock "PRIVATE KEY" [] (String "D" (TestLib.seed32 ++ TestLib.point32)))
           (TestLib.seed32 ++ TestLib.point32) "entropy" "hello" carol_signature
           (TestLib.point32 ++ TestLib.sha256_Sum256 "hello"));
    reflexivity.
Defined.

Example GenerateSignature_returns_hex_witness :
  (exists signatureBuffer,
      Sig alice_signature = hex_EncodeToString signatureBuffer
      /\ hex_DecodeString (Sig alice_signature) = (signatureBuffer, None))
  /\ all_chars is_lower_hex (Sig alice_signature) = true
  /\ (alice_signature = Signature_zero
      \/ Signature_KeyId alice_signature = KeyId TestLib.alice)
  /\ (@None error <> None -> alice_signature = Signature_zero).
Proof.
  apply (GenerateSignature_returns_hex (L := TestLib.lib) "entropy" "hello" TestLib.alice
           alice_signature None).
  reflexivity.
Defined.

Example GenerateSignature_material_mismatch_witness :
  InToto.GenerateSignature "entropy" "hello" alice_as_ecdsa
  = Ret (Signature_zero, Some ErrInvalidKeyType).
Proof.
  apply (GenerateSignature_material_mismatch (L := TestLib.lib) "entropy" "hello"
           alice_as_ecdsa (mkBlock "PRIVATE KEY" [] "RMAQ")
           (RsaPrivateKey (mkRsaPrivate (mkRsaPublic 77 65) 81 []))
           eq_refl eq_refl eq_refl eq_refl).
Defined.

Example GenerateSignature_ed25519_without_private_witness :
  InToto.GenerateSignature "entropy" "hello" carol_public
  = Panic "ed25519: bad private key length".
Proof.
  apply (GenerateSignature_ed25519_without_private (L := TestLib.lib) "entropy" "hello"
           carol_public "ed25519: bad private key length"); reflexivity.
Defined.

Example VerifySignature_nil_means_accepted_witness :
  (exists data pub,
      pem_Decode (Public (Key_KeyVal TestLib.carol)) = Some data
      /\ InToto.ParseKey (Block_Bytes data) = inl (RsaPublicKey pub)
      /\ rsa_VerifyPSS pub crypto_SHA256 (sha256_Sum256 "hello")
           (fst (hex_DecodeString (Sig carol_signature))) (mkPSSOptions 32 crypto_SHA256)
         = None)
  \/ (exists data pub ecdsaSignature rest,
         pem_Decode (Public (Key_KeyVal TestLib.carol)) = Some data
         /\ InToto.ParseKey (Block_Bytes data) = inl (EcdsaPublicKey pub)
         /\ asn1_Unmarshal (fst (hex_DecodeString (Sig carol_signature)))
            = inl (ecdsaSignature, rest)
         /\ ecdsa_Verify pub (sha256_Sum256 "hello") (sig_R ecdsaSignature)
              (sig_S ecdsaSignature) = true)
  \/ (exists pubHex sigHex,
         KeyType TestLib.carol = ed25519KeyType
         /\ hex_DecodeString (Public (Key_KeyVal TestLib.carol)) = (pubHex, None)
         /\ hex_DecodeString (Sig carol_signature) = (sigHex, None)
         /\ ed25519_Verify pubHex "hello" sigHex = Ret true).
Proof.
  apply (VerifySignature_nil_means_accepted (L := TestLib.lib) TestLib.carol carol_signature
           "hello").
  reflexivity.
Defined.

Example VerifySignature_ignores_hex_tail_witness :
  InToto.VerifySignature TestLib.alice
    (mkSignature "id"
       (hex_EncodeToString
          (TestLib.rsa_signature (mkRsaPublic 77 65) (TestLib.sha256_Sum256 "hello"))
        ++ String "z" "z")) "hello"
  = InToto.VerifySignature TestLib.alice
      (mkSignature "id"
         (hex_EncodeToString
            (TestLib.rsa_signature (mkRsaPublic 77 65) (TestLib.sha256_Sum256 "hello"))))
      "hello".
Proof.
  apply (VerifySignature_ignores_hex_tail (L := TestLib.lib) TestLib.alice "id"
           (TestLib.rsa_signature (mkRsaPublic 77 65) (TestLib.sha256_Sum256 "hello"))
           "z"%char "z" "hello").
  - reflexivity.
  - left. reflexivity.
Defined.

Example VerifySignature_reads_type_and_public_witness :
  InToto.VerifySignature TestLib.alice alice_signature "hello"
  = InToto.VerifySignature alice_as_ecdsa (mkSignature "k1" (Sig alice_signature)) "hello".
Proof.
  apply (VerifySignature_reads_type_and_public (L := TestLib.lib) TestLib.alice alice_as_ecdsa
           alice_signature (mkSignature "k1" (Sig alice_signature)) "hello").
  - right. split; reflexivity.
  - reflexivity.
  - reflexivity.
Defined.

Example LoadKey_public_key_cannot_sign_witness :
  Private (Key_KeyVal (fst (InToto.LoadKey TestLib.no_key "alice.pub" "rsassa-pss-sha256"
                              ["sha256"; "sha512"]))) = EmptyString
  /\ InToto.GenerateSignature "entropy" "hello"
       (fst (InToto.LoadKey TestLib.no_key "alice.pub" "rsassa-pss-sha256"
               ["sha256"; "sha512"]))
     = Ret (Signature_zero, Some ErrNoPEMBlock).
Proof.
  apply (LoadKey_public_key_cannot_sign (L := TestLib.lib) TestLib.no_key "alice.pub"
           "rsassa-pss-sha256" ["sha256"; "sha512"] "alice.pub"
           ("Public key of alice" ++ TestLib.nl ++ TestLib.pem_text "PUBLIC KEY" "rMA")
           (mkBlock "PUBLIC KEY" [] "rMA") (RsaPublicKey (mkRsaPublic 77 65))
           "entropy" "hello" eq_refl eq_refl eq_refl eq_refl).
  - left. exists (mkRsaPublic 77 65). reflexivity.
  - reflexivity.
Defined.

Example Metablock_VerifySignature_first_match_witness :
  Main.Metablock_VerifySignature (mkMetablock SignedNil three_signatures) TestLib.alice
  = Main.VerifySignature TestLib.alice alice_signature (fst (canonicaljson_Marshal SignedNil)).
Proof.
  apply (Metablock_VerifySignature_first_match (L := TestLib.lib) SignedNil
           [mkSignature "k1" "00"] alice_signature
           [mkSignature (KeyId TestLib.alice) "ff"] TestLib.alice).
  - repeat constructor. discriminate.
  - reflexivity.
  - discriminate.
Defined.

Example Metablock_VerifySignature_without_signature_witness :
  Main.Metablock_VerifySignature (mkMetablock SignedNil [mkSignature "k1" "00"]) TestLib.alice
  = Panic ("No signature found for key " ++ KeyId TestLib.alice).
Proof.
  apply (Metablock_VerifySignature_without_signature (L := TestLib.lib)
           (mkMetablock SignedNil [mkSignature "k1" "00"]) TestLib.alice).
  intros s [<-|[]]. discriminate.
Defined.

Example Load_not_an_object_witness :
  Main.Load (mkMetablock SignedNil []) "no such file" = Panic Main.nil_dereference.
Proof.
  apply (Load_not_an_object (L := TestLib.lib) (mkMetablock SignedNil []) "no such file").
  intros members. discriminate.
Defined.

Example Load_returns_typed_witness :
  exists rawSignatures rawSigned,
    Main.rawMb_index (Main.read_ignoring_errors "demo.layout") "signatures"
    = Some rawSignatures
    /\ Main.rawMb_index (Main.read_ignoring_errors "demo.layout") "signed" = Some rawSigned
    /\ Signatures (mkMetablock (SignedLayout (mkLayout "layout" [] [] [] "" "")) [])
       = json_Unmarshal_Signatures rawSignatures (Signatures (mkMetablock SignedNil []))
    /\ ((Main.signed_index rawSigned "_type" = Some (JString "link")
         /\ Metablock_Signed (mkMetablock (SignedLayout (mkLayout "layout" [] [] [] "" "")) [])
            = SignedLink (json_Unmarshal_Link rawSigned))
        \/ (Main.signed_index rawSigned "_type" = Some (JString "layout")
            /\ Metablock_Signed
                 (mkMetablock (SignedLayout (mkLayout "layout" [] [] [] "" "")) [])
               = SignedLayout (json_Unmarshal_Layout rawSigned))).
Proof.
  apply (Load_returns_typed (L := TestLib.lib) (mkMetablock SignedNil [])
           (mkMetablock (SignedLayout (mkLayout "layout" [] [] [] "" "")) []) "demo.layout").
  reflexivity.
Defined.

Example Key_Load_unreadable_file_witness :
  Public (Key_KeyVal (Main.Key_Load TestLib.no_key "no such file")) = EmptyString
  /\ Main.VerifySignature (Main.Key_Load TestLib.no_key "no such file") alice_signature "hello"
     = Panic "Failed to parse PEM block containing the public key".
Proof.
  apply (Key_Load_unreadable_file (L := TestLib.lib) TestLib.no_key "no such file"
           (LibError "open no such file: no such file or directory") alice_signature "hello");
    reflexivity.
Defined.

Example Key_Load_fixed_key_id_witness :
  Main.Metablock_VerifySignature (mkMetablock SignedNil three_signatures)
    (Main.Key_Load TestLib.no_key "alice.pub")
  = Panic ("No signature found for key "
           ++ "556caebdc0877eed53d419b60eddb1e57fa773e4e31d70698b588f3e9cc48b35").
Proof.
  apply (Key_Load_fixed_key_id (L := TestLib.lib) TestLib.no_key "alice.pub"
           (mkMetablock SignedNil three_signatures)).
  intros s [<-|[<-|[<-|[]]]]; discriminate.
Defined.

End MoreRuns.
